(** * wasel: session lifecycle manager and outbound dispatch queue

    A shallow embedding of [src/services/baileys/SessionManager.js] and
    [src/services/baileys/MessageService.js], with the properties of the
    specification stated and proved over it.

    JavaScript strings are modelled as [string]; the two [Map]s of the
    session manager are [gmap]s keyed by session identifier; the file
    system is the set of the directories that exist, each by its path; the
    effects of the asynchronous code (transport sends, timers, log lines,
    callbacks) are recorded in an explicit trace.  An asynchronous method
    is modelled as it runs when no other code runs at its awaits;
    [createSession] is modelled from one await to the next as well. *)

From Stdlib Require Import String Ascii List ZArith Lia Bool.
From stdpp Require Import base gmap strings list pretty.
From Equations Require Import Equations.
Import ListNotations.

Local Open Scope string_scope.

(** ** JavaScript string primitives used by the two services *)

Module JsString.

(** [s.startsWith(p)] *)
Definition startsWith (s p : string) : bool := String.prefix p s.

(** [s.includes(sub)]: [sub] occurs somewhere in [s]. *)
Fixpoint includes (s sub : string) : bool :=
  startsWith s sub ||
  match s with
  | EmptyString => false
  | String _ rest => includes rest sub
  end.

(** [s.substring(1)] *)
Definition substring1 (s : string) : string :=
  match s with
  | EmptyString => EmptyString
  | String _ rest => rest
  end.

(** [s.split(':')[0]] *)
Fixpoint split_colon_0 (s : string) : string :=
  match s with
  | EmptyString => EmptyString
  | String c rest =>
      if Ascii.eqb c ":"%char then EmptyString else String c (split_colon_0 rest)
  end.

(** the character class [\d] (no unicode flag): '0'..'9' *)
Definition is_digit (c : ascii) : bool :=
  (48 <=? nat_of_ascii c)%nat && (nat_of_ascii c <=? 57)%nat.

(** the character class [[^\d+]]: anything but a digit or a plus sign *)
Definition not_digit_nor_plus (c : ascii) : bool :=
  negb (is_digit c || Ascii.eqb c "+"%char).

(** [s.replace(/[^\d+]/g, '')] *)
Fixpoint replace_not_digit_nor_plus (s : string) : string :=
  match s with
  | EmptyString => EmptyString
  | String c rest =>
      if not_digit_nor_plus c then replace_not_digit_nor_plus rest
      else String c (replace_not_digit_nor_plus rest)
  end.

End JsString.

(** ** Paths, as [path.join] makes them on a POSIX system *)

Module JsPath.

(** A normalised absolute path, by its segments below the root. *)
Definition Path : Type := list string.

(** The segments of a string between its slashes. *)
Fixpoint split_slash (s : string) : list string :=
  match s with
  | EmptyString => [EmptyString]
  | String c rest =>
      if Ascii.eqb c "/"%char then EmptyString :: split_slash rest
      else match split_slash rest with
           | segment :: segments => String c segment :: segments
           | [] => [String c EmptyString]
           end
  end.

(** What normalisation does with one more segment: an empty segment and
    [.] change nothing, [..] leaves the last directory (the root stays
    the root), any other segment is entered. *)
Definition enter (p : Path) (segment : string) : Path :=
  if String.eqb segment "" || String.eqb segment "." then p
  else if String.eqb segment ".." then removelast p
  else (p ++ [segment])%list.

(** [path.join(base, s)] for a normalised absolute [base] *)
Definition join (base : Path) (s : string) : Path :=
  fold_left enter (split_slash s) base.

(** The path itself and the directories above it, the root first. *)
Fixpoint upto (p : Path) : list Path :=
  [] :: match p with
        | [] => []
        | segment :: p => cons segment <$> upto p
        end.

End JsPath.

(** ** MessageService.formatPhoneNumber *)

Definition formatPhoneNumber (phoneNumber : string) : string :=
  if JsString.includes phoneNumber "@" then phoneNumber
  else
    let cleaned := JsString.replace_not_digit_nor_plus phoneNumber in
    let cleaned :=
      if JsString.startsWith cleaned "+" then JsString.substring1 cleaned
      else cleaned in
    cleaned ++ "@s.whatsapp.net".

(** The normalisation as the specification words it, on the list of
    characters of the input. *)
Module AddressSpec.

Definition separator : ascii := "@"%char.
Definition network_suffix : string := "@s.whatsapp.net".

Definition digit_or_plus (c : ascii) : bool :=
  (if In_dec ascii_dec c (list_ascii_of_string "0123456789") then true else false)
  || (if ascii_dec c "+"%char then true else false).

Definition drop_leading_plus (l : list ascii) : list ascii :=
  match l with
  | c :: rest => if ascii_dec c "+"%char then rest else l
  | [] => []
  end.

Definition normalize (raw : string) : string :=
  let chars := list_ascii_of_string raw in
  if In_dec ascii_dec separator chars then raw
  else
    string_of_list_ascii
      (drop_leading_plus (List.filter digit_or_plus chars)) ++ network_suffix.

End AddressSpec.

(** ** Data model *)

(** JavaScript [Error] objects, as far as the services look at them. *)
Record JsError := {
  error_name : string;
  error_message : string;
}.

(** [Error.prototype.toString] *)
Definition error_toString (e : JsError) : string :=
  if String.eqb (error_name e) "" then error_message e
  else if String.eqb (error_message e) "" then error_name e
  else error_name e ++ ": " ++ error_message e.

(** [new Error(msg)] *)
Definition new_Error (msg : string) : JsError :=
  {| error_name := "Error"; error_message := msg |}.

(** Outcome of a call that may raise. *)
Inductive Result (A : Type) : Type :=
| Ok (a : A)
| Throw (e : JsError).
Arguments Ok {A} a.
Arguments Throw {A} e.

(** A transport socket object is identified by its allocation number. *)
Definition handle := nat.

(** [sock.user] once the socket is authenticated. *)
Record User := {
  user_id : string;
  user_name : string;
}.

(** The [callbacks] argument of [createSession]: which callbacks are
    supplied, plus the two option fields the code reads from it. *)
Record Callbacks := {
  onQR : bool;
  onConnected : bool;
  onDisconnected : bool;
  onMessage : bool;
  isNew : bool;
  retryCount : option nat;
}.

Definition no_callbacks : Callbacks :=
  {| onQR := false; onConnected := false; onDisconnected := false;
     onMessage := false; isNew := false; retryCount := None |}.

(** [{ ...callbacks, retryCount }] *)
Definition with_retryCount (cb : Callbacks) (n : nat) : Callbacks :=
  {| onQR := onQR cb; onConnected := onConnected cb;
     onDisconnected := onDisconnected cb; onMessage := onMessage cb;
     isNew := isNew cb; retryCount := Some n |}.

(** State of one socket object.  [sock_live] holds from [makeWASocket]
    until the socket is ended by the manager or closed by the transport. *)
Record Socket := {
  sock_session : string;
  sock_callbacks : Callbacks;
  sock_version : list Z;
  sock_user : option User;
  sock_live : bool;
}.

(** What [lastDisconnect] carries on a close event. *)
Record DisconnectError := {
  de_error : JsError;
  de_boom_status : option Z;  (* [Some code] when [error instanceof Boom] *)
}.

Record LastDisconnect := {
  ld_error : option DisconnectError;
}.

Inductive Connection := ConnClose | ConnOpen | ConnConnecting.

(** The [update] object of a [connection.update] event. *)
Record ConnectionUpdate := {
  connection : option Connection;
  lastDisconnect : option LastDisconnect;
  qr : option string;
}.

(** A button of [sendButtonMessage]. *)
Record Button := {
  btn_id : option string;
  btn_text : string;
}.

(** Payload handed to the transport's [sendMessage]. *)
Inductive Content :=
| CText (text : string)
| CButtons (text footer : string) (buttons : list (string * string)).

(** An entry of [messageQueue]. *)
Record QueueItem := {
  item_sessionId : string;
  item_phoneNumber : string;
  item_message : string;
  item_type : string;
  item_buttons : option (list Button);  (* [options.buttons] *)
  item_timestamp : Z;
}.

(** Work handed to [setTimeout] without being awaited. *)
Inductive TimerAction :=
| TimerCreateSession (sessionId : string) (cb : Callbacks)
| TimerRemoveSession (sessionId : string).

(** What [onDisconnected] is called with. *)
Inductive DisconnectReason :=
| ReasonLastDisconnect (ld : LastDisconnect)
| ReasonError (e : JsError).

(** Observable effects, in the order they happen. *)
Inductive Event :=
| EvSend (h : handle) (jid : string) (c : Content)  (* [session.sendMessage(jid, c)] *)
| EvDelay (ms : Z)                                  (* awaited [setTimeout] *)
| EvTimer (ms : Z) (a : TimerAction)                (* [setTimeout] left running *)
| EvSocketEnd (h : handle)                          (* [sock.end(undefined)] *)
| EvOnQR (sessionId qrDataURL code : string)
| EvOnConnected (sessionId : string) (phoneNumber name : option string)
| EvOnDisconnected (sessionId : string) (r : DisconnectReason)
| EvConsoleError (what : string).

(** Where a [createSession] call stands.  The method is asynchronous: at
    each of its awaits it is suspended, and other code may run before it
    goes on. *)
Inductive CreateCall :=
| Called                (* not yet run *)
| InRemoveSession       (* at the pause inside the awaited [removeSession] *)
| AfterRemoveSession    (* at [await this.removeSession(...)], which has returned *)
| LoadingAuth           (* at the first [await useMultiFileAuthState(...)] *)
| ReloadingAuth         (* at the second one, in the [catch] *)
| FetchingVersion       (* at [await fetchLatestBaileysVersion()] *)
| Settled (r : Result handle).

(** Kinds of health events. *)
Inductive HealthKind := failure | reconnect | fatal_error.

#[global] Instance HealthKind_eq_dec : EqDecision HealthKind.
Proof. solve_decision. Defined.

(** Everything the two singletons and their collaborators hold. *)
Record World := {
  sessions : gmap string handle;          (* [sessionManager.sessions] *)
  qrCodes : gmap string string;           (* [sessionManager.qrCodes] *)
  sockets : gmap handle Socket;           (* the socket objects ever made *)
  dirs : gset JsPath.Path;                (* the directories that exist *)
  health : gmap string (list (HealthKind * Z));  (* health monitor records *)
  clock : Z;                              (* [Date.now()] *)
  trace : list Event;
}.

Definition empty_world : World :=
  {| sessions := ∅; qrCodes := ∅; sockets := ∅; dirs := ∅; health := ∅;
     clock := 0; trace := [] |}.

(** Field updates. *)
Definition set_sessions (f : gmap string handle -> gmap string handle) (w : World) : World :=
  {| sessions := f (sessions w); qrCodes := qrCodes w; sockets := sockets w;
     dirs := dirs w; health := health w; clock := clock w; trace := trace w |}.

Definition set_qrCodes (f : gmap string string -> gmap string string) (w : World) : World :=
  {| sessions := sessions w; qrCodes := f (qrCodes w); sockets := sockets w;
     dirs := dirs w; health := health w; clock := clock w; trace := trace w |}.

Definition set_sockets (f : gmap handle Socket -> gmap handle Socket) (w : World) : World :=
  {| sessions := sessions w; qrCodes := qrCodes w; sockets := f (sockets w);
     dirs := dirs w; health := health w; clock := clock w; trace := trace w |}.

Definition set_dirs (f : gset JsPath.Path -> gset JsPath.Path) (w : World) : World :=
  {| sessions := sessions w; qrCodes := qrCodes w; sockets := sockets w;
     dirs := f (dirs w); health := health w; clock := clock w; trace := trace w |}.

Definition set_health
    (f : gmap string (list (HealthKind * Z)) -> gmap string (list (HealthKind * Z)))
    (w : World) : World :=
  {| sessions := sessions w; qrCodes := qrCodes w; sockets := sockets w;
     dirs := dirs w; health := f (health w); clock := clock w; trace := trace w |}.

(** An effect is appended to the trace. *)
Definition emit (e : Event) (w : World) : World :=
  {| sessions := sessions w; qrCodes := qrCodes w; sockets := sockets w;
     dirs := dirs w; health := health w; clock := clock w;
     trace := (trace w ++ [e])%list |}.

(** [await new Promise(resolve => setTimeout(resolve, ms))] *)
Definition delay (ms : Z) (w : World) : World :=
  {| sessions := sessions w; qrCodes := qrCodes w; sockets := sockets w;
     dirs := dirs w; health := health w; clock := (clock w + ms)%Z;
     trace := (trace w ++ [EvDelay ms])%list |}.

Definition console_error (what : string) (w : World) : World :=
  emit (EvConsoleError what) w.

(** ** The collaborators the code calls but does not implement

    How the transport library, the file system and the health monitor's
    policy constants behave during a call. *)
Record Env := {
  (* [this.authDir], the directory that holds one directory per session *)
  authDir : JsPath.Path;
  (* [sock.end(undefined)] raises on this socket *)
  end_throws : handle -> bool;
  (* [fs.rmSync(sessionPath, { recursive, force })] raises (files still
     locked), for the directory of this session *)
  rmSync_throws : string -> bool;
  (* [useMultiFileAuthState(dir)] raises on its n-th call within one
     [createSession] (n = 0 or 1) *)
  auth_load_throws : string -> nat -> bool;
  (* [fetchLatestBaileysVersion()]: [None] when it raises *)
  fetched_version : option (list Z);
  (* [makeWASocket(config)] raises *)
  makeWASocket_throws : bool;
  (* [await qrcode.toDataURL(qr, ...)]: the image, or the error the promise
     rejects with (a code that does not fit a QR symbol) *)
  qr_toDataURL : string -> Result string;
  (* [session.sendMessage(jid, content)], given how many transport sends
     were made before this one *)
  send_outcome : handle -> string -> Content -> nat -> Result string;
  (* policy constants of the health monitor *)
  health_window : Z;
  health_max_failures : nat;
  (* what the health monitor answers for a session it holds no record of *)
  health_no_record : bool;
}.

(** ** State-and-exception monad of the asynchronous methods *)

Definition M (A : Type) : Type := World -> Result A * World.

#[global] Instance M_ret : MRet M := fun A a w => (Ok a, w).

#[global] Instance M_bind : MBind M := fun A B k c w =>
  match c w with
  | (Ok a, w') => k a w'
  | (Throw e, w') => (Throw e, w')
  end.

(** [throw e] *)
Definition throw {A} (e : JsError) : M A := fun w => (Throw e, w).

(** [try { c } catch (error) { h error }] *)
Definition try_catch {A} (c : M A) (h : JsError -> M A) : M A := fun w =>
  match c w with
  | (Ok a, w') => (Ok a, w')
  | (Throw e, w') => h e w'
  end.

Definition modify (f : World -> World) : M unit := fun w => (Ok tt, f w).
Definition gets {A} (f : World -> A) : M A := fun w => (Ok (f w), w).

(** [if (b) { c }] *)
Definition when (b : bool) (c : M unit) : M unit :=
  if b then c else mret tt.

(** ** Connection Health Monitor *)

Module HealthMonitor.

(** Modelled from the spec: [networkOptimizer.startMonitoring]; the file
    [NetworkOptimizer.js] is not among the sources.  The record is
    created on the first monitoring start. *)
Definition startMonitoring (sessionId : string) (w : World) : World :=
  set_health (fun h => match h !! sessionId with
                       | Some _ => h
                       | None => <[sessionId := []]> h
                       end) w.

(** Modelled from the spec: [networkOptimizer.recordEvent], missing for
    the same reason; appends the kind with a timestamp. *)
Definition recordEvent (sessionId : string) (kind : HealthKind) (w : World) : World :=
  set_health (fun h =>
    <[sessionId := (default [] (h !! sessionId) ++ [(kind, clock w)])%list]> h) w.

(** Modelled from the spec: [networkOptimizer.cleanup], missing for the
    same reason; discards the log of the session. *)
Definition cleanup (sessionId : string) (w : World) : World :=
  set_health (delete sessionId) w.

Definition has_fatal (log : list (HealthKind * Z)) : bool :=
  existsb (fun ev => bool_decide (ev.1 = fatal_error)) log.

Definition recent_failures (window now : Z) (log : list (HealthKind * Z)) : nat :=
  length (List.filter
            (fun ev => bool_decide (ev.1 = failure) && (now - window <=? ev.2)%Z)
            log).

(** Modelled from the spec: [networkOptimizer.shouldAttemptConnection],
    missing for the same reason; denies when a [fatal_error] was ever
    recorded in the session's log or when the failures within the recent
    window exceed the threshold.  The spec does not say what the answer is
    for a session without a record: that is left to the environment. *)
Definition shouldAttemptConnection (env : Env) (sessionId : string) (w : World) : bool :=
  match health w !! sessionId with
  | Some log =>
      negb (has_fatal log)
      && (recent_failures (health_window env) (clock w) log <=? health_max_failures env)%nat
  | None => health_no_record env
  end.

End HealthMonitor.

(** A socket object after it was ended or closed. *)
Definition ended (s : Socket) : Socket :=
  {| sock_session := sock_session s; sock_callbacks := sock_callbacks s;
     sock_version := sock_version s; sock_user := sock_user s;
     sock_live := false |}.

(** ** SessionManager *)

Definition Bad_MAC : string := "Bad MAC".
Definition DisconnectReason_loggedOut : Z := 401.
Definition fallback_version : list Z := [2; 3000; 1015901307]%Z.

Section SessionManager.

Context (env : Env).

(** [getSession(sessionId)] *)
Definition getSession (sessionId : string) (w : World) : option handle :=
  sessions w !! sessionId.

(** [session.user] of a socket object *)
Definition user_of (w : World) (sock : handle) : option User :=
  s ← sockets w !! sock; sock_user s.

(** [isConnected(sessionId)]: [session && session.user], as a truth value *)
Definition isConnected (sessionId : string) (w : World) : bool :=
  match sessions w !! sessionId with
  | Some session => bool_decide (is_Some (user_of w session))
  | None => false
  end.

(** [sock.end(undefined)] *)
Definition sock_end (sock : handle) : M unit := fun w =>
  let w := emit (EvSocketEnd sock) w in
  if end_throws env sock then (Throw (new_Error "socket end failed"), w)
  else (Ok tt, set_sockets (alter ended sock) w).

(** [path.join(this.authDir, sessionId)] *)
Definition sessionPath (sessionId : string) : JsPath.Path :=
  JsPath.join (authDir env) sessionId.

(** [fs.existsSync(p)] *)
Definition existsSync (p : JsPath.Path) (w : World) : bool :=
  bool_decide (p ∈ dirs w).

(** [fs.mkdirSync(p, { recursive: true })]: the directory and those above
    it exist afterwards. *)
Definition mkdirSync (p : JsPath.Path) (w : World) : World :=
  set_dirs (fun d => d ∪ list_to_set (JsPath.upto p)) w.

(** [fs.rmSync(sessionPath, { recursive: true, force: true })]: the
    directory goes with everything below it. *)
Definition rmSync (sessionId : string) : M unit := fun w =>
  if rmSync_throws env sessionId then (Throw (new_Error "EBUSY"), w)
  else (Ok tt,
        set_dirs (filter (fun q => ¬ sessionPath sessionId `prefix_of` q)) w).

(** [removeSession(sessionId)], when nothing else runs during its pause *)
Definition removeSession (sessionId : string) : M unit :=
  try_catch
    (has ← gets (fun w => sessions w !! sessionId);
     match has with
     | Some sock =>
         sock_end sock;;
         modify (set_sessions (delete sessionId))
     | None => mret tt
     end;;
     hasQr ← gets (fun w => bool_decide (is_Some (qrCodes w !! sessionId)));
     when hasQr (modify (set_qrCodes (delete sessionId)));;
     modify (HealthMonitor.cleanup sessionId);;
     exists_ ← gets (existsSync (sessionPath sessionId));
     when exists_
       (modify (delay 1000);;
        rmSync sessionId))
    (fun error => modify (console_error ("Error removing session " ++ sessionId))).

(** [handleSessionCorruption(sessionId, onDisconnected)] *)
Definition handleSessionCorruption (sessionId : string) (onDisconnected : bool) : M unit :=
  modify (console_error ("Fatal cryptographic error (Bad MAC) for session " ++ sessionId));;
  modify (HealthMonitor.recordEvent sessionId fatal_error);;
  removeSession sessionId;;
  when onDisconnected
    (modify (emit (EvOnDisconnected sessionId
       (ReasonError (new_Error "Session corrupted (Bad MAC). Please scan QR again."))))).

(** [useMultiFileAuthState(sessionPath)], with the clean-up and the single
    retry of the inner [try]/[catch] *)
Definition load_auth_state (sessionId : string) : M unit :=
  try_catch
    (if auth_load_throws env sessionId 0
     then throw (new_Error "auth state unreadable") else mret tt)
    (fun authError =>
       exists_ ← gets (existsSync (sessionPath sessionId));
       when exists_
         (rmSync sessionId;;
          modify (mkdirSync (sessionPath sessionId)));;
       if auth_load_throws env sessionId 1
       then throw (new_Error "auth state unreadable") else mret tt).

(** [fetchLatestBaileysVersion()] with its fallback *)
Definition resolve_version : list Z :=
  match fetched_version env with
  | Some version => version
  | None => fallback_version
  end.

(** [makeWASocket({...})]: a new socket object, not yet authenticated *)
Definition makeWASocket (sessionId : string) (callbacks : Callbacks)
    (version : list Z) : M handle := fun w =>
  if makeWASocket_throws env then (Throw (new_Error "socket creation failed"), w)
  else
    let sock := fresh (dom (sockets w)) in
    (Ok sock,
     set_sockets (insert sock
       {| sock_session := sessionId; sock_callbacks := callbacks;
          sock_version := version; sock_user := None; sock_live := true |}) w).

(** [createSession(sessionId, callbacks)], when nothing else runs at its
    awaits *)
Definition createSession (sessionId : string) (callbacks : Callbacks) : M handle :=
  try_catch
    (existing ← gets (fun w =>
       match sessions w !! sessionId with
       | Some session => if isConnected sessionId w then Some session else None
       | None => None
       end);
     match existing with
     | Some session => mret session
     | None =>
         connected ← gets (isConnected sessionId);
         when (isNew callbacks && negb connected) (removeSession sessionId);;
         exists_ ← gets (existsSync (sessionPath sessionId));
         when (negb exists_) (modify (mkdirSync (sessionPath sessionId)));;
         load_auth_state sessionId;;
         let version := resolve_version in
         modify (HealthMonitor.startMonitoring sessionId);;
         sock ← makeWASocket sessionId callbacks version;
         modify (set_sessions (insert sessionId sock));;
         mret sock
     end)
    (fun error =>
       modify (console_error ("Error creating session " ++ sessionId));;
       throw error).

(** *** The two methods from one await to the next

    [removeSession] and [createSession] above are the calls as they run
    when no other code runs at their awaits.  Here they are cut at the
    awaits. *)

(** [removeSession] up to the pause it awaits before it deletes the
    directory: [true] when the call is suspended there, [false] when it
    has finished (there is no directory, or ending the socket raised). *)
Definition removeSession_enter (sessionId : string) : M bool :=
  try_catch
    (has ← gets (fun w => sessions w !! sessionId);
     match has with
     | Some sock =>
         sock_end sock;;
         modify (set_sessions (delete sessionId))
     | None => mret tt
     end;;
     hasQr ← gets (fun w => bool_decide (is_Some (qrCodes w !! sessionId)));
     when hasQr (modify (set_qrCodes (delete sessionId)));;
     modify (HealthMonitor.cleanup sessionId);;
     gets (existsSync (sessionPath sessionId)))
    (fun error =>
       modify (console_error ("Error removing session " ++ sessionId));;
       mret false).

(** [removeSession] from the end of that pause on. *)
Definition removeSession_resume (sessionId : string) : M unit :=
  try_catch
    (modify (delay 1000);;
     rmSync sessionId)
    (fun error => modify (console_error ("Error removing session " ++ sessionId))).

(** [createSession] from the directory check to the first request for the
    credentials. *)
Definition createSession_prepare (sessionId : string) : M CreateCall :=
  exists_ ← gets (existsSync (sessionPath sessionId));
  when (negb exists_) (modify (mkdirSync (sessionPath sessionId)));;
  mret LoadingAuth.

(** The part of [createSession] that runs from one suspension to the
    next, or to the end. *)
Definition createSession_segment (sessionId : string) (callbacks : Callbacks)
    (at_ : CreateCall) : M CreateCall :=
  match at_ with
  | Called =>
      existing ← gets (fun w =>
        match sessions w !! sessionId with
        | Some session => if isConnected sessionId w then Some session else None
        | None => None
        end);
      match existing with
      | Some session => mret (Settled (Ok session))
      | None =>
          connected ← gets (isConnected sessionId);
          if isNew callbacks && negb connected then
            suspended ← removeSession_enter sessionId;
            mret (if suspended : bool then InRemoveSession else AfterRemoveSession)
          else createSession_prepare sessionId
      end
  | InRemoveSession =>
      removeSession_resume sessionId;;
      mret AfterRemoveSession
  | AfterRemoveSession => createSession_prepare sessionId
  | LoadingAuth =>
      if auth_load_throws env sessionId 0 then
        exists_ ← gets (existsSync (sessionPath sessionId));
        when exists_
          (rmSync sessionId;;
           modify (mkdirSync (sessionPath sessionId)));;
        mret ReloadingAuth
      else mret FetchingVersion
  | ReloadingAuth =>
      if auth_load_throws env sessionId 1
      then throw (new_Error "auth state unreadable")
      else mret FetchingVersion
  | FetchingVersion =>
      let version := resolve_version in
      modify (HealthMonitor.startMonitoring sessionId);;
      sock ← makeWASocket sessionId callbacks version;
      modify (set_sessions (insert sessionId sock));;
      mret (Settled (Ok sock))
  | Settled r => mret (Settled r)
  end.

(** One step of the call: the segment, within the outer [try]/[catch]. *)
Definition createSession_step (sessionId : string) (callbacks : Callbacks)
    (st : CreateCall * World) : CreateCall * World :=
  match st.1 with
  | Settled _ => st
  | at_ =>
      match createSession_segment sessionId callbacks at_ st.2 with
      | (Ok next, w) => (next, w)
      | (Throw error, w) =>
          (Settled (Throw error),
           console_error ("Error creating session " ++ sessionId) w)
      end
  end.

(** The call step by step; [meanwhile at_] is what other code does to the
    state while the call is suspended at [at_]. *)
Fixpoint createSession_run (sessionId : string) (callbacks : Callbacks)
    (meanwhile : CreateCall -> World -> World) (steps : nat)
    (st : CreateCall * World) : CreateCall * World :=
  match steps with
  | O => st
  | S steps =>
      let st' := createSession_step sessionId callbacks st in
      createSession_run sessionId callbacks meanwhile steps
        match st'.1 with
        | Settled _ => st'
        | at_ => (at_, meanwhile at_ st'.2)
        end
  end.

(** [Math.min(3000 * Math.pow(2, retryCount - 1), 10000)] *)
Definition retryDelay (retryCount : nat) : Z :=
  Z.min (3000 * 2 ^ (Z.of_nat retryCount - 1)) 10000.

(** [(lastDisconnect?.error instanceof Boom)
      ? lastDisconnect.error.output.statusCode !== DisconnectReason.loggedOut
      : true] *)
Definition shouldReconnect (lastDisconnect : option LastDisconnect) : bool :=
  match lastDisconnect with
  | Some {| ld_error := Some {| de_boom_status := Some statusCode |} |} =>
      negb (statusCode =? DisconnectReason_loggedOut)%Z
  | _ => true
  end.

(** [lastDisconnect.error?.message?.includes('Bad MAC') ||
     lastDisconnect.error?.toString().includes('Bad MAC')] *)
Definition isBadMac (ld : LastDisconnect) : bool :=
  match ld_error ld with
  | Some de =>
      JsString.includes (error_message (de_error de)) Bad_MAC
      || JsString.includes (error_toString (de_error de)) Bad_MAC
  | None => false
  end.

(** The [connection === 'close'] branch of the connection handler. *)
Definition on_close (sessionId : string) (callbacks : Callbacks)
    (lastDisconnect : option LastDisconnect) : M unit :=
  modify (HealthMonitor.recordEvent sessionId failure);;
  let shouldReconnect := shouldReconnect lastDisconnect in
  match lastDisconnect with
  | None =>
      throw {| error_name := "TypeError";
               error_message := "Cannot read properties of undefined (reading 'error')" |}
  | Some ld =>
      if isBadMac ld then handleSessionCorruption sessionId (onDisconnected callbacks)
      else
        permitted ← gets (HealthMonitor.shouldAttemptConnection env sessionId);
        (if shouldReconnect && permitted then
           let retryCount := (default 0 (retryCount callbacks) + 1)%nat in
           if (retryCount <=? 2)%nat then
             modify (HealthMonitor.recordEvent sessionId reconnect);;
             modify (emit (EvTimer (retryDelay retryCount)
                       (TimerCreateSession sessionId (with_retryCount callbacks retryCount))))
           else mret tt
         else modify (emit (EvTimer 3000 (TimerRemoveSession sessionId))));;
        when (onDisconnected callbacks)
          (modify (emit (EvOnDisconnected sessionId (ReasonLastDisconnect ld))))
  end.

(** The handler [createSession] registers for ['connection.update']. *)
Definition onConnectionUpdate (sessionId : string) (callbacks : Callbacks)
    (sock : handle) (update : ConnectionUpdate) : M unit :=
  match qr update with
  | Some code =>
      when (negb (String.eqb code ""))
        (match qr_toDataURL env code with
         | Ok qrDataURL =>
             modify (set_qrCodes (insert sessionId qrDataURL));;
             when (onQR callbacks) (modify (emit (EvOnQR sessionId qrDataURL code)))
         | Throw e => throw e
         end)
  | None => mret tt
  end;;
  match connection update with
  | Some ConnClose => on_close sessionId callbacks (lastDisconnect update)
  | Some ConnOpen =>
      modify (set_qrCodes (delete sessionId));;
      user ← gets (fun w => user_of w sock);
      when (onConnected callbacks)
        (modify (emit (EvOnConnected sessionId
           (JsString.split_colon_0 <$> (user_id <$> user)) (user_name <$> user))))
  | _ => mret tt
  end.

(** The [write] sink given to the socket's logger.  The echo of error
    lines to the terminal has no effect on the state and is left out. *)
Definition logger_write (sessionId : string) (callbacks : Callbacks)
    (msgStr : string) : M unit :=
  when (JsString.includes msgStr Bad_MAC || JsString.includes msgStr "Session error")
    (modify (console_error ("DETECTED BAD MAC IN LOGS for " ++ sessionId));;
     handleSessionCorruption sessionId (onDisconnected callbacks)).

(** [disconnectSession(sessionId)] *)
Definition disconnectSession (sessionId : string) : M unit :=
  session ← gets (fun w => sessions w !! sessionId);
  match session with
  | Some sock =>
      sock_end sock;;
      modify (set_sessions (delete sessionId))
  | None => mret tt
  end.

(** The transport delivers a connection event of a socket to the handler
    that socket was created with. *)
Definition deliver (sock : handle) (update : ConnectionUpdate) : M unit := fun w =>
  match sockets w !! sock with
  | Some s => onConnectionUpdate (sock_session s) (sock_callbacks s) sock update w
  | None => (Ok tt, w)
  end.

End SessionManager.

(** The transport authenticates a socket: [sock.user] becomes defined. *)
Definition transport_open (sock : handle) (u : User) (w : World) : World :=
  set_sockets (alter (fun s =>
    {| sock_session := sock_session s; sock_callbacks := sock_callbacks s;
       sock_version := sock_version s; sock_user := Some u;
       sock_live := sock_live s |}) sock) w.

(** The transport closes a socket. *)
Definition transport_close (sock : handle) (w : World) : World :=
  set_sockets (alter ended sock) w.

(** A socket object that is live and belongs to the session. *)
Definition is_live_for (sessionId : string) (s : Socket) : bool :=
  sock_live s && String.eqb (sock_session s) sessionId.

(** The live sockets of a session. *)
Definition live_sockets (sessionId : string) (w : World) : gset handle :=
  dom (filter (fun hs => is_live_for sessionId hs.2 = true) (sockets w)).

(** At most one live transport socket for the session. *)
Definition at_most_one_live (sessionId : string) (w : World) : Prop :=
  size (live_sockets sessionId w) <= 1.

(** Every live socket of the session is the one its registry entry holds. *)
Definition registry_owns_live (sessionId : string) (w : World) : Prop :=
  forall sock, sock ∈ live_sockets sessionId w -> sessions w !! sessionId = Some sock.

#[global] Instance registry_owns_live_dec sessionId w :
  Decision (registry_owns_live sessionId w).
Proof.
  unfold registry_owns_live.
  exact (set_Forall_dec (fun sock => sessions w !! sessionId = Some sock)
           (live_sockets sessionId w)).
Defined.

(** Ending the socket of the session's registry entry, if there is one,
    does not raise. *)
Definition closes (env : Env) (sessionId : string) (w : World) : bool :=
  match sessions w !! sessionId with
  | Some sock => negb (end_throws env sock)
  | None => true
  end.

(** The number of steps a call has left at most. *)
Definition awaits_left (at_ : CreateCall) : nat :=
  match at_ with
  | Called => 6
  | InRemoveSession => 5
  | AfterRemoveSession => 4
  | LoadingAuth => 3
  | ReloadingAuth => 2
  | FetchingVersion => 1
  | Settled _ => 0
  end.

(** The live sockets of the session while a call that found none is under
    way: none while the call is suspended, none but the registered one
    once it has settled. *)
Definition call_invariant (sessionId : string) (st : CreateCall * World) : Prop :=
  match st.1 with
  | Settled _ => registry_owns_live sessionId st.2
  | _ => live_sockets sessionId st.2 = ∅
  end.

(** ** MessageService *)

(** What [sendMessage] hands back to its caller. *)
Inductive JsResult :=
| JsFalse
| JsNull
| JsSent (result : string).

(** How one pass through the body of [sendMessage]'s outer [try] ends:
    with a [return], with an exception reaching the outer [catch], or
    with the tail call [return this.sendMessage(..., retryCount + 1)]
    (whose promise never rejects, so the [catch] around it stays idle). *)
Inductive TryOutcome :=
| Returns (v : JsResult)
| Raises (e : JsError)
| CallsItself.

(** Number of transport sends made so far. *)
Definition count_sends (t : list Event) : nat :=
  length (List.filter (fun e => match e with EvSend _ _ _ => true | _ => false end) t).

Definition CORRUPTED_SESSION : JsError :=
  new_Error "CORRUPTED_SESSION: Please re-link WhatsApp".

Record MessageService := {
  messageQueue : list QueueItem;
  processing : bool;
}.

Definition new_MessageService : MessageService :=
  {| messageQueue := []; processing := false |}.

(** Case analysis that remembers the equation (for [sendMessage]). *)
Definition inspect {A : Type} (x : A) : { y : A | x = y } := exist _ x eq_refl.

Section MessageService.

Context (env : Env).

(** [await session.sendMessage(jid, content)] *)
Definition transport_send (session : handle) (jid : string) (content : Content)
    (w : World) : Result string * World :=
  (send_outcome env session jid content (count_sends (trace w)),
   emit (EvSend session jid content) w).

(** The body of the outer [try] of [sendMessage]. *)
Definition sendMessage_try (sessionId phoneNumber message : string)
    (retryCount : nat) (w : World) : TryOutcome * World :=
  match getSession sessionId w with
  | None =>
      (Returns JsFalse, console_error ("Session " ++ sessionId ++ " not found") w)
  | Some session =>
      match user_of w session with
      | None =>
          (Returns JsFalse,
           console_error ("Session " ++ sessionId ++ " not connected") w)
      | Some _ =>
          let jid := formatPhoneNumber phoneNumber in
          match transport_send session jid (CText message) w with
          | (Ok result, w) => (Returns (JsSent result), w)
          | (Throw innerError, w) =>
              let errString := error_toString innerError in
              if JsString.includes errString "Bad MAC"
                 || JsString.includes errString "Session Error"
              then
                let w := console_error ("CRITICAL SESSION ERROR for " ++ sessionId) w in
                let w := console_error "This session appears corrupted." w in
                (Raises CORRUPTED_SESSION, w)
              else if (retryCount <? 2)%nat then (CallsItself, delay 2000 w)
              else (Raises innerError, w)
          end
      end
  end.

(** [sendMessage(sessionId, phoneNumber, message, retryCount = 0)] *)
Equations? sendMessage (sessionId phoneNumber message : string)
    (retryCount : nat) (w : World) : Result JsResult * World
  by wf (2 - retryCount)%nat lt :=
  sendMessage sessionId phoneNumber message retryCount w
    with inspect (sendMessage_try sessionId phoneNumber message retryCount w) := {
    | exist _ (Returns v, w') _ => (Ok v, w');
    | exist _ (Raises error, w') _ =>
        (Ok JsNull,
         console_error ("Failed to send message to " ++ phoneNumber ++ ": "
                        ++ error_message error) w');
    | exist _ (CallsItself, w') Heq =>
        sendMessage sessionId phoneNumber message (retryCount + 1) w' }.
Proof.
  revert Heq. unfold sendMessage_try.
  destruct (getSession sessionId w) as [session|]; [|discriminate].
  destruct (user_of w session); [|discriminate].
  destruct (transport_send _ _ _ _) as [[r|e] w1]; [discriminate|].
  destruct (_ || _); [discriminate|].
  match goal with
  | |- context [(?n <? 2)%nat] => destruct (Nat.ltb_spec n 2); [lia|discriminate]
  end.
Qed.

(** [btn.id || `btn_${index}`] *)
Definition buttonId (btn : Button) (index : nat) : string :=
  match btn_id btn with
  | Some id => if String.eqb id "" then "btn_" ++ pretty index else id
  | None => "btn_" ++ pretty index
  end.

(** [buttons.map((btn, index) => ...)] *)
Definition format_buttons (buttons : list Button) : list (string * string) :=
  imap (fun index btn => (buttonId btn index, btn_text btn)) buttons.

(** [sendButtonMessage(sessionId, phoneNumber, text, buttons)] *)
Definition sendButtonMessage (sessionId phoneNumber text : string)
    (buttons : list Button) : M string :=
  try_catch
    (session ← gets (getSession sessionId);
     match session with
     | None => throw (new_Error ("Session " ++ sessionId ++ " not found"))
     | Some session =>
         let jid := formatPhoneNumber phoneNumber in
         let buttonMessage :=
           CButtons text "منصة واصل" (format_buttons buttons) in
         transport_send session jid buttonMessage
     end)
    (fun error =>
       modify (console_error "Error sending button message");;
       throw error).

(** The [try] block of [processQueue] up to the pacing delay: the
    dispatch of one item by its [type]. *)
Definition dispatch (item : QueueItem) : M unit :=
  if String.eqb (item_type item) "text" then
    (sendMessage (item_sessionId item) (item_phoneNumber item)
       (item_message item) 0 : M JsResult);;
    mret tt
  else if String.eqb (item_type item) "button" then
    sendButtonMessage (item_sessionId item) (item_phoneNumber item)
      (item_message item) (default [] (item_buttons item));;
    mret tt
  else mret tt.

(** The [try]/[catch] of [processQueue] for the item just shifted. *)
Definition process_item (item : QueueItem) (w : World) : World :=
  match (dispatch item;; modify (delay 1000)) w with
  | (Ok _, w) => w
  | (Throw error, w) => console_error "Error processing queue item" w
  end.

(** [processQueue()] when nothing is enqueued while it runs: the loop
    made by the call to itself at the end of the body. *)
Fixpoint processQueue_loop (queue : list QueueItem) (w : World) : World :=
  match queue with
  | [] => w
  | item :: queue => processQueue_loop queue (process_item item w)
  end.

Definition processQueue (ms : MessageService) (w : World) : MessageService * World :=
  ({| messageQueue := []; processing := false |},
   processQueue_loop (messageQueue ms) w).

End MessageService.

(** ** The drain loop interleaved with its callers

    [processQueue] is asynchronous: between the [shift] and the call to
    itself it is suspended at its awaits, and [addToQueue] may run
    meanwhile.  [inflight] is the item held by the suspended call; in
    every state reached from [idle], [processing] is set exactly when
    there is one. *)
Record Dispatcher := {
  service : MessageService;
  inflight : option QueueItem;
}.

Definition idle : Dispatcher :=
  {| service := new_MessageService; inflight := None |}.

(** [processQueue()] up to its first await. *)
Definition processQueue_enter (ms : MessageService) : Dispatcher :=
  match messageQueue ms with
  | [] => {| service := {| messageQueue := []; processing := false |};
             inflight := None |}
  | item :: rest => {| service := {| messageQueue := rest; processing := true |};
                       inflight := Some item |}
  end.

(** [addToQueue(sessionId, phoneNumber, message, type, options)] *)
Definition addToQueue (sessionId phoneNumber message type : string)
    (buttons : option (list Button)) (d : Dispatcher) (w : World) : Dispatcher :=
  let item := {| item_sessionId := sessionId; item_phoneNumber := phoneNumber;
                 item_message := message; item_type := type;
                 item_buttons := buttons; item_timestamp := clock w |} in
  let ms := {| messageQueue := messageQueue (service d) ++ [item];
               processing := processing (service d) |} in
  if processing ms then {| service := ms; inflight := inflight d |}
  else processQueue_enter ms.

(** The suspended [processQueue] call runs to its end: the item it holds
    is processed and [processQueue] is entered again. *)
Definition resume (env : Env) (st : Dispatcher * World) : Dispatcher * World :=
  match inflight st.1 with
  | Some item => (processQueue_enter (service st.1), process_item env item st.2)
  | None => st
  end.

Inductive Action :=
| Enqueue (sessionId phoneNumber message type : string) (buttons : option (list Button))
| Resume.

Definition step (env : Env) (st : Dispatcher * World) (a : Action) : Dispatcher * World :=
  match a with
  | Enqueue sessionId phoneNumber message type buttons =>
      (addToQueue sessionId phoneNumber message type buttons st.1 st.2, st.2)
  | Resume => resume env st
  end.

Definition run (env : Env) (schedule : list Action) (st : Dispatcher * World)
    : Dispatcher * World :=
  fold_left (step env) schedule st.

(** The items whose processing ran during a schedule, in that order. *)
Fixpoint processed (env : Env) (schedule : list Action) (st : Dispatcher * World)
    : list QueueItem :=
  match schedule with
  | [] => []
  | a :: schedule =>
      match a, inflight st.1 with
      | Resume, Some item => [item]
      | _, _ => []
      end ++ processed env schedule (step env st a)
  end.

(** The items a schedule enqueues, in that order, as [addToQueue] builds
    them. *)
Fixpoint enqueued (env : Env) (schedule : list Action) (st : Dispatcher * World)
    : list QueueItem :=
  match schedule with
  | [] => []
  | a :: schedule =>
      match a with
      | Enqueue sessionId phoneNumber message type buttons =>
          [{| item_sessionId := sessionId; item_phoneNumber := phoneNumber;
              item_message := message; item_type := type;
              item_buttons := buttons; item_timestamp := clock st.2 |}]
      | Resume => []
      end ++ enqueued env schedule (step env st a)
  end.

(** The items the dispatcher still holds, next to be processed first. *)
Definition pending (d : Dispatcher) : list QueueItem :=
  match inflight d with
  | Some item => [item]
  | None => []
  end ++ messageQueue (service d).

(** The world in which [createSession] goes on after its optional
    clean-up. *)
Definition after_cleanup (env : Env) (sessionId : string) (callbacks : Callbacks)
    (w : World) : World :=
  if isNew callbacks && negb (isConnected sessionId w)
  then (removeSession env sessionId w).2 else w.

(** ** Uses of the health monitor over time *)

(** The health events recorded for a session. *)
Definition log_of (sessionId : string) (w : World) : list (HealthKind * Z) :=
  default [] (health w !! sessionId).

(** [processing] is set exactly when a [processQueue] call is suspended. *)
Definition consistent (d : Dispatcher) : Prop :=
  processing (service d) = true <-> is_Some (inflight d).

(** ** Concrete environments and worlds used in the examples *)

Module Examples.

Definition alice : User := {| user_id := "201066284516:7@s.whatsapp.net"; user_name := "Alice" |}.

(** A transport on which nothing fails. *)
Definition calm : Env :=
  {| authDir := ["srv"; "wasel"; "src"; "auth_sessions"];
     end_throws := fun _ => false;
     rmSync_throws := fun _ => false;
     auth_load_throws := fun _ _ => false;
     fetched_version := Some [2; 3000; 1]%Z;
     makeWASocket_throws := false;
     qr_toDataURL := fun code => Ok ("data:image/png;base64," ++ code);
     send_outcome := fun _ _ _ _ => Ok "msg-id";
     health_window := 60000;
     health_max_failures := 5;
     health_no_record := true |}.

Definition timeout_error : JsError := new_Error "Timed Out".
Definition bad_mac_error : JsError := new_Error "Bad MAC".

(** [calm], except that every send raises [e]. *)
Definition failing_sends (e : JsError) : Env :=
  {| authDir := authDir calm;
     end_throws := end_throws calm;
     rmSync_throws := rmSync_throws calm;
     auth_load_throws := auth_load_throws calm;
     fetched_version := fetched_version calm;
     makeWASocket_throws := false;
     qr_toDataURL := qr_toDataURL calm;
     send_outcome := fun _ _ _ _ => Throw e;
     health_window := health_window calm;
     health_max_failures := health_max_failures calm;
     health_no_record := health_no_record calm |}.

(** [calm], except that ending a socket raises. *)
Definition failing_end : Env :=
  {| authDir := authDir calm;
     end_throws := fun _ => true;
     rmSync_throws := rmSync_throws calm;
     auth_load_throws := auth_load_throws calm;
     fetched_version := fetched_version calm;
     makeWASocket_throws := false;
     qr_toDataURL := qr_toDataURL calm;
     send_outcome := send_outcome calm;
     health_window := health_window calm;
     health_max_failures := health_max_failures calm;
     health_no_record := health_no_record calm |}.


(** [calm], except that the first transport send raises. *)
Definition first_send_fails : Env :=
  {| authDir := authDir calm;
     end_throws := end_throws calm;
     rmSync_throws := rmSync_throws calm;
     auth_load_throws := auth_load_throws calm;
     fetched_version := fetched_version calm;
     makeWASocket_throws := false;
     qr_toDataURL := qr_toDataURL calm;
     send_outcome := fun _ _ _ n =>
       match n with
       | O => Throw timeout_error
       | S _ => Ok "msg-id"
       end;
     health_window := health_window calm;
     health_max_failures := health_max_failures calm;
     health_no_record := health_no_record calm |}.

Definition button_item : QueueItem :=
  {| item_sessionId := "s1"; item_phoneNumber := "+20 106-628-4516";
     item_message := "choose"; item_type := "button";
     item_buttons := Some [{| btn_id := None; btn_text := "yes" |}];
     item_timestamp := 0 |}.

Definition text_item : QueueItem :=
  {| item_sessionId := "s1"; item_phoneNumber := "+20 106-628-4516";
     item_message := "hello"; item_type := "text";
     item_buttons := None; item_timestamp := 0 |}.

Definition media_item : QueueItem :=
  {| item_sessionId := "s1"; item_phoneNumber := "+20 106-628-4516";
     item_message := "photo"; item_type := "media";
     item_buttons := None; item_timestamp := 0 |}.

(** Session "s1" created on an empty manager, not yet authenticated. *)
Definition pairing : World := (createSession calm "s1" no_callbacks empty_world).2.

(** The same session after the transport authenticated its socket. *)
Definition connected : World := transport_open 0 alice pairing.

(** The session while its QR image is on display. *)
Definition qr_pending : World :=
  (deliver calm 0 {| connection := Some ConnConnecting; lastDisconnect := None;
                     qr := Some "2@abc" |} pairing).2.

End Examples.

(** ** Addresses *)

(** The address contains the separator. *)
Definition has_at (s : string) : bool := JsString.includes s "@".

(** The characters [replace(/[^\d+]/g, '')] keeps. *)
Definition kept (c : ascii) : bool := JsString.is_digit c || Ascii.eqb c "+".

(** ** What the dispatch layer leaves alone *)

(** Registry, QR cache, socket objects, directories and health records
    are the same in both worlds. *)
Definition same_manager_state (w w' : World) : Prop :=
  sessions w' = sessions w
  /\ qrCodes w' = qrCodes w
  /\ sockets w' = sockets w
  /\ dirs w' = dirs w
  /\ health w' = health w.

(** The trace of [w'] continues the trace of [w] and no time is lost. *)
Definition continues (w w' : World) : Prop :=
  (exists t, trace w' = (trace w ++ t)%list) /\ (clock w <= clock w')%Z.

(** The drain loop runs whenever something is queued: [processing] is
    set exactly when a [processQueue] call is suspended, and the queue is
    empty when it is not set. *)
Definition never_stranded (d : Dispatcher) : Prop :=
  consistent d
  /\ (processing (service d) = false -> messageQueue (service d) = []).

(** ** The queries of the session manager *)

(** [getQRCode(sessionId)] *)
Definition getQRCode (sessionId : string) (w : World) : option string :=
  qrCodes w !! sessionId.





(** ** Session ids and directories *)

(** A session id that names a directory of its own directly below
    [authDir]: it is not empty, has no slash and is neither [.] nor [..]. *)
Definition plain_id (s : string) : bool :=
  forallb (fun c => negb (Ascii.eqb c "/"%char)) (list_ascii_of_string s)
  && negb (String.eqb s "") && negb (String.eqb s ".") && negb (String.eqb s "..").

(** ** Outcomes of the manager's calls *)

(** The error a connection event makes the handler raise before it looks
    at [connection]: the event carries a code that cannot be rendered. *)
Definition rendering_failure (env : Env) (update : ConnectionUpdate) : option JsError :=
  match qr update with
  | Some code =>
      if String.eqb code "" then None
      else match qr_toDataURL env code with
           | Ok _ => None
           | Throw e => Some e
           end
  | None => None
  end.

(** [createSession] raises past the fast path in these cases: the
    credentials cannot be loaded, neither at once nor after the directory
    was reset, or the socket cannot be made. *)
Definition creation_fails (env : Env) (sessionId : string) : bool :=
  auth_load_throws env sessionId 0
  && (rmSync_throws env sessionId || auth_load_throws env sessionId 1)
  || makeWASocket_throws env.

(** The timers the close handler may leave behind for a session: the
    removal after 3000 ms, or a [createSession] that carries a
    [retryCount] of 1 or 2 after the backoff delay of that attempt. *)
Definition timer_ok (sessionId : string) (e : Event) : bool :=
  match e with
  | EvTimer ms (TimerRemoveSession sessionId') =>
      String.eqb sessionId' sessionId && (ms =? 3000)%Z
  | EvTimer ms (TimerCreateSession sessionId' callbacks) =>
      String.eqb sessionId' sessionId
      && match retryCount callbacks with
         | Some n => (1 <=? n)%nat && (n <=? 2)%nat && (ms =? retryDelay n)%Z
         | None => false
         end
  | _ => true
  end.

Definition is_timer (e : Event) : bool :=
  match e with
  | EvTimer _ _ => true
  | _ => false
  end.

Definition is_disconnect_callback (e : Event) : bool :=
  match e with
  | EvOnDisconnected _ _ => true
  | _ => false
  end.

(** ** MessageService: the queries *)

(** A group as the transport reports it. *)
Record GroupMetadata := {
  group_id : string;
  group_subject : string;
  group_desc : option string;
  group_participants : list string;
}.

(** A group as [getGroups] reports it. *)
Record GroupSummary := {
  gs_id : string;
  gs_subject : string;
  gs_desc : option string;
  gs_participants : nat;
}.

Section TransportQueries.

(** [session.onWhatsApp(jid)]: the [exists] flags of the answers *)
Context (onWhatsApp : handle -> string -> Result (list bool)).
(** [Object.values(await session.groupFetchAllParticipating())] *)
Context (groupFetchAllParticipating : handle -> Result (list GroupMetadata)).

(** [checkNumberExists(sessionId, phoneNumber)] *)
Definition checkNumberExists (sessionId phoneNumber : string) : M bool :=
  try_catch
    (session ← gets (getSession sessionId);
     match session with
     | None => throw (new_Error ("Session " ++ sessionId ++ " not found"))
     | Some session =>
         let jid := formatPhoneNumber phoneNumber in
         match onWhatsApp session jid with
         | Ok answers => mret (default false (head answers))
         | Throw e => throw e
         end
     end)
    (fun error =>
       modify (console_error "Error checking number");;
       mret false).

(** [getGroups(sessionId)] *)
Definition getGroups (sessionId : string) : M (list GroupSummary) :=
  try_catch
    (session ← gets (getSession sessionId);
     match session with
     | None => throw (new_Error ("Session " ++ sessionId ++ " not found"))
     | Some session =>
         user ← gets (fun w => user_of w session);
         match user with
         | None => throw (new_Error ("Session " ++ sessionId ++ " is not connected"))
         | Some _ =>
             match groupFetchAllParticipating session with
             | Ok groups =>
                 mret ((fun group =>
                          {| gs_id := group_id group;
                             gs_subject := group_subject group;
                             gs_desc := group_desc group;
                             gs_participants := length (group_participants group) |})
                       <$> groups)
             | Throw e => throw e
             end
         end
     end)
    (fun error =>
       modify (console_error "Error fetching groups");;
       throw error).

End TransportQueries.

(** * Properties *)

(** ** Address normalisation *)

Section AddressNormalisation.

Import JsString AddressSpec.

Lemma includes_separator (s : string) :
  includes s "@" = if In_dec ascii_dec separator (list_ascii_of_string s) then true else false.
Proof.
  unfold separator.
  induction s as [|c s IH]; [reflexivity|].
  cbn [includes list_ascii_of_string]. rewrite IH. unfold startsWith.
  cbn [String.prefix].
  destruct (In_dec ascii_dec "@"%char (c :: list_ascii_of_string s)) as [Hin|Hout];
    destruct (ascii_dec "@" c) as [Heq|Hc].
  - destruct s; reflexivity.
  - destruct Hin as [Hin|Hin]; [congruence|].
    destruct (In_dec _ _ _); [reflexivity|contradiction].
  - exfalso. apply Hout. left. congruence.
  - destruct (In_dec _ _ _) as [Hin|_]; [|reflexivity].
    exfalso. apply Hout. now right.
Qed.

Lemma class_complement (c : ascii) :
  not_digit_nor_plus c = negb (digit_or_plus c).
Proof.
  destruct c as [[] [] [] [] [] [] [] []]; vm_compute; reflexivity.
Qed.

Lemma replace_is_filter (s : string) :
  replace_not_digit_nor_plus s =
  string_of_list_ascii (List.filter digit_or_plus (list_ascii_of_string s)).
Proof.
  induction s as [|c s IH]; [reflexivity|].
  cbn [replace_not_digit_nor_plus list_ascii_of_string List.filter].
  rewrite class_complement, IH.
  destruct (digit_or_plus c); reflexivity.
Qed.

Lemma leading_plus (l : list ascii) :
  (if startsWith (string_of_list_ascii l) "+"
   then substring1 (string_of_list_ascii l)
   else string_of_list_ascii l)
  = string_of_list_ascii (drop_leading_plus l).
Proof.
  destruct l as [|c l]; [reflexivity|].
  unfold startsWith. cbn [string_of_list_ascii String.prefix drop_leading_plus substring1].
  destruct (ascii_dec "+" c) as [<-|Hc].
  - destruct (ascii_dec "+" "+"); [|congruence].
    destruct (string_of_list_ascii l); reflexivity.
  - destruct (ascii_dec c "+"); [congruence|reflexivity].
Qed.

End AddressNormalisation.

(** C8.  [formatPhoneNumber] returns an input containing '@' unchanged; any
    other input has every character that is neither a digit nor '+'
    removed, one leading '+' dropped and "@s.whatsapp.net" appended.  In
    particular "+20 106-628-4516" becomes "201066284516@s.whatsapp.net",
    and "201066284516@s.whatsapp.net" is returned as it is. *)
Theorem formatPhoneNumber_normalizes :
  (forall phoneNumber : string,
      formatPhoneNumber phoneNumber = AddressSpec.normalize phoneNumber)
  /\ formatPhoneNumber "+20 106-628-4516" = "201066284516@s.whatsapp.net"
  /\ formatPhoneNumber "201066284516@s.whatsapp.net" = "201066284516@s.whatsapp.net".
Proof.
  split; [|split; reflexivity].
  intros s. unfold formatPhoneNumber, AddressSpec.normalize.
  rewrite includes_separator.
  destruct (In_dec _ _ _); [reflexivity|].
  rewrite replace_is_filter, leading_plus. reflexivity.
Qed.

(** ** sendMessage: retries and corruption *)

Section SendMessage.

Context (env : Env).

Lemma sendMessage_body sessionId phoneNumber message n w :
  sendMessage env sessionId phoneNumber message n w =
  match sendMessage_try env sessionId phoneNumber message n w with
  | (Returns v, w') => (Ok v, w')
  | (Raises error, w') =>
      (Ok JsNull,
       console_error ("Failed to send message to " ++ phoneNumber ++ ": "
                      ++ error_message error) w')
  | (CallsItself, w') => sendMessage env sessionId phoneNumber message (n + 1) w'
  end.
Proof.
  rewrite sendMessage_equation_1.
  destruct (inspect (sendMessage_try env sessionId phoneNumber message n w))
    as [[[v|e|] w'] E]; simpl; rewrite E; reflexivity.
Qed.

(** One pass over a connected session whose send raises a transient
    error: a retry after 2 s while [retryCount < 2], the error itself
    afterwards. *)
Lemma sendMessage_try_transient sessionId phoneNumber message n w session user e :
  getSession sessionId w = Some session ->
  user_of w session = Some user ->
  send_outcome env session (formatPhoneNumber phoneNumber) (CText message)
    (count_sends (trace w)) = Throw e ->
  JsString.includes (error_toString e) "Bad MAC" = false ->
  JsString.includes (error_toString e) "Session Error" = false ->
  sendMessage_try env sessionId phoneNumber message n w =
  let w1 := emit (EvSend session (formatPhoneNumber phoneNumber) (CText message)) w in
  if (n <? 2)%nat then (CallsItself, delay 2000 w1) else (Raises e, w1).
Proof.
  intros Hs Hu Hout Hmac Herr. unfold sendMessage_try, transport_send.
  rewrite Hs, Hu, Hout, Hmac, Herr. reflexivity.
Qed.

Lemma sendMessage_try_corrupted sessionId phoneNumber message n w session user e :
  getSession sessionId w = Some session ->
  user_of w session = Some user ->
  send_outcome env session (formatPhoneNumber phoneNumber) (CText message)
    (count_sends (trace w)) = Throw e ->
  JsString.includes (error_toString e) "Bad MAC"
  || JsString.includes (error_toString e) "Session Error" = true ->
  sendMessage_try env sessionId phoneNumber message n w =
  (Raises CORRUPTED_SESSION,
   console_error "This session appears corrupted."
     (console_error ("CRITICAL SESSION ERROR for " ++ sessionId)
        (emit (EvSend session (formatPhoneNumber phoneNumber) (CText message)) w))).
Proof.
  intros Hs Hu Hout Hsig. unfold sendMessage_try, transport_send.
  rewrite Hs, Hu, Hout, Hsig. reflexivity.
Qed.

Lemma count_sends_app (t1 t2 : list Event) :
  count_sends (t1 ++ t2) = (count_sends t1 + count_sends t2)%nat.
Proof.
  unfold count_sends. rewrite List.filter_app, length_app. reflexivity.
Qed.

End SendMessage.

(** C2 (as the code has it).  On a connected session whose transport send
    always raises a transient error, [sendMessage(sessionId, recipient,
    text, 0)] makes exactly three send attempts, 2000 ms apart, and then
    returns [null]: the error of the third attempt is written to the
    console by the outer [catch] and is not raised to the caller. *)
Theorem sendMessage_transient_three_attempts
    (env : Env) (sessionId phoneNumber message : string) (w : World)
    (session : handle) (user : User) (err : nat -> JsError) :
  getSession sessionId w = Some session ->
  user_of w session = Some user ->
  (forall jid content n, send_outcome env session jid content n = Throw (err n)) ->
  (forall n, JsString.includes (error_toString (err n)) "Bad MAC" = false) ->
  (forall n, JsString.includes (error_toString (err n)) "Session Error" = false) ->
  let attempt := EvSend session (formatPhoneNumber phoneNumber) (CText message) in
  let last := err (count_sends (trace w) + 2)%nat in
  let r := sendMessage env sessionId phoneNumber message 0 w in
  r.1 = Ok JsNull
  /\ trace r.2 =
     (trace w ++ [attempt; EvDelay 2000; attempt; EvDelay 2000; attempt;
                  EvConsoleError ("Failed to send message to " ++ phoneNumber ++ ": "
                                  ++ error_message last)])%list
  /\ count_sends (trace r.2) = (count_sends (trace w) + 3)%nat.
Proof.
  intros Hs Hu Hall Hmac Herr attempt last r.
  set (w1 := delay 2000 (emit attempt w)).
  set (w2 := delay 2000 (emit attempt w1)).
  assert (Hlast : err (count_sends (trace w2)) = last).
  { subst last w2 w1. f_equal. cbn [delay emit trace].
    rewrite !count_sends_app. cbn. lia. }
  assert (Hr : r = (Ok JsNull,
            console_error ("Failed to send message to " ++ phoneNumber ++ ": "
                           ++ error_message last)
              (emit attempt w2))).
  { subst r.
    rewrite sendMessage_body.
    rewrite (sendMessage_try_transient env _ _ _ 0 w session user
               (err (count_sends (trace w)))); auto.
    cbn [Nat.ltb Nat.leb Nat.add]. fold attempt w1.
    rewrite sendMessage_body.
    rewrite (sendMessage_try_transient env _ _ _ 1 w1 session user
               (err (count_sends (trace w1)))); auto.
    cbn [Nat.ltb Nat.leb Nat.add]. fold attempt w2.
    rewrite sendMessage_body.
    rewrite (sendMessage_try_transient env _ _ _ 2 w2 session user
               (err (count_sends (trace w2)))); auto.
    cbn [Nat.ltb Nat.leb]. rewrite Hlast. reflexivity. }
  rewrite Hr. cbn [fst snd].
  split; [reflexivity|].
  assert (Ht : trace (console_error ("Failed to send message to " ++ phoneNumber ++ ": "
                           ++ error_message last) (emit attempt w2))
          = (trace w ++ [attempt; EvDelay 2000; attempt; EvDelay 2000; attempt;
                  EvConsoleError ("Failed to send message to " ++ phoneNumber ++ ": "
                                  ++ error_message last)])%list).
  { subst w2 w1. cbn [console_error emit delay trace]. rewrite <- !app_assoc. reflexivity. }
  split; [exact Ht|].
  rewrite Ht, count_sends_app. reflexivity.
Qed.

(** C3 (as the code has it).  When the send of a connected session raises
    an error whose text contains 'Bad MAC' or 'Session Error',
    [sendMessage] makes that one send attempt and no other, takes no
    retry delay, and raises the terminal CORRUPTED_SESSION error inside
    its outer [try]; the outer [catch] writes it to the console and the
    caller receives [null]. *)
Theorem sendMessage_corruption_single_attempt
    (env : Env) (sessionId phoneNumber message : string) (n : nat) (w : World)
    (session : handle) (user : User) (e : JsError) :
  getSession sessionId w = Some session ->
  user_of w session = Some user ->
  send_outcome env session (formatPhoneNumber phoneNumber) (CText message)
    (count_sends (trace w)) = Throw e ->
  JsString.includes (error_toString e) "Bad MAC"
  || JsString.includes (error_toString e) "Session Error" = true ->
  let attempt := EvSend session (formatPhoneNumber phoneNumber) (CText message) in
  let r := sendMessage env sessionId phoneNumber message n w in
  (sendMessage_try env sessionId phoneNumber message n w).1 = Raises CORRUPTED_SESSION
  /\ r.1 = Ok JsNull
  /\ trace r.2 =
     (trace w ++ [attempt;
                  EvConsoleError ("CRITICAL SESSION ERROR for " ++ sessionId);
                  EvConsoleError "This session appears corrupted.";
                  EvConsoleError ("Failed to send message to " ++ phoneNumber
                                  ++ ": CORRUPTED_SESSION: Please re-link WhatsApp")])%list
  /\ count_sends (trace r.2) = (count_sends (trace w) + 1)%nat.
Proof.
  intros Hs Hu Hout Hsig attempt r. subst r.
  rewrite sendMessage_body.
  rewrite (sendMessage_try_corrupted env _ _ _ n w session user e); auto.
  cbn [fst snd console_error emit trace CORRUPTED_SESSION new_Error error_message].
  split; [reflexivity|]. split; [reflexivity|].
  rewrite <- !app_assoc. split; [reflexivity|].
  rewrite count_sends_app. reflexivity.
Qed.

Lemma sendMessage_transient_three_attempts_witness :
  let env := Examples.failing_sends Examples.timeout_error in
  let attempt := EvSend 0 "201066284516@s.whatsapp.net" (CText "hello") in
  let r := sendMessage env "s1" "+20 106-628-4516" "hello" 0 Examples.connected in
  r.1 = Ok JsNull
  /\ trace r.2 =
     [attempt; EvDelay 2000; attempt; EvDelay 2000; attempt;
      EvConsoleError "Failed to send message to +20 106-628-4516: Timed Out"]
  /\ count_sends (trace r.2) = 3%nat.
Proof.
  exact (sendMessage_transient_three_attempts
           (Examples.failing_sends Examples.timeout_error)
           "s1" "+20 106-628-4516" "hello" Examples.connected 0 Examples.alice
           (fun _ => Examples.timeout_error)
           eq_refl eq_refl (fun _ _ _ => eq_refl) (fun _ => eq_refl) (fun _ => eq_refl)).
Defined.

(** The transient error of the third attempt does not reach the caller of
    [sendMessage]: the call completes with [null]. *)
Lemma sendMessage_transient_error_not_propagated :
  let env := Examples.failing_sends Examples.timeout_error in
  let r := sendMessage env "s1" "+20 106-628-4516" "hello" 0 Examples.connected in
  count_sends (trace r.2) = 3%nat
  /\ r.1 = Ok JsNull
  /\ r.1 <> Throw Examples.timeout_error.
Proof.
  vm_compute. repeat split; discriminate.
Qed.

Lemma sendMessage_corruption_single_attempt_witness :
  let env := Examples.failing_sends Examples.bad_mac_error in
  let attempt := EvSend 0 "201066284516@s.whatsapp.net" (CText "hello") in
  let r := sendMessage env "s1" "+20 106-628-4516" "hello" 0 Examples.connected in
  (sendMessage_try env "s1" "+20 106-628-4516" "hello" 0 Examples.connected).1
    = Raises CORRUPTED_SESSION
  /\ r.1 = Ok JsNull
  /\ trace r.2 =
     [attempt;
      EvConsoleError "CRITICAL SESSION ERROR for s1";
      EvConsoleError "This session appears corrupted.";
      EvConsoleError "Failed to send message to +20 106-628-4516: CORRUPTED_SESSION: Please re-link WhatsApp"]
  /\ count_sends (trace r.2) = 1%nat.
Proof.
  exact (sendMessage_corruption_single_attempt
           (Examples.failing_sends Examples.bad_mac_error)
           "s1" "+20 106-628-4516" "hello" 0 Examples.connected 0 Examples.alice
           Examples.bad_mac_error
           eq_refl eq_refl eq_refl eq_refl).
Defined.

(** On a corrupted session no error is raised to the caller of
    [sendMessage]: the call completes with [null]. *)
Lemma sendMessage_corruption_error_not_raised :
  let env := Examples.failing_sends Examples.bad_mac_error in
  let r := sendMessage env "s1" "+20 106-628-4516" "hello" 0 Examples.connected in
  count_sends (trace r.2) = 1%nat
  /\ r.1 = Ok JsNull
  /\ r.1 <> Throw CORRUPTED_SESSION.
Proof.
  vm_compute. repeat split; discriminate.
Qed.

(** ** The model on small inputs *)

Example format_local_number :
  formatPhoneNumber "0106 628 4516" = "01066284516@s.whatsapp.net".
Proof. reflexivity. Qed.

Example format_keeps_second_plus :
  formatPhoneNumber "++20" = "+20@s.whatsapp.net".
Proof. reflexivity. Qed.

Example format_group_address :
  formatPhoneNumber "1203630-1580@g.us" = "1203630-1580@g.us".
Proof. reflexivity. Qed.

Example retry_delays : (retryDelay 1, retryDelay 2, retryDelay 3) = (3000, 6000, 10000)%Z.
Proof. reflexivity. Qed.

Example send_on_unknown_session :
  (sendMessage Examples.calm "nobody" "+20 1" "hello" 0 empty_world).1 = Ok JsFalse.
Proof. reflexivity. Qed.

Example send_before_pairing :
  (sendMessage Examples.calm "s1" "+20 1" "hello" 0 Examples.pairing).1 = Ok JsFalse.
Proof. reflexivity. Qed.

Example send_when_connected :
  sendMessage Examples.calm "s1" "+20 1" "hello" 0 Examples.connected
  = (Ok (JsSent "msg-id"),
     emit (EvSend 0 "201@s.whatsapp.net" (CText "hello")) Examples.connected).
Proof. reflexivity. Qed.

Example three_texts_paced :
  let enqueue3 := [Enqueue "s1" "+20 1" "a" "text" None;
                   Enqueue "s1" "+20 1" "b" "text" None;
                   Enqueue "s1" "+20 1" "c" "text" None] in
  trace (run Examples.calm (enqueue3 ++ [Resume; Resume; Resume])
           (idle, Examples.connected)).2
  = [EvSend 0 "201@s.whatsapp.net" (CText "a"); EvDelay 1000;
     EvSend 0 "201@s.whatsapp.net" (CText "b"); EvDelay 1000;
     EvSend 0 "201@s.whatsapp.net" (CText "c"); EvDelay 1000].
Proof. reflexivity. Qed.

Example logged_out_is_removed_later :
  let logout := {| connection := Some ConnClose;
                   lastDisconnect :=
                     Some {| ld_error := Some {| de_error := new_Error "Logged Out";
                                                 de_boom_status := Some 401%Z |} |};
                   qr := None |} in
  trace (deliver Examples.calm 0 logout Examples.connected).2
  = [EvTimer 3000 (TimerRemoveSession "s1")].
Proof. reflexivity. Qed.

(** ** The dispatch queue *)

Section DispatchQueue.

Context (env : Env).

Lemma pending_enter (ms : MessageService) :
  pending (processQueue_enter ms) = messageQueue ms.
Proof. unfold processQueue_enter, pending. destruct (messageQueue ms); reflexivity. Qed.

Lemma consistent_enter (ms : MessageService) : consistent (processQueue_enter ms).
Proof.
  unfold processQueue_enter, consistent.
  destruct (messageQueue ms); cbn; split; intros H;
    try discriminate; eauto; destruct H; discriminate.
Qed.

Lemma consistent_idle : consistent idle.
Proof. split; cbn; intros H; [discriminate|destruct H; discriminate]. Qed.

Lemma consistent_step (st : Dispatcher * World) (a : Action) :
  consistent st.1 -> consistent (step env st a).1.
Proof.
  intros Hc. destruct a as [sessionId phoneNumber message type buttons|]; cbn.
  - unfold addToQueue. cbn.
    destruct (processing (service st.1)) eqn:Hp.
    + split; cbn; intros _; [apply Hc; exact Hp|reflexivity].
    + apply consistent_enter.
  - unfold resume. destruct (inflight st.1); [apply consistent_enter|exact Hc].
Qed.

(** What is processed during a schedule, followed by what is still
    held, is what was held at the start followed by what the schedule
    enqueued: nothing overtakes, nothing is lost. *)
Lemma fifo_from (schedule : list Action) (st : Dispatcher * World) :
  consistent st.1 ->
  (processed env schedule st ++ pending (run env schedule st).1
   = pending st.1 ++ enqueued env schedule st)%list.
Proof.
  revert st. induction schedule as [|a schedule IH]; intros st Hc.
  - cbn. rewrite app_nil_r. reflexivity.
  - cbn [processed enqueued run fold_left].
    specialize (IH (step env st a) (consistent_step st a Hc)).
    unfold run in IH. rewrite <- app_assoc, IH.
    rewrite !app_assoc. f_equal.
    destruct a as [sessionId phoneNumber message type buttons|].
    + cbn [app step fst]. unfold addToQueue. cbn [processing messageQueue].
      destruct (processing (service st.1)) eqn:Hp.
      * unfold pending. cbn [inflight service messageQueue].
        rewrite app_assoc. reflexivity.
      * rewrite pending_enter. cbn [messageQueue]. unfold pending.
        destruct (inflight st.1) eqn:Hi; [|reflexivity].
        assert (is_Some (inflight st.1)) as Hs by (rewrite Hi; eauto).
        apply Hc in Hs. congruence.
    + cbn [step]. unfold resume.
      destruct (inflight st.1) eqn:Hi; cbn [fst app].
      * rewrite pending_enter. unfold pending. rewrite Hi, app_nil_r. reflexivity.
      * rewrite app_nil_r. reflexivity.
Qed.

(** Resuming as often as there are items held is [processQueue] run to
    its end. *)
Lemma resume_all (queue : list QueueItem) (item : QueueItem) (w : World) :
  run env (repeat Resume (S (length queue)))
    ({| service := {| messageQueue := queue; processing := true |};
        inflight := Some item |}, w)
  = (idle, processQueue_loop env (item :: queue) w).
Proof.
  revert item w. induction queue as [|next queue IH]; intros item w.
  - reflexivity.
  - change (repeat Resume (S (length (next :: queue))))
      with (Resume :: repeat Resume (S (length queue))).
    cbn [run fold_left step resume fst snd inflight service processQueue_enter messageQueue].
    apply IH.
Qed.

(** Outcome of the dispatch of an item that is neither 'text' nor
    'button'. *)
Lemma dispatch_other_type (item : QueueItem) (w : World) :
  String.eqb (item_type item) "text" = false ->
  String.eqb (item_type item) "button" = false ->
  dispatch env item w = (Ok tt, w).
Proof. intros Ht Hb. unfold dispatch. rewrite Ht, Hb. reflexivity. Qed.

(** [sendMessage] never raises. *)
Lemma sendMessage_never_throws sessionId phoneNumber message n w :
  exists v w', sendMessage env sessionId phoneNumber message n w = (Ok v, w').
Proof.
  remember (2 - n)%nat as k eqn:Hk. revert n w Hk.
  induction k as [k IH] using lt_wf_ind. intros n w Hk.
  rewrite sendMessage_body.
  destruct (sendMessage_try env sessionId phoneNumber message n w) as [[v|e|] w'] eqn:E;
    [eauto|eauto|].
  apply (IH (2 - (n + 1))%nat); [|reflexivity].
  revert E. unfold sendMessage_try.
  destruct (getSession sessionId w) as [session|]; [|discriminate].
  destruct (user_of w session); [|discriminate].
  destruct (transport_send _ _ _ _ _) as [[r|e] w1]; [discriminate|].
  destruct (_ || _); [discriminate|].
  destruct (Nat.ltb_spec n 2); [lia|discriminate].
Qed.

Lemma dispatch_text (item : QueueItem) (w : World) :
  String.eqb (item_type item) "text" = true ->
  exists w', dispatch env item w = (Ok tt, w').
Proof.
  intros Ht. unfold dispatch. rewrite Ht.
  destruct (sendMessage_never_throws (item_sessionId item) (item_phoneNumber item)
              (item_message item) 0 w) as (v & w' & E).
  exists w'. unfold mbind, M_bind. rewrite E. reflexivity.
Qed.

End DispatchQueue.

(** The order and the pacing of the drain loop.  Whatever the
    interleaving of [addToQueue] calls and drain steps, the items are
    processed in the order they were enqueued.  After an item whose
    dispatch returns normally, which is the case of every item that is not
    a 'button' item, the drain loop waits 1000 ms before it takes the
    next; when the dispatch raises, the error is written to the console
    and the pacing wait is skipped. *)
Theorem drain_fifo_and_pacing
    (env : Env) (schedule : list Action) (w : World) (item : QueueItem) (w0 : World) :
  (processed env schedule (idle, w) ++ pending (run env schedule (idle, w)).1)%list
  = enqueued env schedule (idle, w)
  /\ match dispatch env item w0 with
     | (Ok _, w') => process_item env item w0 = delay 1000 w'
     | (Throw _, w') =>
         process_item env item w0 = console_error "Error processing queue item" w'
     end
  /\ (if String.eqb (item_type item) "button" then True
      else (dispatch env item w0).1 = Ok tt).
Proof.
  split; [|split].
  - apply (fifo_from env schedule (idle, w)), consistent_idle.
  - unfold process_item, mbind, M_bind, modify.
    destruct (dispatch env item w0) as [[[]|e] w']; reflexivity.
  - destruct (String.eqb (item_type item) "button") eqn:Hb; [exact I|].
    destruct (String.eqb (item_type item) "text") eqn:Ht.
    + destruct (dispatch_text env item w0 Ht) as [w' E]. rewrite E. reflexivity.
    + rewrite dispatch_other_type; auto.
Qed.

(** C6.  The pacing delay does not follow every task: a 'button' item
    whose send raises is followed by no delay, and the send of the next
    item comes right after the failed one.  The wait is awaited inside the
    [try], after the dispatch, so the exception [sendButtonMessage] hands
    on skips it; a failed 'text' item is still followed by the delay. *)
Lemma no_pacing_delay_after_failed_task :
  let jid := "201066284516@s.whatsapp.net" in
  trace (processQueue_loop Examples.first_send_fails
           [Examples.button_item; Examples.text_item] Examples.connected)
  = [EvSend 0 jid (CButtons "choose" "منصة واصل" [("btn_0", "yes")]);
     EvConsoleError "Error sending button message";
     EvConsoleError "Error processing queue item";
     EvSend 0 jid (CText "hello");
     EvDelay 1000]
  /\ ~ (exists t, trace (process_item Examples.first_send_fails
                           Examples.button_item Examples.connected)
                  = (t ++ [EvDelay 1000])%list).
Proof.
  split; [vm_compute; reflexivity|].
  intros [t Ht]. vm_compute in Ht.
  destruct t as [|e1 [|e2 [|e3 [|e4 t]]]]; cbn in Ht; discriminate.
Qed.

(** C10.  An item whose type is neither 'text' nor 'button' is accepted
    by [addToQueue]; when the drain loop comes to it, the item leaves the
    queue, nothing is sent and nothing is written to the console: the
    only effect is the pacing delay. *)
Theorem unknown_type_discarded
    (env : Env) (item : QueueItem) (d : Dispatcher) (w : World) :
  item_type item <> "text" ->
  item_type item <> "button" ->
  inflight d = Some item ->
  dispatch env item w = (Ok tt, w)
  /\ resume env (d, w) = (processQueue_enter (service d), delay 1000 w)
  /\ trace (resume env (d, w)).2 = (trace w ++ [EvDelay 1000])%list
  /\ count_sends (trace (resume env (d, w)).2) = count_sends (trace w)
  /\ pending (resume env (d, w)).1 = messageQueue (service d).
Proof.
  intros Ht Hb Hi.
  apply String.eqb_neq in Ht, Hb.
  assert (Hd : dispatch env item w = (Ok tt, w)) by (apply dispatch_other_type; auto).
  assert (Hr : resume env (d, w) = (processQueue_enter (service d), delay 1000 w)).
  { unfold resume. cbn [fst snd]. rewrite Hi. f_equal.
    unfold process_item, mbind, M_bind. rewrite Hd. reflexivity. }
  rewrite Hr. cbn [fst snd].
  repeat split; auto.
  - cbn [delay trace]. rewrite count_sends_app. cbn. lia.
  - apply pending_enter.
Qed.

Lemma unknown_type_discarded_witness :
  let d := addToQueue "s1" "+20 106-628-4516" "photo" "media" None idle Examples.connected in
  inflight d = Some Examples.media_item
  /\ resume Examples.calm (d, Examples.connected)
     = (idle, delay 1000 Examples.connected)
  /\ count_sends (trace (resume Examples.calm (d, Examples.connected)).2) = 0%nat.
Proof.
  split; [reflexivity|].
  pose proof (unknown_type_discarded Examples.calm Examples.media_item
                (addToQueue "s1" "+20 106-628-4516" "photo" "media" None idle
                   Examples.connected)
                Examples.connected
                ltac:(discriminate) ltac:(discriminate) eq_refl) as (_ & Hr & _ & Hc & _).
  split; [exact Hr|exact Hc].
Defined.

(** ** Session removal *)

Ltac unfold_M :=
  unfold try_catch, mbind, M_bind, gets, modify, when, mret, M_ret, throw.

Section RemoveSession.

Context (env : Env).

Lemma removeSession_never_throws sessionId w :
  (removeSession env sessionId w).1 = Ok tt.
Proof.
  unfold removeSession, sock_end, rmSync. unfold_M. cbn.
  repeat (case_match; simplify_eq/=; try reflexivity).
Qed.

(** When ending the socket raises, nothing after it runs. *)
Lemma removeSession_end_throws sessionId w sock :
  sessions w !! sessionId = Some sock ->
  end_throws env sock = true ->
  (removeSession env sessionId w).2
  = console_error ("Error removing session " ++ sessionId) (emit (EvSocketEnd sock) w).
Proof.
  intros Hs He. unfold removeSession, sock_end, rmSync. unfold_M. cbn.
  rewrite Hs, He. reflexivity.
Qed.

(** When it does not, the registry entry, the QR image and the health
    record go, and the directory goes unless its deletion raises. *)
Lemma removeSession_closes sessionId w :
  closes env sessionId w = true ->
  let w' := (removeSession env sessionId w).2 in
  sessions w' = delete sessionId (sessions w)
  /\ qrCodes w' = delete sessionId (qrCodes w)
  /\ health w' = delete sessionId (health w)
  /\ sockets w' = match sessions w !! sessionId with
                  | Some sock => alter ended sock (sockets w)
                  | None => sockets w
                  end
  /\ dirs w' = if rmSync_throws env sessionId
                  || negb (existsSync (sessionPath env sessionId) w)
               then dirs w
               else filter (fun q => ¬ sessionPath env sessionId `prefix_of` q) (dirs w).
Proof.
  unfold closes, removeSession, sock_end, rmSync, existsSync. unfold_M. cbn.
  intros Hc.
  assert (Hq : forall q : gmap string string,
             bool_decide (is_Some (q !! sessionId)) = false -> q = delete sessionId q).
  { intros q Hq. apply bool_decide_eq_false in Hq.
    symmetry. apply delete_id. apply eq_None_not_Some. exact Hq. }
  destruct (sessions w !! sessionId) as [sock|] eqn:Hs.
  - destruct (end_throws env sock); [discriminate|]. cbn.
    repeat (case_match; simplify_eq/=); repeat split; auto;
      match goal with
      | H : bool_decide ?P = _, H' : context [bool_decide ?P] |- _ =>
          rewrite H in H'; cbn in H'; try discriminate;
          rewrite orb_true_r in H'; discriminate
      end.
  - cbn. rewrite (delete_id (sessions w)) by exact Hs.
    repeat (case_match; simplify_eq/=); repeat split; auto;
      match goal with
      | H : bool_decide ?P = _, H' : context [bool_decide ?P] |- _ =>
          rewrite H in H'; cbn in H'; try discriminate;
          rewrite orb_true_r in H'; discriminate
      end.
Qed.

End RemoveSession.

(** C4 (as the code has it).  [removeSession] never raises, but its
    sub-steps share one [try]/[catch]: when ending the socket raises, the
    error is written to the console and no later sub-step runs, so the
    registry entry, the QR image, the health record and the credential
    directory stay as they were; when it does not raise, the registry
    entry, the QR image and the health record are removed and the
    directory is deleted unless the deletion itself raises. *)
Theorem removeSession_steps (env : Env) (sessionId : string) (w : World) :
  let r := removeSession env sessionId w in
  r.1 = Ok tt
  /\ if closes env sessionId w
     then sessions r.2 !! sessionId = None
          /\ qrCodes r.2 !! sessionId = None
          /\ health r.2 !! sessionId = None
          /\ (if rmSync_throws env sessionId then dirs r.2 = dirs w
              else sessionPath env sessionId ∉ dirs r.2)
     else sessions r.2 = sessions w
          /\ qrCodes r.2 = qrCodes w
          /\ health r.2 = health w
          /\ dirs r.2 = dirs w
          /\ sockets r.2 = sockets w.
Proof.
  cbn zeta. split; [apply removeSession_never_throws|].
  destruct (closes env sessionId w) eqn:Hc.
  - destruct (removeSession_closes env sessionId w Hc) as (Hs & Hq & Hh & _ & Hd).
    rewrite Hs, Hq, Hh, !lookup_delete_eq.
    repeat split.
    destruct (rmSync_throws env sessionId); [exact Hd|].
    rewrite Hd. cbn [orb]. unfold existsSync.
    destruct (bool_decide_reflect (sessionPath env sessionId ∈ dirs w)) as [Hin|Hout];
      cbn [negb]; [|exact Hout].
    intros Hf. apply elem_of_filter in Hf as [Hf _]. apply Hf. reflexivity.
  - unfold closes in Hc.
    destruct (sessions w !! sessionId) as [sock|] eqn:Hs; [|discriminate].
    apply negb_false_iff in Hc.
    rewrite (removeSession_end_throws env sessionId w sock Hs Hc).
    repeat split.
Qed.

(** Ending the socket raises: the registry entry, the QR image, the
    health record and the directory are all still there afterwards. *)
Lemma removeSession_stops_at_failed_close :
  let w' := (removeSession Examples.failing_end "s1" Examples.qr_pending).2 in
  sessions w' !! "s1" = Some 0%nat
  /\ qrCodes w' !! "s1" = Some "data:image/png;base64,2@abc"
  /\ health w' !! "s1" = Some []
  /\ sessionPath Examples.failing_end "s1" ∈ dirs w'
  /\ trace w' = [EvSocketEnd 0; EvConsoleError "Error removing session s1"].
Proof.
  vm_compute. repeat split. 
Qed.

(** ** Session creation *)

Section CreateSession.

Context (env : Env).

Lemma elem_of_live_sockets sessionId w sock :
  sock ∈ live_sockets sessionId w <->
  exists s, sockets w !! sock = Some s /\ is_live_for sessionId s = true.
Proof.
  unfold live_sockets. rewrite elem_of_dom. unfold is_Some.
  split.
  - intros [s Hs]. apply map_lookup_filter_Some in Hs. exists s. exact Hs.
  - intros [s Hs]. exists s. apply map_lookup_filter_Some. exact Hs.
Qed.

Lemma registry_owns_at_most_one sessionId w :
  registry_owns_live sessionId w -> at_most_one_live sessionId w.
Proof.
  intros Hown. unfold at_most_one_live.
  destruct (sessions w !! sessionId) as [sock|] eqn:Hs.
  - assert (live_sockets sessionId w ⊆ {[sock]}) as Hsub.
    { intros h Hh. apply Hown in Hh. set_solver. }
    apply subseteq_size in Hsub. rewrite size_singleton in Hsub. exact Hsub.
  - assert (live_sockets sessionId w = ∅) as ->.
    { apply set_eq. intros h. split; [|set_solver].
      intros Hh. apply Hown in Hh. congruence. }
    rewrite size_empty. lia.
Qed.

(** Past the fast path, [createSession] either registers one new socket
    or raises and leaves sockets and registry as the clean-up left them. *)
Lemma createSession_slow_path sessionId callbacks w :
  isConnected sessionId w = false ->
  let w1 := after_cleanup env sessionId callbacks w in
  let r := createSession env sessionId callbacks w in
  match r.1 with
  | Ok sock =>
      sock = fresh (dom (sockets w1))
      /\ sockets r.2 =
         <[sock := {| sock_session := sessionId; sock_callbacks := callbacks;
                      sock_version := resolve_version env; sock_user := None;
                      sock_live := true |}]> (sockets w1)
      /\ sessions r.2 = <[sessionId := sock]> (sessions w1)
  | Throw _ => sockets r.2 = sockets w1 /\ sessions r.2 = sessions w1
  end.
Proof.
  intros Hc. unfold after_cleanup.
  unfold createSession, load_auth_state, makeWASocket, rmSync. unfold_M. cbn.
  rewrite Hc. cbn.
  assert (Hnone : match sessions w !! sessionId with
                  | Some _ => None | None => None end = @None handle)
    by (destruct (sessions w !! sessionId); reflexivity).
  rewrite Hnone. clear Hnone. rewrite andb_true_r.
  pose proof (removeSession_never_throws env sessionId w) as Hok.
  destruct (isNew callbacks); cbn;
    repeat (case_match; simplify_eq/=); auto;
    repeat match goal with
           | H : removeSession _ _ _ = _ |- _ => rewrite H in *; clear H
           end;
    cbn in *; try discriminate; auto;
    match goal with
    | H : negb (isConnected _ _) = false |- _ => rewrite Hc in H; discriminate
    end.
Qed.

Lemma not_live_after_cleanup sessionId callbacks w :
  registry_owns_live sessionId w ->
  isConnected sessionId w = false ->
  (isNew callbacks = true /\ closes env sessionId w = true)
  \/ live_sockets sessionId w = ∅ ->
  live_sockets sessionId (after_cleanup env sessionId callbacks w) = ∅.
Proof.
  intros Hown Hc Hcase. unfold after_cleanup. rewrite Hc, andb_true_r.
  apply set_eq. intros h. split; [|set_solver]. intros Hh. exfalso.
  apply elem_of_live_sockets in Hh as (s & Hs & Hlive).
  destruct (isNew callbacks) eqn:Hnew.
  - destruct (closes env sessionId w) eqn:Hcl.
    + destruct (removeSession_closes env sessionId w Hcl) as (_ & _ & _ & Hsock & _).
      rewrite Hsock in Hs. clear Hsock.
      destruct (sessions w !! sessionId) as [sock|] eqn:Hreg.
      * destruct (decide (h = sock)) as [->|Hne].
        -- rewrite lookup_alter_eq in Hs.
           destruct (sockets w !! sock) as [s0|]; [|discriminate].
           cbn in Hs. injection Hs as <-. discriminate.
        -- rewrite lookup_alter_ne in Hs by congruence.
           assert (h ∈ live_sockets sessionId w) as Hin
             by (apply elem_of_live_sockets; eauto).
           apply Hown in Hin. congruence.
      * assert (h ∈ live_sockets sessionId w) as Hin
          by (apply elem_of_live_sockets; eauto).
        apply Hown in Hin. congruence.
    + destruct Hcase as [[_ ?]|Hempty]; [discriminate|].
      unfold closes in Hcl.
      destruct (sessions w !! sessionId) as [sock|] eqn:Hreg; [|discriminate].
      apply negb_false_iff in Hcl.
      rewrite (removeSession_end_throws env sessionId w sock Hreg Hcl) in Hs.
      assert (h ∈ live_sockets sessionId w) as Hin
        by (apply elem_of_live_sockets; eauto).
      set_solver.
  - destruct Hcase as [[? _]|Hempty]; [discriminate|].
    assert (h ∈ live_sockets sessionId w) as Hin
      by (apply elem_of_live_sockets; eauto).
    set_solver.
Qed.

(** The fast path of [createSession]. *)
Lemma createSession_fast_path sessionId callbacks w session :
  sessions w !! sessionId = Some session ->
  isConnected sessionId w = true ->
  createSession env sessionId callbacks w = (Ok session, w).
Proof.
  intros Hs Hc. unfold createSession. unfold_M. rewrite Hs, Hc. reflexivity.
Qed.

End CreateSession.

(** C7.  When the session is connected, [createSession] returns the
    handle of its registry entry and changes nothing, and so does a second
    call: the same handle comes back, no socket is created and nothing is
    emitted, so no further QR event is issued. *)
Theorem createSession_connected_idempotent
    (env : Env) (sessionId : string) (callbacks : Callbacks) (w : World)
    (session : handle) :
  sessions w !! sessionId = Some session ->
  isConnected sessionId w = true ->
  let first := createSession env sessionId callbacks w in
  let second := createSession env sessionId callbacks first.2 in
  first = (Ok session, w)
  /\ second = (Ok session, w)
  /\ trace second.2 = trace w
  /\ sockets second.2 = sockets w.
Proof.
  intros Hs Hc. cbn zeta.
  rewrite !(createSession_fast_path env sessionId callbacks w session Hs Hc).
  cbn [snd].
  rewrite (createSession_fast_path env sessionId callbacks w session Hs Hc).
  repeat split.
Qed.

Lemma createSession_connected_idempotent_witness :
  (createSession Examples.calm "s1" no_callbacks empty_world).1 = Ok 0%nat
  /\ createSession Examples.calm "s1" no_callbacks Examples.connected
     = (Ok 0%nat, Examples.connected)
  /\ createSession Examples.calm "s1" no_callbacks
       (createSession Examples.calm "s1" no_callbacks Examples.connected).2
     = (Ok 0%nat, Examples.connected).
Proof.
  split; [reflexivity|].
  destruct (createSession_connected_idempotent Examples.calm "s1" no_callbacks
              Examples.connected 0 eq_refl eq_refl) as (H1 & H2 & _).
  split; [exact H1|exact H2].
Defined.

(** The handle a [createSession] returned is what any later
    [createSession] returns once the transport has authenticated it. *)
Lemma createSession_after_open
    (env env' : Env) (sessionId : string) (callbacks callbacks' : Callbacks)
    (w w1 : World) (sock : handle) (u : User) :
  createSession env sessionId callbacks w = (Ok sock, w1) ->
  createSession env' sessionId callbacks' (transport_open sock u w1)
  = (Ok sock, transport_open sock u w1).
Proof.
  intros Hcreate.
  assert (sessions w1 !! sessionId = Some sock /\ is_Some (sockets w1 !! sock))
    as [Hreg [s Hsock]].
  { destruct (isConnected sessionId w) eqn:Hc.
    - pose proof Hc as Hc'. unfold isConnected in Hc'.
      destruct (sessions w !! sessionId) as [session|] eqn:Hs; [|discriminate].
      rewrite (createSession_fast_path env sessionId callbacks w session Hs Hc) in Hcreate.
      injection Hcreate as <- <-. split; [exact Hs|].
      apply bool_decide_eq_true in Hc'. destruct Hc' as [x Hx].
      unfold user_of in Hx. destruct (sockets w !! session); [eauto|discriminate].
    - pose proof (createSession_slow_path env sessionId callbacks w Hc) as Hslow.
      cbn zeta in Hslow. rewrite Hcreate in Hslow. cbn [fst snd] in Hslow.
      destruct Hslow as (_ & Hsockets & Hsessions).
      rewrite Hsessions, Hsockets, !lookup_insert_eq. eauto. }
  apply createSession_fast_path.
  - exact Hreg.
  - unfold isConnected, user_of, transport_open. cbn. rewrite Hreg.
    rewrite lookup_alter_eq, Hsock. reflexivity.
Qed.

(** ** createSession among other code *)

Section CreateSessionSteps.

Context (env : Env).

(** [removeSession] is its two halves, one after the other. *)
Lemma removeSession_split sessionId w :
  removeSession env sessionId w
  = match removeSession_enter env sessionId w with
    | (Ok true, w1) => removeSession_resume env sessionId w1
    | (Ok false, w1) => (Ok tt, w1)
    | (Throw e, w1) => (Throw e, w1)
    end.
Proof.
  unfold removeSession, removeSession_enter, removeSession_resume, sock_end, rmSync.
  unfold_M. cbn.
  repeat (case_match; simplify_eq/=; try reflexivity).
Qed.

Lemma removeSession_enter_never_throws sessionId w :
  exists suspended, (removeSession_enter env sessionId w).1 = Ok suspended.
Proof.
  unfold removeSession_enter, sock_end. unfold_M. cbn.
  repeat (case_match; simplify_eq/=); eauto.
Qed.

Lemma removeSession_resume_never_throws sessionId w :
  (removeSession_resume env sessionId w).1 = Ok tt.
Proof.
  unfold removeSession_resume, rmSync. unfold_M. cbn.
  repeat (case_match; simplify_eq/=); eauto.
Qed.

Lemma removeSession_resume_sockets sessionId w :
  sockets (removeSession_resume env sessionId w).2 = sockets w.
Proof.
  unfold removeSession_resume, rmSync. unfold_M. cbn.
  repeat (case_match; simplify_eq/=); eauto.
Qed.

(** The socket objects after the first half are those after the whole. *)
Lemma removeSession_enter_sockets sessionId w :
  sockets (removeSession_enter env sessionId w).2
  = sockets (removeSession env sessionId w).2.
Proof.
  rewrite removeSession_split.
  destruct (removeSession_enter env sessionId w) as [[[|]|e] w1]; cbn [snd];
    [|reflexivity|reflexivity].
  symmetry. apply removeSession_resume_sockets.
Qed.

Lemma createSession_run_settled sessionId callbacks meanwhile n r w :
  createSession_run env sessionId callbacks meanwhile n (Settled r, w) = (Settled r, w).
Proof.
  induction n as [|n IH]; [reflexivity|].
  cbn [createSession_run createSession_step fst snd]. exact IH.
Qed.

Lemma createSession_run_alone_S sessionId callbacks n st :
  createSession_run env sessionId callbacks (fun _ w0 => w0) (S n) st
  = createSession_run env sessionId callbacks (fun _ w0 => w0) n
      (createSession_step env sessionId callbacks st).
Proof.
  cbn [createSession_run].
  destruct (createSession_step env sessionId callbacks st) as [[] w']; reflexivity.
Qed.

(** The steps of the call, one by one. *)
Lemma step_Called sessionId callbacks w :
  createSession_step env sessionId callbacks (Called, w)
  = match sessions w !! sessionId with
    | Some session =>
        if isConnected sessionId w then (Settled (Ok session), w)
        else if isNew callbacks
             then match removeSession_enter env sessionId w with
                  | (Ok true, w1) => (InRemoveSession, w1)
                  | (Ok false, w1) => (AfterRemoveSession, w1)
                  | (Throw e, w1) =>
                      (Settled (Throw e),
                       console_error ("Error creating session " ++ sessionId) w1)
                  end
             else (LoadingAuth,
                   if existsSync (sessionPath env sessionId) w then w
                   else mkdirSync (sessionPath env sessionId) w)
    | None =>
        if isNew callbacks
        then match removeSession_enter env sessionId w with
             | (Ok true, w1) => (InRemoveSession, w1)
             | (Ok false, w1) => (AfterRemoveSession, w1)
             | (Throw e, w1) =>
                 (Settled (Throw e),
                  console_error ("Error creating session " ++ sessionId) w1)
             end
        else (LoadingAuth,
              if existsSync (sessionPath env sessionId) w then w
              else mkdirSync (sessionPath env sessionId) w)
    end.
Proof.
  unfold createSession_step, createSession_segment, createSession_prepare.
  cbn [fst snd]. unfold_M.
  destruct (sessions w !! sessionId) as [session|] eqn:Hs.
  - destruct (isConnected sessionId w) eqn:Hc; [reflexivity|].
    cbn beta. rewrite ?Hc. cbn [negb]. rewrite andb_true_r.
    destruct (isNew callbacks).
    + destruct (removeSession_enter env sessionId w) as [[[|]|e] w1]; reflexivity.
    + destruct (existsSync (sessionPath env sessionId) w); reflexivity.
  - assert (Hc : isConnected sessionId w = false)
      by (unfold isConnected; rewrite Hs; reflexivity).
    cbn beta. rewrite ?Hc. cbn [negb]. rewrite andb_true_r.
    destruct (isNew callbacks).
    + destruct (removeSession_enter env sessionId w) as [[[|]|e] w1]; reflexivity.
    + destruct (existsSync (sessionPath env sessionId) w); reflexivity.
Qed.

Lemma step_InRemoveSession sessionId callbacks w :
  createSession_step env sessionId callbacks (InRemoveSession, w)
  = (AfterRemoveSession, (removeSession_resume env sessionId w).2).
Proof.
  unfold createSession_step, createSession_segment. cbn [fst snd]. unfold_M.
  pose proof (removeSession_resume_never_throws sessionId w) as Hok.
  destruct (removeSession_resume env sessionId w) as [[[]|e] w1];
    [reflexivity|discriminate].
Qed.

Lemma step_AfterRemoveSession sessionId callbacks w :
  createSession_step env sessionId callbacks (AfterRemoveSession, w)
  = (LoadingAuth,
     if existsSync (sessionPath env sessionId) w then w
     else mkdirSync (sessionPath env sessionId) w).
Proof.
  unfold createSession_step, createSession_segment, createSession_prepare.
  cbn [fst snd]. unfold_M.
  destruct (existsSync (sessionPath env sessionId) w); reflexivity.
Qed.

Lemma step_LoadingAuth sessionId callbacks w :
  createSession_step env sessionId callbacks (LoadingAuth, w)
  = if auth_load_throws env sessionId 0
    then if existsSync (sessionPath env sessionId) w
         then if rmSync_throws env sessionId
              then (Settled (Throw (new_Error "EBUSY")),
                    console_error ("Error creating session " ++ sessionId) w)
              else (ReloadingAuth,
                    mkdirSync (sessionPath env sessionId)
                      (set_dirs (filter (fun q => ¬ sessionPath env sessionId `prefix_of` q)) w))
         else (ReloadingAuth, w)
    else (FetchingVersion, w).
Proof.
  unfold createSession_step, createSession_segment, rmSync.
  cbn [fst snd]. unfold_M.
  destruct (auth_load_throws env sessionId 0); [|reflexivity].
  destruct (existsSync (sessionPath env sessionId) w); [|reflexivity].
  destruct (rmSync_throws env sessionId); reflexivity.
Qed.

Lemma step_ReloadingAuth sessionId callbacks w :
  createSession_step env sessionId callbacks (ReloadingAuth, w)
  = if auth_load_throws env sessionId 1
    then (Settled (Throw (new_Error "auth state unreadable")),
          console_error ("Error creating session " ++ sessionId) w)
    else (FetchingVersion, w).
Proof.
  unfold createSession_step, createSession_segment.
  cbn [fst snd]. unfold_M.
  destruct (auth_load_throws env sessionId 1); reflexivity.
Qed.

Lemma step_FetchingVersion sessionId callbacks w :
  createSession_step env sessionId callbacks (FetchingVersion, w)
  = if makeWASocket_throws env
    then (Settled (Throw (new_Error "socket creation failed")),
          console_error ("Error creating session " ++ sessionId)
            (HealthMonitor.startMonitoring sessionId w))
    else let w1 := HealthMonitor.startMonitoring sessionId w in
         let sock := fresh (dom (sockets w1)) in
         (Settled (Ok sock),
          set_sessions (insert sessionId sock)
            (set_sockets (insert sock
               {| sock_session := sessionId; sock_callbacks := callbacks;
                  sock_version := resolve_version env; sock_user := None;
                  sock_live := true |}) w1)).
Proof.
  unfold createSession_step, createSession_segment, makeWASocket.
  cbn [fst snd]. unfold_M.
  destruct (makeWASocket_throws env); reflexivity.
Qed.

(** [createSession] past its fast path, in terms of the clean-up. *)
Lemma createSession_slow_body sessionId callbacks w :
  isConnected sessionId w = false ->
  createSession env sessionId callbacks w
  = let w1 := after_cleanup env sessionId callbacks w in
    let w2 := if existsSync (sessionPath env sessionId) w1 then w1
              else mkdirSync (sessionPath env sessionId) w1 in
    match load_auth_state env sessionId w2 with
    | (Throw e, w3) =>
        (Throw e, console_error ("Error creating session " ++ sessionId) w3)
    | (Ok _, w3) =>
        match makeWASocket env sessionId callbacks (resolve_version env)
                (HealthMonitor.startMonitoring sessionId w3) with
        | (Ok sock, w4) => (Ok sock, set_sessions (insert sessionId sock) w4)
        | (Throw e, w4) =>
            (Throw e, console_error ("Error creating session " ++ sessionId) w4)
        end
    end.
Proof.
  intros Hc. unfold after_cleanup, createSession. unfold_M.
  cbv beta iota zeta. rewrite !Hc.
  assert (Hnone : match sessions w !! sessionId with
                  | Some _ => None | None => None end = @None handle)
    by (destruct (sessions w !! sessionId); reflexivity).
  rewrite Hnone. clear Hnone. cbv beta iota zeta. rewrite !Hc.
  cbn [negb]. rewrite !andb_true_r.
  pose proof (removeSession_never_throws env sessionId w) as Hok.
  destruct (isNew callbacks); cbv beta iota zeta.
  - destruct (removeSession env sessionId w) as [[[]|e] w1]; [|discriminate].
    cbn [fst snd]. cbv beta iota zeta.
    destruct (existsSync (sessionPath env sessionId) w1); cbn [negb]; cbv beta iota zeta;
      destruct (load_auth_state env sessionId _) as [[[]|e] w3]; cbv beta iota zeta;
      try reflexivity;
      destruct (makeWASocket env sessionId callbacks _ _) as [[sock|e] w4]; reflexivity.
  - destruct (existsSync (sessionPath env sessionId) w); cbn [negb]; cbv beta iota zeta;
      destruct (load_auth_state env sessionId _) as [[[]|e] w3]; cbv beta iota zeta;
      try reflexivity;
      destruct (makeWASocket env sessionId callbacks _ _) as [[sock|e] w4]; reflexivity.
Qed.

(** From the first request for the credentials on, with nothing else
    running. *)
Lemma run_alone_from_LoadingAuth sessionId callbacks n w :
  createSession_run env sessionId callbacks (fun _ w0 => w0) (S (S (S n))) (LoadingAuth, w)
  = match load_auth_state env sessionId w with
    | (Throw e, w3) =>
        (Settled (Throw e), console_error ("Error creating session " ++ sessionId) w3)
    | (Ok _, w3) =>
        match makeWASocket env sessionId callbacks (resolve_version env)
                (HealthMonitor.startMonitoring sessionId w3) with
        | (Ok sock, w4) => (Settled (Ok sock), set_sessions (insert sessionId sock) w4)
        | (Throw e, w4) =>
            (Settled (Throw e), console_error ("Error creating session " ++ sessionId) w4)
        end
    end.
Proof.
  assert (Hfetch : forall k w0,
    createSession_run env sessionId callbacks (fun _ w0 => w0) (S k) (FetchingVersion, w0)
    = match makeWASocket env sessionId callbacks (resolve_version env)
              (HealthMonitor.startMonitoring sessionId w0) with
      | (Ok sock, w4) => (Settled (Ok sock), set_sessions (insert sessionId sock) w4)
      | (Throw e, w4) =>
          (Settled (Throw e), console_error ("Error creating session " ++ sessionId) w4)
      end).
  { intros k w0. rewrite createSession_run_alone_S, step_FetchingVersion.
    unfold makeWASocket.
    destruct (makeWASocket_throws env); apply createSession_run_settled. }
  rewrite createSession_run_alone_S, step_LoadingAuth.
  unfold load_auth_state, rmSync. unfold_M.
  destruct (auth_load_throws env sessionId 0).
  - destruct (existsSync (sessionPath env sessionId) w).
    + destruct (rmSync_throws env sessionId).
      * apply createSession_run_settled.
      * rewrite createSession_run_alone_S, step_ReloadingAuth.
        destruct (auth_load_throws env sessionId 1).
        -- apply createSession_run_settled.
        -- apply Hfetch.
    + rewrite createSession_run_alone_S, step_ReloadingAuth.
      destruct (auth_load_throws env sessionId 1).
      * apply createSession_run_settled.
      * apply Hfetch.
  - apply Hfetch.
Qed.

(** After the clean-up, with nothing else running. *)
Lemma run_alone_after_enter sessionId callbacks w :
  createSession_run env sessionId callbacks (fun _ w0 => w0) 5
    match removeSession_enter env sessionId w with
    | (Ok true, w1) => (InRemoveSession, w1)
    | (Ok false, w1) => (AfterRemoveSession, w1)
    | (Throw e, w1) =>
        (Settled (Throw e), console_error ("Error creating session " ++ sessionId) w1)
    end
  = createSession_run env sessionId callbacks (fun _ w0 => w0) 3
      (LoadingAuth,
       if existsSync (sessionPath env sessionId) (removeSession env sessionId w).2
       then (removeSession env sessionId w).2
       else mkdirSync (sessionPath env sessionId) (removeSession env sessionId w).2).
Proof.
  rewrite removeSession_split.
  destruct (removeSession_enter_never_throws sessionId w) as [suspended Hs].
  destruct (removeSession_enter env sessionId w) as [[b|e] w1]; [|discriminate].
  destruct b.
  - rewrite createSession_run_alone_S, step_InRemoveSession.
    rewrite createSession_run_alone_S, step_AfterRemoveSession.
    reflexivity.
  - rewrite createSession_run_alone_S, step_AfterRemoveSession.
    cbn [snd]. rewrite (run_alone_from_LoadingAuth sessionId callbacks 1).
    rewrite (run_alone_from_LoadingAuth sessionId callbacks 0). reflexivity.
Qed.

(** With nothing else running at its awaits, the call step by step is
    [createSession]. *)
Lemma createSession_alone sessionId callbacks w :
  createSession_run env sessionId callbacks (fun _ w0 => w0) 6 (Called, w)
  = (Settled (createSession env sessionId callbacks w).1,
     (createSession env sessionId callbacks w).2).
Proof.
  rewrite createSession_run_alone_S, step_Called.
  destruct (isConnected sessionId w) eqn:Hc.
  - pose proof Hc as Hc'. unfold isConnected in Hc'.
    destruct (sessions w !! sessionId) as [session|] eqn:Hs; [|discriminate].
    rewrite (createSession_fast_path env sessionId callbacks w session Hs Hc).
    apply createSession_run_settled.
  - rewrite (createSession_slow_body sessionId callbacks w Hc). cbn zeta.
    unfold after_cleanup. rewrite Hc. cbn [negb]. rewrite andb_true_r.
    destruct (sessions w !! sessionId) as [session|];
      (destruct (isNew callbacks);
       [rewrite run_alone_after_enter,
          (run_alone_from_LoadingAuth sessionId callbacks 0)
       |rewrite (run_alone_from_LoadingAuth sessionId callbacks 2)];
       destruct (load_auth_state env sessionId _) as [[[]|e] w3]; try reflexivity;
       destruct (makeWASocket env sessionId callbacks _ _) as [[sock|e] w4]; reflexivity).
Qed.

(** Every step brings the call nearer to its end. *)
Lemma createSession_step_progress sessionId callbacks at_ w :
  (0 < awaits_left at_)%nat ->
  (awaits_left (createSession_step env sessionId callbacks (at_, w)).1 < awaits_left at_)%nat.
Proof.
  destruct at_; cbn [awaits_left]; intros Hpos; try lia.
  - rewrite step_Called.
    destruct (sessions w !! sessionId); try destruct (isConnected sessionId w);
      destruct (isNew callbacks);
      try destruct (removeSession_enter env sessionId w) as [[[|]|e] w1];
      cbn; lia.
  - rewrite step_InRemoveSession. cbn. lia.
  - rewrite step_AfterRemoveSession. cbn. lia.
  - rewrite step_LoadingAuth.
    destruct (auth_load_throws env sessionId 0);
      try destruct (existsSync (sessionPath env sessionId) w);
      try destruct (rmSync_throws env sessionId); cbn; lia.
  - rewrite step_ReloadingAuth. destruct (auth_load_throws env sessionId 1); cbn; lia.
  - rewrite step_FetchingVersion. destruct (makeWASocket_throws env); cbn; lia.
Qed.

(** So the call has settled after as many steps as it had left. *)
Lemma createSession_run_settles sessionId callbacks meanwhile n st :
  (awaits_left st.1 <= n)%nat ->
  exists r, (createSession_run env sessionId callbacks meanwhile n st).1 = Settled r.
Proof.
  revert st. induction n as [|n IH]; intros [at_ w] Hle; cbn [fst] in Hle.
  - destruct at_; cbn in Hle; try lia. cbn. eauto.
  - destruct (Nat.eq_dec (awaits_left at_) 0) as [Hz|Hnz].
    + destruct at_; cbn in Hz; try lia. rewrite createSession_run_settled. cbn. eauto.
    + pose proof (createSession_step_progress sessionId callbacks at_ w ltac:(lia)) as Hlt.
      cbn [createSession_run].
      destruct (createSession_step env sessionId callbacks (at_, w)) as [at' w'].
      cbn [fst snd] in *.
      destruct at'; apply IH; cbn [fst awaits_left] in *; lia.
Qed.

Lemma live_sockets_ext sessionId w w' :
  sockets w' = sockets w -> live_sockets sessionId w' = live_sockets sessionId w.
Proof. unfold live_sockets. intros ->. reflexivity. Qed.

Lemma no_live_owns sessionId w :
  live_sockets sessionId w = ∅ -> registry_owns_live sessionId w.
Proof. intros He sock Hs. rewrite He in Hs. set_solver. Qed.

(** A step of a call that is past its first leaves no live socket of the
    session but the one it registers. *)
Lemma createSession_step_invariant sessionId callbacks at_ w :
  at_ <> Called ->
  call_invariant sessionId (at_, w) ->
  call_invariant sessionId (createSession_step env sessionId callbacks (at_, w)).
Proof.
  intros Hat Hinv. unfold call_invariant in *. cbn [fst snd] in Hinv.
  destruct at_; try congruence.
  - rewrite step_InRemoveSession. cbn [fst snd].
    rewrite (live_sockets_ext sessionId w); [exact Hinv|].
    apply removeSession_resume_sockets.
  - rewrite step_AfterRemoveSession. cbn [fst snd].
    destruct (existsSync (sessionPath env sessionId) w); exact Hinv.
  - rewrite step_LoadingAuth.
    destruct (auth_load_throws env sessionId 0);
      try destruct (existsSync (sessionPath env sessionId) w);
      try destruct (rmSync_throws env sessionId); cbn [fst snd];
      try exact Hinv.
    apply no_live_owns. exact Hinv.
  - rewrite step_ReloadingAuth.
    destruct (auth_load_throws env sessionId 1); cbn [fst snd]; [|exact Hinv].
    apply no_live_owns. exact Hinv.
  - rewrite step_FetchingVersion.
    destruct (makeWASocket_throws env); cbn [fst snd].
    + apply no_live_owns. exact Hinv.
    + cbn zeta. intros h Hh. cbn [sessions set_sessions set_sockets].
      apply elem_of_live_sockets in Hh as (s & Hs & Hlive).
      cbn [sockets set_sessions set_sockets HealthMonitor.startMonitoring set_health] in Hs.
      set (sock := fresh (dom (sockets w))) in *.
      destruct (decide (h = sock)) as [->|Hne].
      * apply lookup_insert_eq.
      * rewrite lookup_insert_ne in Hs by congruence.
        assert (h ∈ live_sockets sessionId w) as Hin
          by (apply elem_of_live_sockets; eauto).
        rewrite Hinv in Hin. set_solver.
  - cbn. exact Hinv.
Qed.

(** Other code that brings no live socket for the session keeps that. *)
Lemma meanwhile_invariant sessionId (meanwhile : CreateCall -> World -> World) st :
  (forall at_ w0,
     live_sockets sessionId (meanwhile at_ w0) ⊆ live_sockets sessionId w0) ->
  call_invariant sessionId st ->
  call_invariant sessionId
    match st.1 with
    | Settled _ => st
    | at_ => (at_, meanwhile at_ st.2)
    end.
Proof.
  intros Hm Hinv. destruct st as [at_ w]. unfold call_invariant in *.
  cbn [fst snd] in *.
  destruct at_; cbn [fst snd]; try exact Hinv;
    (apply set_eq; intros h; split; [|set_solver];
     intros Hh; apply Hm in Hh; rewrite Hinv in Hh; exact Hh).
Qed.

Lemma createSession_run_invariant sessionId callbacks meanwhile n st :
  (forall at_ w0,
     live_sockets sessionId (meanwhile at_ w0) ⊆ live_sockets sessionId w0) ->
  st.1 <> Called ->
  call_invariant sessionId st ->
  call_invariant sessionId (createSession_run env sessionId callbacks meanwhile n st).
Proof.
  intros Hm. revert st. induction n as [|n IH]; intros [at_ w] Hat Hinv; [exact Hinv|].
  cbn [createSession_run]. cbn [fst] in Hat.
  pose proof (createSession_step_invariant sessionId callbacks at_ w Hat Hinv) as Hstep.
  pose proof (createSession_step_progress sessionId callbacks at_ w) as Hprog.
  apply IH.
  - destruct at_; try congruence;
      try (cbn [createSession_step fst snd]; discriminate);
      (destruct (createSession_step env sessionId callbacks _) as [at' w'];
       cbn [fst snd awaits_left] in *; destruct at'; cbn [fst]; try discriminate;
       cbn [awaits_left] in Hprog; lia).
  - apply meanwhile_invariant; assumption.
Qed.

Lemma call_invariant_owns sessionId st :
  call_invariant sessionId st -> registry_owns_live sessionId st.2.
Proof.
  destruct st as [at_ w]. unfold call_invariant. cbn [fst snd].
  destruct at_; auto using no_live_owns.
Qed.

(** The first step of a call made in one of the three cases. *)
Lemma createSession_first_step sessionId callbacks w :
  registry_owns_live sessionId w ->
  isConnected sessionId w = true
  \/ (isNew callbacks = true /\ closes env sessionId w = true)
  \/ live_sockets sessionId w = ∅ ->
  (createSession_step env sessionId callbacks (Called, w)).1 <> Called
  /\ call_invariant sessionId (createSession_step env sessionId callbacks (Called, w)).
Proof.
  intros Hown Hcase. rewrite step_Called. unfold call_invariant.
  destruct (isConnected sessionId w) eqn:Hc.
  - pose proof Hc as Hc'. unfold isConnected in Hc'.
    destruct (sessions w !! sessionId) as [session|] eqn:Hs; [|discriminate].
    cbn. split; [discriminate|exact Hown].
  - assert (Hcase' : (isNew callbacks = true /\ closes env sessionId w = true)
                     \/ live_sockets sessionId w = ∅)
      by (destruct Hcase as [?|?]; [discriminate|assumption]).
    pose proof (not_live_after_cleanup env sessionId callbacks w Hown Hc Hcase') as Hnone.
    unfold after_cleanup in Hnone. rewrite Hc, andb_true_r in Hnone.
    assert (Hgoal :
      (if isNew callbacks
       then match removeSession_enter env sessionId w with
            | (Ok true, w1) => (InRemoveSession, w1)
            | (Ok false, w1) => (AfterRemoveSession, w1)
            | (Throw e, w1) =>
                (Settled (Throw e),
                 console_error ("Error creating session " ++ sessionId) w1)
            end
       else (LoadingAuth,
             if existsSync (sessionPath env sessionId) w then w
             else mkdirSync (sessionPath env sessionId) w)).1 <> Called
      /\ match (if isNew callbacks
                then match removeSession_enter env sessionId w with
                     | (Ok true, w1) => (InRemoveSession, w1)
                     | (Ok false, w1) => (AfterRemoveSession, w1)
                     | (Throw e, w1) =>
                         (Settled (Throw e),
                          console_error ("Error creating session " ++ sessionId) w1)
                     end
                else (LoadingAuth,
                      if existsSync (sessionPath env sessionId) w then w
                      else mkdirSync (sessionPath env sessionId) w)).1 with
         | Settled _ =>
             registry_owns_live sessionId
               (if isNew callbacks
                then match removeSession_enter env sessionId w with
                     | (Ok true, w1) => (InRemoveSession, w1)
                     | (Ok false, w1) => (AfterRemoveSession, w1)
                     | (Throw e, w1) =>
                         (Settled (Throw e),
                          console_error ("Error creating session " ++ sessionId) w1)
                     end
                else (LoadingAuth,
                      if existsSync (sessionPath env sessionId) w then w
                      else mkdirSync (sessionPath env sessionId) w)).2
         | _ =>
             live_sockets sessionId
               (if isNew callbacks
                then match removeSession_enter env sessionId w with
                     | (Ok true, w1) => (InRemoveSession, w1)
                     | (Ok false, w1) => (AfterRemoveSession, w1)
                     | (Throw e, w1) =>
                         (Settled (Throw e),
                          console_error ("Error creating session " ++ sessionId) w1)
                     end
                else (LoadingAuth,
                      if existsSync (sessionPath env sessionId) w then w
                      else mkdirSync (sessionPath env sessionId) w)).2 = ∅
         end).
    { destruct (isNew callbacks).
      - pose proof (removeSession_enter_sockets sessionId w) as Hsock.
        destruct (removeSession_enter_never_throws sessionId w) as [suspended Hs].
        destruct (removeSession_enter env sessionId w) as [[b|e] w1]; [|discriminate].
        cbn [snd] in Hsock.
        destruct b; cbn [fst snd]; (split; [discriminate|]);
          rewrite (live_sockets_ext sessionId _ _ Hsock); exact Hnone.
      - cbn [fst snd]. split; [discriminate|].
        destruct (existsSync (sessionPath env sessionId) w); exact Hnone. }
    destruct (sessions w !! sessionId); exact Hgoal.
Qed.

(** A [createSession] for another session brings no live socket for this
    one. *)
Lemma createSession_of_other_session sessionId other callbacks w :
  other <> sessionId ->
  live_sockets sessionId (createSession env other callbacks w).2
  ⊆ live_sockets sessionId w.
Proof.
  intros Hne h Hh. apply elem_of_live_sockets in Hh as (s & Hs & Hlive).
  apply elem_of_live_sockets.
  assert (Hcleanup : forall h s,
            sockets (after_cleanup env other callbacks w) !! h = Some s ->
            is_live_for sessionId s = true ->
            exists s0, sockets w !! h = Some s0 /\ is_live_for sessionId s0 = true).
  { intros h0 s0 Hs0 Hl0. unfold after_cleanup in Hs0.
    destruct (isNew callbacks && negb (isConnected other w)); [|eauto].
    destruct (closes env other w) eqn:Hcl.
    - destruct (removeSession_closes env other w Hcl) as (_ & _ & _ & Hk & _).
      rewrite Hk in Hs0. destruct (sessions w !! other) as [reg|]; [|eauto].
      destruct (decide (h0 = reg)) as [->|Hn].
      + rewrite lookup_alter_eq in Hs0.
        destruct (sockets w !! reg) as [s1|]; [|discriminate].
        cbn in Hs0. injection Hs0 as <-. discriminate.
      + rewrite lookup_alter_ne in Hs0 by congruence. eauto.
    - unfold closes in Hcl.
      destruct (sessions w !! other) as [reg|] eqn:Hreg; [|discriminate].
      apply negb_false_iff in Hcl.
      rewrite (removeSession_end_throws env other w reg Hreg Hcl) in Hs0. eauto. }
  destruct (isConnected other w) eqn:Hc.
  - pose proof Hc as Hc'. unfold isConnected in Hc'.
    destruct (sessions w !! other) as [session|] eqn:Hreg; [|discriminate].
    rewrite (createSession_fast_path env other callbacks w session Hreg Hc) in Hs.
    eauto.
  - pose proof (createSession_slow_path env other callbacks w Hc) as Hslow.
    cbn zeta in Hslow.
    destruct (createSession env other callbacks w) as [[sock|e] w']; cbn [fst snd] in *.
    + destruct Hslow as (_ & Hk & _). rewrite Hk in Hs.
      destruct (decide (h = sock)) as [->|Hn].
      * rewrite lookup_insert_eq in Hs. injection Hs as <-.
        unfold is_live_for in Hlive. cbn in Hlive.
        apply String.eqb_eq in Hlive. congruence.
      * rewrite lookup_insert_ne in Hs by congruence. eauto.
    + destruct Hslow as (Hk & _). rewrite Hk in Hs. eauto.
Qed.

End CreateSessionSteps.

(** C1 (as the code has it).  Take a [createSession] call made when
    every live socket of the session is the one its registry entry holds,
    in one of these cases: the session is connected; [isNew] is set and
    ending the old socket does not raise; the session has no live socket.
    Whatever other code runs while the call is suspended at its awaits,
    provided that code brings no live socket for the same session (so no
    other [createSession] for it overlaps), then at every step of the
    call every live socket of the session is the registered one, so at
    most one socket of the session is live; and the call settles within
    six steps.  In particular this holds after [createSession] run on
    its own. *)
Theorem createSession_keeps_one_live_socket
    (env : Env) (sessionId : string) (callbacks : Callbacks)
    (meanwhile : CreateCall -> World -> World) (w : World) :
  registry_owns_live sessionId w ->
  (forall at_ w0,
     live_sockets sessionId (meanwhile at_ w0) ⊆ live_sockets sessionId w0) ->
  isConnected sessionId w = true
  \/ (isNew callbacks = true /\ closes env sessionId w = true)
  \/ live_sockets sessionId w = ∅ ->
  (forall steps,
     let st := createSession_run env sessionId callbacks meanwhile steps (Called, w) in
     registry_owns_live sessionId st.2 /\ at_most_one_live sessionId st.2)
  /\ (exists r,
        (createSession_run env sessionId callbacks meanwhile 6 (Called, w)).1 = Settled r)
  /\ (let w' := (createSession env sessionId callbacks w).2 in
      registry_owns_live sessionId w' /\ at_most_one_live sessionId w').
Proof.
  intros Hown Hm Hcase.
  assert (Hall : forall (m : CreateCall -> World -> World),
            (forall at_ w0, live_sockets sessionId (m at_ w0) ⊆ live_sockets sessionId w0) ->
            forall steps,
              registry_owns_live sessionId
                (createSession_run env sessionId callbacks m steps (Called, w)).2).
  { intros m Hmm [|steps]; [exact Hown|].
    cbn [createSession_run].
    destruct (createSession_first_step env sessionId callbacks w Hown Hcase)
      as [Hne Hinv].
    apply call_invariant_owns, createSession_run_invariant; [exact Hmm| |].
    - destruct (createSession_step env sessionId callbacks (Called, w)) as [at' w'].
      cbn [fst snd] in *. destruct at'; cbn [fst]; congruence.
    - apply meanwhile_invariant; assumption. }
  split; [|split].
  - intros steps. cbn zeta.
    split; [|apply registry_owns_at_most_one]; apply Hall; exact Hm.
  - apply createSession_run_settles. cbn. lia.
  - cbn zeta.
    pose proof (Hall (fun _ w0 => w0) ltac:(intros; reflexivity) 6%nat) as Halone.
    rewrite createSession_alone in Halone. cbn [snd] in Halone.
    split; [|apply registry_owns_at_most_one]; exact Halone.
Qed.

Lemma createSession_keeps_one_live_socket_witness :
  let callbacks := {| onQR := true; onConnected := true; onDisconnected := true;
                      onMessage := false; isNew := true; retryCount := None |} in
  let meanwhile := fun (_ : CreateCall) (w0 : World) =>
                     (createSession Examples.calm "s2" no_callbacks w0).2 in
  let st := createSession_run Examples.calm "s1" callbacks meanwhile 6
              (Called, Examples.pairing) in
  live_sockets "s1" Examples.pairing = {[0%nat]}
  /\ registry_owns_live "s1" st.2 /\ at_most_one_live "s1" st.2.
Proof.
  split; [vm_compute; reflexivity|].
  apply (createSession_keeps_one_live_socket Examples.calm "s1"
           {| onQR := true; onConnected := true; onDisconnected := true;
              onMessage := false; isNew := true; retryCount := None |}
           (fun (_ : CreateCall) (w0 : World) =>
              (createSession Examples.calm "s2" no_callbacks w0).2)
           Examples.pairing).
  - apply (bool_decide_unpack _). vm_compute. exact I.
  - intros at_ w0. apply createSession_of_other_session. discriminate.
  - right. left. split; reflexivity.
Defined.

(** That call while another session is being created at each of its
    awaits: the old socket is ended, one new socket is registered and
    live. *)
Example createSession_among_other_sessions :
  let callbacks := {| onQR := true; onConnected := true; onDisconnected := true;
                      onMessage := false; isNew := true; retryCount := None |} in
  let meanwhile := fun (_ : CreateCall) (w0 : World) =>
                     (createSession Examples.calm "s2" no_callbacks w0).2 in
  let st := createSession_run Examples.calm "s1" callbacks meanwhile 6
              (Called, Examples.pairing) in
  exists sock, st.1 = Settled (Ok sock)
               /\ sessions st.2 !! "s1" = Some sock
               /\ live_sockets "s1" st.2 = {[sock]}.
Proof.
  vm_compute. eexists. repeat split.
Qed.

(** Two first [createSession] calls for one session that overlap: each
    passes the checks before the other has registered anything, each
    makes a socket, and both sockets are live in the end. *)
Example createSession_overlapping_calls :
  let step := createSession_step Examples.calm "s1" no_callbacks in
  let a1 := step (Called, empty_world) in
  let b1 := step (Called, a1.2) in
  let a2 := step (a1.1, b1.2) in
  let b2 := step (b1.1, a2.2) in
  let a3 := step (a2.1, b2.2) in
  let b3 := step (b2.1, a3.2) in
  live_sockets "s1" empty_world = ∅
  /\ (a1.1, b1.1) = (LoadingAuth, LoadingAuth)
  /\ (a2.1, b2.1) = (FetchingVersion, FetchingVersion)
  /\ (a3.1, b3.1) = (Settled (Ok 0%nat), Settled (Ok 1%nat))
  /\ sessions b3.2 !! "s1" = Some 1%nat
  /\ size (live_sockets "s1" b3.2) = 2%nat
  /\ ~ at_most_one_live "s1" b3.2.
Proof.
  unfold at_most_one_live. vm_compute.
  repeat split; try lia; auto.
Qed.

(** A [removeSession] that is still in its pause when [createSession] is
    called for the same session deletes the directory under the new call:
    the session ends up registered without a credential directory. *)
Example createSession_during_removal_pause :
  let removal := removeSession_enter Examples.calm "s1" Examples.pairing in
  let meanwhile := fun (at_ : CreateCall) (w0 : World) =>
                     match at_ with
                     | FetchingVersion => (removeSession_resume Examples.calm "s1" w0).2
                     | _ => w0
                     end in
  let st := createSession_run Examples.calm "s1" no_callbacks meanwhile 6
              (Called, removal.2) in
  removal.1 = Ok true
  /\ st.1 = Settled (Ok 1%nat)
  /\ sessions st.2 !! "s1" = Some 1%nat
  /\ sessionPath Examples.calm "s1" ∉ dirs st.2.
Proof.
  cbn zeta. split; [vm_compute; reflexivity|].
  split; [vm_compute; reflexivity|].
  split; [vm_compute; reflexivity|].
  apply (bool_decide_unpack _). vm_compute. exact I.
Qed.

(** A second [createSession] without [isNew] on a session whose socket is
    still pairing registers a new socket and leaves the old one live. *)
Lemma createSession_second_live_socket :
  let w' := (createSession Examples.calm "s1" no_callbacks Examples.pairing).2 in
  at_most_one_live "s1" Examples.pairing
  /\ sessions Examples.pairing !! "s1" = Some 0%nat
  /\ isConnected "s1" Examples.pairing = false
  /\ sessions w' !! "s1" = Some 1%nat
  /\ size (live_sockets "s1" w') = 2%nat
  /\ ~ at_most_one_live "s1" w'.
Proof.
  unfold at_most_one_live. vm_compute.
  repeat split; try lia; auto.
Qed.

(** ** Reconnect backoff *)

Section Backoff.

Lemma retryDelay_capped (n : nat) : (retryDelay n <= 10000)%Z.
Proof. unfold retryDelay. apply Z.le_min_r. Qed.

Lemma retryDelay_monotone (n : nat) :
  (1 <= n)%nat -> (retryDelay n <= retryDelay (n + 1))%Z.
Proof.
  intros Hn. unfold retryDelay. apply Z.min_le_compat_r.
  apply Z.mul_le_mono_nonneg_l; [lia|].
  apply Z.pow_le_mono_r; lia.
Qed.

Lemma retryDelay_doubles (n : nat) :
  (1 <= n)%nat -> retryDelay (n + 1) = Z.min (2 * retryDelay n) 10000.
Proof.
  intros Hn. unfold retryDelay.
  replace (Z.of_nat (n + 1) - 1)%Z with (Z.succ (Z.of_nat n - 1)) by lia.
  rewrite Z.pow_succ_r by lia.
  assert (0 < 2 ^ (Z.of_nat n - 1))%Z by (apply Z.pow_pos_nonneg; lia).
  lia.
Qed.

End Backoff.

(** C9.  On a close event that is neither a corruption nor a logout, with
    the health monitor permitting and the attempt number [n] (the carried
    [retryCount] plus one) within the budget of 2, the handler schedules
    [createSession] after [min(3000 * 2^(n-1), 10000)] ms and carries [n]
    forward.  That delay is at most 10000 ms, the delay of attempt [n+1]
    is not smaller, and it is the double of the delay of attempt [n]
    unless the cap applies. *)
Theorem reconnect_backoff
    (env : Env) (sessionId : string) (callbacks : Callbacks)
    (ld : LastDisconnect) (w : World) :
  let n := (default 0 (retryCount callbacks) + 1)%nat in
  isBadMac ld = false ->
  shouldReconnect (Some ld) = true ->
  HealthMonitor.shouldAttemptConnection env sessionId
    (HealthMonitor.recordEvent sessionId failure w) = true ->
  (n <= 2)%nat ->
  let r := on_close env sessionId callbacks (Some ld) w in
  r.1 = Ok tt
  /\ trace r.2 =
     (trace w
      ++ [EvTimer (retryDelay n) (TimerCreateSession sessionId (with_retryCount callbacks n))]
      ++ (if onDisconnected callbacks
          then [EvOnDisconnected sessionId (ReasonLastDisconnect ld)] else []))%list
  /\ retryCount (with_retryCount callbacks n) = Some n
  /\ (retryDelay n <= 10000)%Z
  /\ (retryDelay (n + 1) <= 10000)%Z
  /\ (retryDelay n <= retryDelay (n + 1))%Z
  /\ retryDelay (n + 1) = Z.min (2 * retryDelay n) 10000.
Proof.
  intros n Hmac Hre Hperm Hn r.
  assert (Hr : r.1 = Ok tt /\ trace r.2 =
     (trace w
      ++ [EvTimer (retryDelay n) (TimerCreateSession sessionId (with_retryCount callbacks n))]
      ++ (if onDisconnected callbacks
          then [EvOnDisconnected sessionId (ReasonLastDisconnect ld)] else []))%list).
  { subst r. unfold on_close. unfold_M.
    rewrite Hmac, Hre, Hperm. cbn [andb].
    fold n. apply Nat.leb_le in Hn. rewrite Hn.
    destruct (onDisconnected callbacks); cbn [fst snd trace emit];
      rewrite <- ?app_assoc; split; reflexivity. }
  destruct Hr as [Hr1 Hr2].
  repeat split; auto using retryDelay_capped.
  - apply retryDelay_monotone. subst n. lia.
  - apply retryDelay_doubles. subst n. lia.
Qed.

Lemma reconnect_backoff_witness :
  let ld := {| ld_error := Some {| de_error := new_Error "Connection Closed";
                                   de_boom_status := Some 428%Z |} |} in
  let first := on_close Examples.calm "s1" no_callbacks (Some ld) Examples.connected in
  let second := on_close Examples.calm "s1" (with_retryCount no_callbacks 1) (Some ld)
                  Examples.connected in
  trace first.2
    = [EvTimer 3000 (TimerCreateSession "s1" (with_retryCount no_callbacks 1))]
  /\ trace second.2
    = [EvTimer 6000 (TimerCreateSession "s1" (with_retryCount no_callbacks 2))]
  /\ (retryDelay 1 <= retryDelay 2 <= 10000)%Z.
Proof.
  set (ld := {| ld_error := Some {| de_error := new_Error "Connection Closed";
                                    de_boom_status := Some 428%Z |} |}).
  destruct (reconnect_backoff Examples.calm "s1" no_callbacks ld Examples.connected
              eq_refl eq_refl eq_refl ltac:(vm_compute; lia))
    as (_ & Ht1 & _ & _ & Hcap & Hmono & _).
  destruct (reconnect_backoff Examples.calm "s1" (with_retryCount no_callbacks 1) ld
              Examples.connected eq_refl eq_refl eq_refl ltac:(vm_compute; lia))
    as (_ & Ht2 & _).
  cbn zeta. split; [exact Ht1|]. split; [exact Ht2|].
  split; [exact Hmono|exact Hcap].
Defined.

(** ** Fatal errors in the health record *)

Section FatalError.

Context (env : Env).

Import HealthMonitor.

(** The health record after the corruption recovery: the [fatal_error]
    just recorded is discarded with the rest of the record by the cleanup
    in [removeSession], unless ending the socket raised. *)
Lemma health_after_corruption sessionId onDisconnected w :
  health (handleSessionCorruption env sessionId onDisconnected w).2 !! sessionId
  = if closes env sessionId w then None
    else Some (log_of sessionId w ++ [(fatal_error, clock w)])%list.
Proof.
  unfold handleSessionCorruption. unfold_M.
  set (w1 := recordEvent sessionId fatal_error
               (console_error ("Fatal cryptographic error (Bad MAC) for session "
                               ++ sessionId) w)).
  assert (Hcl : closes env sessionId w1 = closes env sessionId w) by reflexivity.
  assert (Hh : health w1 !! sessionId
               = Some (log_of sessionId w ++ [(fatal_error, clock w)])%list).
  { subst w1. unfold recordEvent, log_of. cbn. apply lookup_insert_eq. }
  pose proof (removeSession_never_throws env sessionId w1) as Hok.
  destruct (closes env sessionId w) eqn:Hc.
  - destruct (removeSession_closes env sessionId w1 Hcl) as (_ & _ & Hd & _).
    destruct (removeSession env sessionId w1) as [r w2]. cbn in Hok, Hd. subst r.
    destruct onDisconnected; cbn; rewrite Hd; apply lookup_delete_eq.
  - unfold closes in Hcl.
    destruct (sessions w1 !! sessionId) as [sock|] eqn:Hs; [|discriminate].
    apply negb_false_iff in Hcl.
    pose proof (removeSession_end_throws env sessionId w1 sock Hs Hcl) as Hw.
    destruct (removeSession env sessionId w1) as [r w2]. cbn in Hok, Hw. subst r w2.
    destruct onDisconnected; cbn; exact Hh.
Qed.

End FatalError.

(** * Further properties of the code *)

(** ** formatPhoneNumber *)

Section FormatPhoneNumber.

Import JsString.

Lemma has_at_cons (c : ascii) (s : string) :
  has_at (String c s) = Ascii.eqb c "@" || has_at s.
Proof.
  unfold has_at. cbn [includes]. unfold startsWith. cbn [String.prefix].
  destruct (ascii_dec "@" c) as [<-|Hc].
  - destruct s; reflexivity.
  - assert (Ascii.eqb c "@" = false) as -> by (apply Ascii.eqb_neq; congruence).
    reflexivity.
Qed.

Lemma has_at_app (s1 s2 : string) :
  has_at (s1 ++ s2) = has_at s1 || has_at s2.
Proof.
  induction s1 as [|c s1 IH].
  - reflexivity.
  - change (String c s1 ++ s2) with (String c (s1 ++ s2)).
    rewrite !has_at_cons, IH, orb_assoc. reflexivity.
Qed.

Lemma replace_app (s1 s2 : string) :
  replace_not_digit_nor_plus (s1 ++ s2)
  = replace_not_digit_nor_plus s1 ++ replace_not_digit_nor_plus s2.
Proof.
  induction s1 as [|c s1 IH]; [reflexivity|].
  change (String c s1 ++ s2) with (String c (s1 ++ s2)).
  cbn [replace_not_digit_nor_plus]. rewrite IH.
  destruct (not_digit_nor_plus c); reflexivity.
Qed.

Lemma replace_kept (s : string) :
  forallb kept (list_ascii_of_string (replace_not_digit_nor_plus s)) = true.
Proof.
  induction s as [|c s IH]; [reflexivity|].
  cbn [replace_not_digit_nor_plus]. unfold not_digit_nor_plus. fold (kept c).
  destruct (kept c) eqn:Hk; cbn; [rewrite Hk|]; exact IH.
Qed.

Lemma replace_length (s : string) :
  (String.length (replace_not_digit_nor_plus s) <= String.length s)%nat.
Proof.
  induction s as [|c s IH]; [reflexivity|].
  cbn [replace_not_digit_nor_plus]. destruct (not_digit_nor_plus c); cbn; lia.
Qed.

Lemma replace_digits (s : string) :
  forallb is_digit (list_ascii_of_string s) = true ->
  replace_not_digit_nor_plus s = s.
Proof.
  induction s as [|c s IH]; [reflexivity|].
  cbn. intros H. apply andb_true_iff in H as [Hc Hs].
  unfold not_digit_nor_plus. rewrite Hc. cbn. rewrite IH by exact Hs. reflexivity.
Qed.

Lemma digits_have_no_at (s : string) :
  forallb is_digit (list_ascii_of_string s) = true -> has_at s = false.
Proof.
  induction s as [|c s IH]; [reflexivity|].
  cbn [list_ascii_of_string forallb]. intros H. apply andb_true_iff in H as [Hc Hs].
  rewrite has_at_cons, (IH Hs), orb_false_r.
  apply Ascii.eqb_neq. intros ->. discriminate.
Qed.

End FormatPhoneNumber.

(** X1.  Normalising an address twice is the same as normalising it once:
    what [formatPhoneNumber] returns always contains '@' and is returned
    unchanged when given back. *)
Theorem formatPhoneNumber_idempotent (phoneNumber : string) :
  JsString.includes (formatPhoneNumber phoneNumber) "@" = true
  /\ formatPhoneNumber (formatPhoneNumber phoneNumber) = formatPhoneNumber phoneNumber.
Proof.
  assert (H : JsString.includes (formatPhoneNumber phoneNumber) "@" = true).
  { unfold formatPhoneNumber.
    destruct (JsString.includes phoneNumber "@") eqn:Hat; [exact Hat|].
    cbn zeta. fold (has_at (((if JsString.startsWith
        (JsString.replace_not_digit_nor_plus phoneNumber) "+"
      then JsString.substring1 (JsString.replace_not_digit_nor_plus phoneNumber)
      else JsString.replace_not_digit_nor_plus phoneNumber)) ++ "@s.whatsapp.net")).
    rewrite has_at_app. apply orb_true_r. }
  split; [exact H|].
  unfold formatPhoneNumber at 1. rewrite H. reflexivity.
Qed.

(** X2.  For an input without '@', the result is a local part followed by
    "@s.whatsapp.net"; the local part consists of digits and '+' only and
    is not longer than the input. *)
Theorem formatPhoneNumber_local_part (phoneNumber : string) :
  JsString.includes phoneNumber "@" = false ->
  exists localPart,
    formatPhoneNumber phoneNumber = localPart ++ "@s.whatsapp.net"
    /\ forallb kept (list_ascii_of_string localPart) = true
    /\ (String.length localPart <= String.length phoneNumber)%nat.
Proof.
  intros Hat. unfold formatPhoneNumber. rewrite Hat. cbn zeta.
  pose proof (replace_kept phoneNumber) as Hk.
  pose proof (replace_length phoneNumber) as Hl.
  destruct (JsString.replace_not_digit_nor_plus phoneNumber) as [|c cleaned].
  - exists "". split; [reflexivity|]. split; [reflexivity|cbn; lia].
  - destruct (JsString.startsWith (String c cleaned) "+").
    + exists cleaned. cbn [JsString.substring1]. split; [reflexivity|].
      cbn in Hk, Hl. apply andb_true_iff in Hk as [_ Hk]. split; [exact Hk|lia].
    + exists (String c cleaned). split; [reflexivity|]. split; assumption.
Qed.

Lemma formatPhoneNumber_local_part_witness :
  exists localPart,
    formatPhoneNumber "(+20) 106-628-4516" = localPart ++ "@s.whatsapp.net"
    /\ forallb kept (list_ascii_of_string localPart) = true
    /\ (String.length localPart <= String.length "(+20) 106-628-4516")%nat.
Proof.
  exact (formatPhoneNumber_local_part "(+20) 106-628-4516" eq_refl).
Defined.

(** X3.  A character that is neither a digit, nor '+', nor '@' makes no
    difference wherever it stands in a number without '@': spaces,
    dashes, brackets and letters are all ignored. *)
Theorem formatPhoneNumber_ignores_separators (before after : string) (c : ascii) :
  JsString.includes before "@" = false ->
  JsString.includes after "@" = false ->
  kept c = false ->
  c <> "@"%char ->
  formatPhoneNumber (before ++ String c after) = formatPhoneNumber (before ++ after).
Proof.
  intros Hb Ha Hc Hat. unfold formatPhoneNumber.
  fold (has_at (before ++ String c after)). fold (has_at (before ++ after)).
  fold (has_at before) in Hb. fold (has_at after) in Ha.
  rewrite !has_at_app, has_at_cons, Hb, Ha.
  assert (Ascii.eqb c "@" = false) as -> by (apply Ascii.eqb_neq; exact Hat).
  cbn [orb]. rewrite !replace_app. cbn [JsString.replace_not_digit_nor_plus].
  unfold JsString.not_digit_nor_plus. fold (kept c). rewrite Hc. reflexivity.
Qed.

Lemma formatPhoneNumber_ignores_separators_witness :
  formatPhoneNumber ("+20 106" ++ String "-" "628 4516")
  = formatPhoneNumber ("+20 106" ++ "628 4516").
Proof.
  apply formatPhoneNumber_ignores_separators; try reflexivity. discriminate.
Defined.

(** X4.  A number made of digits only just gets the suffix. *)
Theorem formatPhoneNumber_digits (phoneNumber : string) :
  forallb JsString.is_digit (list_ascii_of_string phoneNumber) = true ->
  formatPhoneNumber phoneNumber = phoneNumber ++ "@s.whatsapp.net".
Proof.
  intros Hd. unfold formatPhoneNumber.
  pose proof (digits_have_no_at phoneNumber Hd) as Hat. unfold has_at in Hat.
  rewrite Hat, (replace_digits phoneNumber Hd). cbn zeta.
  destruct phoneNumber as [|c s]; [reflexivity|].
  unfold JsString.startsWith. cbn [String.prefix].
  destruct (ascii_dec "+" c) as [<-|_]; [discriminate|reflexivity].
Qed.

Lemma formatPhoneNumber_digits_witness :
  formatPhoneNumber "201066284516" = "201066284516" ++ "@s.whatsapp.net".
Proof.
  exact (formatPhoneNumber_digits "201066284516" eq_refl).
Defined.

(** ** sendMessage, whatever the transport does *)

Section SendMessageBounds.

Context (env : Env).

Lemma same_manager_state_refl w : same_manager_state w w.
Proof. repeat split. Qed.

Lemma same_manager_state_trans w1 w2 w3 :
  same_manager_state w1 w2 -> same_manager_state w2 w3 -> same_manager_state w1 w3.
Proof.
  intros (H1 & H2 & H3 & H4 & H5) (K1 & K2 & K3 & K4 & K5).
  repeat split; congruence.
Qed.

Lemma continues_refl w : continues w w.
Proof. split; [exists []; symmetry; apply app_nil_r|lia]. Qed.

Lemma continues_trans w1 w2 w3 :
  continues w1 w2 -> continues w2 w3 -> continues w1 w3.
Proof.
  intros [[t1 H1] C1] [[t2 H2] C2]. split; [|lia].
  exists (t1 ++ t2)%list. rewrite H2, H1, app_assoc. reflexivity.
Qed.

Lemma continues_emit e w : continues w (emit e w).
Proof. split; [exists [e]; reflexivity|cbn; lia]. Qed.

Lemma continues_delay ms w : (0 <= ms)%Z -> continues w (delay ms w).
Proof. intros H. split; [exists [EvDelay ms]; reflexivity|cbn; lia]. Qed.

Lemma count_sends_emit_send h jid c w :
  count_sends (trace (emit (EvSend h jid c) w)) = (count_sends (trace w) + 1)%nat.
Proof. cbn [emit trace]. rewrite count_sends_app. reflexivity. Qed.

Lemma count_sends_delay ms w :
  count_sends (trace (delay ms w)) = count_sends (trace w).
Proof. cbn [delay trace]. rewrite count_sends_app. cbn. lia. Qed.

(** One pass through the body of [sendMessage]. *)
Lemma sendMessage_try_pass sessionId phoneNumber message n w :
  let r := sendMessage_try env sessionId phoneNumber message n w in
  same_manager_state w r.2
  /\ continues w r.2
  /\ (count_sends (trace r.2) <= count_sends (trace w) + 1)%nat
  /\ match r.1 with
     | CallsItself => (n < 2)%nat /\ clock r.2 = (clock w + 2000)%Z
     | _ => clock r.2 = clock w
     end.
Proof.
  unfold sendMessage_try, transport_send, console_error, same_manager_state, continues.
  destruct (getSession sessionId w) as [session|]; cbn zeta;
    [destruct (user_of w session);
     [destruct (send_outcome env session _ _ _) as [res|e];
      [|destruct (_ || _); [|destruct (Nat.ltb_spec n 2)]]|]|];
    cbn [fst snd emit delay trace clock sessions qrCodes sockets dirs health];
    repeat split; try lia;
    try (eexists; rewrite <- ?app_assoc; reflexivity);
    rewrite !count_sends_app; cbn; lia.
Qed.

End SendMessageBounds.

(** What a call of [sendMessage] can do at most. *)
Lemma sendMessage_effects
    (env : Env) (sessionId phoneNumber message : string) (n : nat) (w : World) :
  let r := sendMessage env sessionId phoneNumber message n w in
  (exists v, r.1 = Ok v)
  /\ (count_sends (trace r.2) <= count_sends (trace w) + (3 - n) `max` 1)%nat
  /\ (clock r.2 <= clock w + 2000 * Z.of_nat (2 - n))%Z
  /\ continues w r.2
  /\ same_manager_state w r.2.
Proof.
  cbn zeta. remember (2 - n)%nat as k eqn:Hk. revert n w Hk.
  induction k as [k IH] using lt_wf_ind. intros n w Hk.
  rewrite sendMessage_body.
  pose proof (sendMessage_try_pass env sessionId phoneNumber message n w) as Hp.
  cbn zeta in Hp.
  destruct (sendMessage_try env sessionId phoneNumber message n w) as [[v|e|] w'];
    cbn [fst snd] in *; destruct Hp as (Hsame & Hcont & Hcount & Hclock).
  - repeat split; eauto; try lia; apply Hcont || apply Hsame.
  - split; [eauto|].
    split; [cbn [console_error emit trace]; rewrite count_sends_app; cbn; lia|].
    split; [cbn [console_error emit clock]; lia|]. split.
    + eapply continues_trans; [exact Hcont|apply continues_emit].
    + exact Hsame.
  - destruct Hclock as [Hn Hclock].
    destruct (IH (2 - (n + 1))%nat ltac:(lia) (n + 1)%nat w' eq_refl)
      as (Hv & Hc & Hcl & Hco & Hsa).
    split; [exact Hv|]. split; [lia|]. split; [lia|]. split.
    + eapply continues_trans; eassumption.
    + eapply same_manager_state_trans; eassumption.
Qed.


(** X5.  On a session that is not connected (unknown, or with a socket
    not yet authenticated) [sendMessage] returns [false] at once, whatever
    [retryCount] is: nothing is sent, nothing is waited for, and one line
    goes to the console. *)
Theorem sendMessage_fail_fast
    (env : Env) (sessionId phoneNumber message : string) (n : nat) (w : World) :
  isConnected sessionId w = false ->
  let r := sendMessage env sessionId phoneNumber message n w in
  r.1 = Ok JsFalse
  /\ count_sends (trace r.2) = count_sends (trace w)
  /\ clock r.2 = clock w
  /\ exists what, r.2 = console_error what w.
Proof.
  intros Hc. cbn zeta. rewrite sendMessage_body.
  unfold isConnected in Hc. unfold sendMessage_try, getSession.
  destruct (sessions w !! sessionId) as [session|].
  - apply bool_decide_eq_false in Hc.
    destruct (user_of w session) as [u|]; [exfalso; apply Hc; eauto|].
    cbn [fst snd console_error emit trace clock]. rewrite count_sends_app.
    repeat split; [cbn; lia|eauto].
  - cbn [fst snd console_error emit trace clock]. rewrite count_sends_app.
    repeat split; [cbn; lia|eauto].
Qed.

Lemma sendMessage_fail_fast_witness :
  let r := sendMessage Examples.calm "s1" "+20 106-628-4516" "hello" 0 Examples.pairing in
  r.1 = Ok JsFalse
  /\ count_sends (trace r.2) = count_sends (trace Examples.pairing)
  /\ clock r.2 = clock Examples.pairing
  /\ exists what, r.2 = console_error what Examples.pairing.
Proof.
  exact (sendMessage_fail_fast Examples.calm "s1" "+20 106-628-4516" "hello" 0
           Examples.pairing eq_refl).
Defined.

(** X6.  Whatever the transport answers, for every [retryCount] that is a
    natural number (the callers pass none, which makes it 0, and the
    retries pass 1 and 2), [sendMessage] never raises, makes at most
    three sends when [retryCount] is 0, two when it is 1 and one from 2
    on, waits at most 2000 ms per retry it has left, only adds to the
    trace, and leaves the registry, the QR cache, the socket objects, the
    directories and the health records as they are. *)
Theorem sendMessage_bounded
    (env : Env) (sessionId phoneNumber message : string) (n : nat) (w : World) :
  let r := sendMessage env sessionId phoneNumber message n w in
  (exists v, r.1 = Ok v)
  /\ (count_sends (trace r.2) <= count_sends (trace w) + (3 - n) `max` 1)%nat
  /\ (clock r.2 <= clock w + 2000 * Z.of_nat (2 - n))%Z
  /\ continues w r.2
  /\ same_manager_state w r.2.
Proof. apply sendMessage_effects. Qed.

(** X7.  When the first attempts (at most two) raise transient errors and
    the next one succeeds, [sendMessage(.., 0)] returns the result of that
    send, after one send per failure and 2000 ms after each. *)
Theorem sendMessage_recovers
    (env : Env) (sessionId phoneNumber message : string) (w : World)
    (session : handle) (user : User) (errors : list JsError) (result : string) :
  getSession sessionId w = Some session ->
  user_of w session = Some user ->
  (length errors <= 2)%nat ->
  (forall i e, errors !! i = Some e ->
     send_outcome env session (formatPhoneNumber phoneNumber) (CText message)
       (count_sends (trace w) + i) = Throw e
     /\ JsString.includes (error_toString e) "Bad MAC" = false
     /\ JsString.includes (error_toString e) "Session Error" = false) ->
  send_outcome env session (formatPhoneNumber phoneNumber) (CText message)
    (count_sends (trace w) + length errors) = Ok result ->
  let attempt := EvSend session (formatPhoneNumber phoneNumber) (CText message) in
  let r := sendMessage env sessionId phoneNumber message 0 w in
  r.1 = Ok (JsSent result)
  /\ trace r.2 =
     (trace w ++ concat ((fun _ => [attempt; EvDelay 2000]) <$> errors) ++ [attempt])%list.
Proof.
  intros Hs Hu Hlen Herr Hok attempt r. subst r.
  assert (Hsucc : forall k w',
             getSession sessionId w' = Some session ->
             user_of w' session = Some user ->
             send_outcome env session (formatPhoneNumber phoneNumber) (CText message)
               (count_sends (trace w')) = Ok result ->
             sendMessage env sessionId phoneNumber message k w'
             = (Ok (JsSent result), emit attempt w')).
  { intros k w' Hs' Hu' Hok'. rewrite sendMessage_body.
    unfold sendMessage_try, transport_send. rewrite Hs', Hu', Hok'. reflexivity. }
  destruct errors as [|e1 [|e2 [|e3 errors]]]; cbn [length] in *; [| | |lia].
  - rewrite Nat.add_0_r in Hok. rewrite (Hsucc 0%nat w Hs Hu Hok).
    split; reflexivity.
  - destruct (Herr 0%nat e1 eq_refl) as (H1 & M1 & S1). rewrite Nat.add_0_r in H1.
    rewrite sendMessage_body.
    rewrite (sendMessage_try_transient env _ _ _ 0 w session user e1); auto.
    cbn [Nat.ltb Nat.leb Nat.add]. fold attempt.
    rewrite Hsucc; auto.
    + split; [reflexivity|]. cbn [snd emit delay trace fmap list_fmap concat app].
      rewrite <- ?app_assoc. reflexivity.
    + rewrite count_sends_delay. unfold attempt. rewrite count_sends_emit_send.
      exact Hok.
  - destruct (Herr 0%nat e1 eq_refl) as (H1 & M1 & S1). rewrite Nat.add_0_r in H1.
    destruct (Herr 1%nat e2 eq_refl) as (H2 & M2 & S2).
    rewrite sendMessage_body.
    rewrite (sendMessage_try_transient env _ _ _ 0 w session user e1); auto.
    cbn [Nat.ltb Nat.leb Nat.add]. fold attempt.
    rewrite sendMessage_body.
    rewrite (sendMessage_try_transient env _ _ _ 1 _ session user e2); auto.
    2: { rewrite count_sends_delay. unfold attempt. rewrite count_sends_emit_send.
         exact H2. }
    cbn [Nat.ltb Nat.leb Nat.add]. fold attempt.
    rewrite Hsucc; auto.
    + split; [reflexivity|]. cbn [snd emit delay trace fmap list_fmap concat app].
      rewrite <- ?app_assoc. reflexivity.
    + rewrite count_sends_delay. unfold attempt. rewrite count_sends_emit_send.
      rewrite count_sends_delay, count_sends_emit_send.
      replace (count_sends (trace w) + 1 + 1)%nat
        with (count_sends (trace w) + 2)%nat by lia. exact Hok.
Qed.

Lemma sendMessage_recovers_witness :
  let attempt := EvSend 0 "201066284516@s.whatsapp.net" (CText "hello") in
  let r := sendMessage Examples.first_send_fails "s1" "+20 106-628-4516" "hello" 0
             Examples.connected in
  r.1 = Ok (JsSent "msg-id")
  /\ trace r.2 = [attempt; EvDelay 2000; attempt].
Proof.
  apply (sendMessage_recovers Examples.first_send_fails "s1" "+20 106-628-4516" "hello"
           Examples.connected 0 Examples.alice [Examples.timeout_error] "msg-id");
    try reflexivity.
  - cbn. lia.
  - intros [|i] e He; [|destruct i; discriminate].
    injection He as <-. repeat split.
Defined.

(** ** sendButtonMessage *)

Section ButtonMessages.

Context (env : Env).

(** What a call of [sendButtonMessage] does. *)
Lemma sendButtonMessage_effects sessionId phoneNumber text buttons w :
  let r := sendButtonMessage env sessionId phoneNumber text buttons w in
  let content := CButtons text "منصة واصل" (format_buttons buttons) in
  clock r.2 = clock w
  /\ continues w r.2
  /\ same_manager_state w r.2
  /\ match getSession sessionId w with
     | None =>
         r.1 = Throw (new_Error ("Session " ++ sessionId ++ " not found"))
         /\ count_sends (trace r.2) = count_sends (trace w)
     | Some session =>
         r.1 = send_outcome env session (formatPhoneNumber phoneNumber) content
                 (count_sends (trace w))
         /\ count_sends (trace r.2) = (count_sends (trace w) + 1)%nat
     end.
Proof.
  unfold sendButtonMessage, transport_send, same_manager_state, continues. unfold_M.
  destruct (getSession sessionId w) as [session|];
    [destruct (send_outcome env session _ _ _) as [res|e]|];
    cbn [fst snd emit delay console_error trace clock sessions qrCodes sockets dirs health];
    repeat split; try lia;
    try (eexists; rewrite <- ?app_assoc; reflexivity);
    rewrite ?count_sends_app; cbn; lia.
Qed.

Lemma buttonId_default (btn : Button) (index : nat) :
  (btn_id btn = None \/ btn_id btn = Some "") ->
  buttonId btn index = "btn_" ++ pretty index.
Proof. unfold buttonId. intros [->| ->]; reflexivity. Qed.

End ButtonMessages.

(** X8.  [sendButtonMessage] makes one send when the session is in the
    registry, authenticated or not, and none otherwise; it never waits and
    never retries.  It raises "Session ... not found" for an unknown
    session, hands a transport error on unchanged, and otherwise returns
    what the transport returned; the registry and the other manager state
    are left as they are. *)
Theorem sendButtonMessage_single_attempt
    (env : Env) (sessionId phoneNumber text : string) (buttons : list Button)
    (w : World) :
  let r := sendButtonMessage env sessionId phoneNumber text buttons w in
  let content := CButtons text "منصة واصل" (format_buttons buttons) in
  clock r.2 = clock w
  /\ continues w r.2
  /\ same_manager_state w r.2
  /\ match getSession sessionId w with
     | None =>
         r.1 = Throw (new_Error ("Session " ++ sessionId ++ " not found"))
         /\ count_sends (trace r.2) = count_sends (trace w)
     | Some session =>
         r.1 = send_outcome env session (formatPhoneNumber phoneNumber) content
                 (count_sends (trace w))
         /\ count_sends (trace r.2) = (count_sends (trace w) + 1)%nat
     end.
Proof. apply sendButtonMessage_effects. Qed.

(** X9.  When no button comes with an id of its own (none, or the empty
    string), the ids [sendButtonMessage] gives them, "btn_0", "btn_1", ...,
    are pairwise different, one per button. *)
Theorem default_button_ids_distinct (buttons : list Button) :
  Forall (fun btn => btn_id btn = None \/ btn_id btn = Some "") buttons ->
  length (format_buttons buttons) = length buttons
  /\ NoDup (format_buttons buttons).*1.
Proof.
  intros Hall. unfold format_buttons. split; [apply length_imap|].
  apply NoDup_alt. intros i j id Hi Hj.
  rewrite list_lookup_fmap, list_lookup_imap in Hi, Hj.
  destruct (buttons !! i) as [bi|] eqn:Ei; [|discriminate].
  destruct (buttons !! j) as [bj|] eqn:Ej; [|discriminate].
  cbn in Hi, Hj. injection Hi as Hi. injection Hj as Hj.
  rewrite Forall_lookup in Hall.
  rewrite (buttonId_default bi i (Hall i bi Ei)) in Hi.
  rewrite (buttonId_default bj j (Hall j bj Ej)) in Hj.
  subst id. cbn in Hj. injection Hj as Hj.
  symmetry. apply (inj pretty). exact Hj.
Qed.

Lemma default_button_ids_distinct_witness :
  let buttons := [{| btn_id := None; btn_text := "yes" |};
                  {| btn_id := Some ""; btn_text := "no" |};
                  {| btn_id := None; btn_text := "later" |}] in
  length (format_buttons buttons) = 3%nat
  /\ NoDup (format_buttons buttons).*1.
Proof.
  apply (default_button_ids_distinct
           [{| btn_id := None; btn_text := "yes" |};
            {| btn_id := Some ""; btn_text := "no" |};
            {| btn_id := None; btn_text := "later" |}]).
  constructor; [left; reflexivity|].
  constructor; [right; reflexivity|].
  constructor; [left; reflexivity|].
  constructor.
Defined.

(** ** The dispatch queue, continued *)

Section QueueInvariants.

Context (env : Env).

Lemma never_stranded_enter (ms : MessageService) :
  never_stranded (processQueue_enter ms).
Proof.
  split; [apply consistent_enter|].
  unfold processQueue_enter. destruct (messageQueue ms); cbn; [reflexivity|discriminate].
Qed.

Lemma never_stranded_idle : never_stranded idle.
Proof. split; [apply consistent_idle|reflexivity]. Qed.

Lemma never_stranded_step (st : Dispatcher * World) (a : Action) :
  never_stranded st.1 -> never_stranded (step env st a).1.
Proof.
  intros [Hc Hq]. destruct a as [sessionId phoneNumber message type buttons|]; cbn.
  - unfold addToQueue. cbn.
    destruct (processing (service st.1)) eqn:Hp.
    + split.
      * split; cbn; intros _; [apply Hc; exact Hp|reflexivity].
      * cbn. congruence.
    + apply never_stranded_enter.
  - unfold resume. destruct (inflight st.1); [apply never_stranded_enter|].
    split; assumption.
Qed.

Lemma never_stranded_run (schedule : list Action) (st : Dispatcher * World) :
  never_stranded st.1 -> never_stranded (run env schedule st).1.
Proof.
  revert st. induction schedule as [|a schedule IH]; intros st H; [exact H|].
  cbn [run fold_left]. apply IH, never_stranded_step, H.
Qed.

(** Resuming once per item held empties the dispatcher, whatever the
    outcome of each item. *)
Lemma drain_from (n : nat) (d : Dispatcher) (w : World) :
  never_stranded d ->
  length (pending d) = n ->
  (run env (repeat Resume n) (d, w)).1 = idle
  /\ processed env (repeat Resume n) (d, w) = pending d.
Proof.
  revert d w. induction n as [|n IH]; intros d w [Hc Hq] Hlen.
  - unfold pending in Hlen. destruct d as [[queue flag] [item|]]; cbn in *; [lia|].
    destruct queue; [|cbn in Hlen; lia].
    destruct flag.
    + destruct Hc as [Hc _]. destruct (Hc eq_refl) as [x Hx]. discriminate.
    + split; reflexivity.
  - destruct (inflight d) as [item|] eqn:Hi.
    + cbn [repeat run fold_left processed step]. unfold resume. cbn [fst snd].
      rewrite Hi.
      destruct (IH (processQueue_enter (service d)) (process_item env item w)
                  (never_stranded_enter _)) as [Hrun Hproc].
      { rewrite pending_enter. unfold pending in Hlen. rewrite Hi in Hlen.
        cbn in Hlen. lia. }
      unfold run in Hrun. split; [exact Hrun|].
      rewrite Hproc, pending_enter. unfold pending. rewrite Hi. reflexivity.
    + exfalso. unfold pending in Hlen. rewrite Hi in Hlen. cbn in Hlen.
      destruct (processing (service d)) eqn:Hp.
      * destruct Hc as [Hc _]. destruct (Hc Hp) as [x Hx]. congruence.
      * rewrite (Hq eq_refl) in Hlen. cbn in Hlen. lia.
Qed.

Lemma processed_app (s1 s2 : list Action) (st : Dispatcher * World) :
  processed env (s1 ++ s2) st
  = (processed env s1 st ++ processed env s2 (run env s1 st))%list.
Proof.
  revert st. induction s1 as [|a s1 IH]; intros st; [reflexivity|].
  cbn [app processed run fold_left]. rewrite IH, app_assoc. reflexivity.
Qed.

(** What the processing of one item can touch. *)
Lemma process_item_effects (item : QueueItem) (w : World) :
  same_manager_state w (process_item env item w)
  /\ continues w (process_item env item w)
  /\ (count_sends (trace (process_item env item w)) <= count_sends (trace w) + 3)%nat.
Proof.
  unfold process_item, dispatch. unfold mbind at 1. unfold M_bind at 1.
  destruct (String.eqb (item_type item) "text").
  - unfold mbind, M_bind, mret, M_ret, modify.
    destruct (sendMessage_effects env (item_sessionId item) (item_phoneNumber item)
                (item_message item) 0 w) as ([v Hv] & Hcount & _ & Hcont & Hsame).
    destruct (sendMessage env _ _ _ 0 w) as [r w']. cbn [fst snd] in *. subst r.
    split; [|split].
    + destruct Hsame as (?&?&?&?&?). repeat split; assumption.
    + eapply continues_trans; [exact Hcont|apply continues_delay; lia].
    + rewrite count_sends_delay. cbn in Hcount. lia.
  - destruct (String.eqb (item_type item) "button").
    + unfold mbind, M_bind, mret, M_ret, modify.
      destruct (sendButtonMessage_effects env (item_sessionId item)
                  (item_phoneNumber item) (item_message item)
                  (default [] (item_buttons item)) w) as (_ & Hcont & Hsame & Hcase).
      assert (count_sends
                (trace (sendButtonMessage env (item_sessionId item)
                          (item_phoneNumber item) (item_message item)
                          (default [] (item_buttons item)) w).2)
              <= count_sends (trace w) + 1)%nat as Hcount.
      { destruct (getSession (item_sessionId item) w); destruct Hcase as [_ ->]; lia. }
      destruct (sendButtonMessage env _ _ _ _ w) as [[r|e] w']; cbn [fst snd] in *.
      * split; [|split].
        -- destruct Hsame as (?&?&?&?&?). repeat split; assumption.
        -- eapply continues_trans; [exact Hcont|apply continues_delay; lia].
        -- rewrite count_sends_delay. lia.
      * split; [|split].
        -- destruct Hsame as (?&?&?&?&?). repeat split; assumption.
        -- eapply continues_trans; [exact Hcont|apply continues_emit].
        -- cbn [console_error emit trace]. rewrite count_sends_app. cbn. lia.
    + unfold mbind, M_bind, mret, M_ret, modify. cbn [fst snd].
      split; [repeat split|]. split; [apply continues_delay; lia|].
      rewrite count_sends_delay. lia.
Qed.

End QueueInvariants.

(** X10.  However [addToQueue] calls and drain steps interleave, starting
    from the idle service, no item is ever stranded: a [processQueue]
    call is suspended exactly when [processing] is set, and when
    [processing] is not set the queue is empty. *)
Theorem queue_never_stranded (env : Env) (schedule : list Action) (w : World) :
  let d := (run env schedule (idle, w)).1 in
  (processing (service d) = true <-> is_Some (inflight d))
  /\ (processing (service d) = false -> messageQueue (service d) = [] /\ pending d = []).
Proof.
  cbn zeta.
  destruct (never_stranded_run env schedule (idle, w) never_stranded_idle) as [Hc Hq].
  split; [exact Hc|]. intros Hp. split; [apply Hq, Hp|].
  unfold pending. rewrite (Hq Hp).
  destruct (inflight (run env schedule (idle, w)).1) eqn:Hi; [|reflexivity].
  assert (is_Some (inflight (run env schedule (idle, w)).1)) as Hs by (rewrite Hi; eauto).
  apply Hc in Hs. congruence.
Qed.

(** X11.  From any state reached from the idle service, one drain step
    per item held brings the service back to idle, and all those items
    have been processed, in order, each exactly once, also when the
    processing of some of them raises. *)
Theorem queue_drains (env : Env) (schedule : list Action) (w : World) :
  let st := run env schedule (idle, w) in
  let rest := repeat Resume (length (pending st.1)) in
  (run env rest st).1 = idle
  /\ processed env rest st = pending st.1
  /\ (processed env (schedule ++ rest) (idle, w) = enqueued env schedule (idle, w)).
Proof.
  cbn zeta.
  pose proof (never_stranded_run env schedule (idle, w) never_stranded_idle) as Hn.
  destruct (run env schedule (idle, w)) as [d w'] eqn:Hrun. cbn [fst snd] in *.
  destruct (drain_from env (length (pending d)) d w' Hn eq_refl) as [Hidle Hproc].
  split; [exact Hidle|]. split; [exact Hproc|].
  pose proof (fifo_from env schedule (idle, w) consistent_idle) as Hfifo.
  rewrite Hrun in Hfifo. cbn [fst] in Hfifo.
  rewrite processed_app, Hrun, Hproc, Hfifo. reflexivity.
Qed.

(** X12.  Processing a queue item, of whatever type and with whatever
    outcome, changes neither the registry nor the QR cache, the socket
    objects, the directories or the health records; it only adds to the
    trace, never turns the clock back, and makes at most three sends. *)
Theorem process_item_leaves_sessions_alone
    (env : Env) (item : QueueItem) (w : World) :
  same_manager_state w (process_item env item w)
  /\ continues w (process_item env item w)
  /\ (count_sends (trace (process_item env item w)) <= count_sends (trace w) + 3)%nat.
Proof. apply process_item_effects. Qed.

(** ** removeSession and disconnectSession *)

Section Removal.

Context (env : Env).

Lemma world_eq (w w' : World) :
  sessions w = sessions w' -> qrCodes w = qrCodes w' -> sockets w = sockets w' ->
  dirs w = dirs w' -> health w = health w' -> clock w = clock w' ->
  trace w = trace w' -> w = w'.
Proof. destruct w, w'. cbn. intros. subst. reflexivity. Qed.

(** Nothing of the session is left: [removeSession] does nothing. *)
Lemma removeSession_nothing_left sessionId w :
  sessions w !! sessionId = None ->
  qrCodes w !! sessionId = None ->
  health w !! sessionId = None ->
  sessionPath env sessionId ∉ dirs w ->
  removeSession env sessionId w = (Ok tt, w).
Proof.
  intros Hs Hq Hh Hd. unfold removeSession, sock_end, rmSync, existsSync. unfold_M. cbn.
  rewrite Hs, Hq. cbn.
  rewrite bool_decide_eq_false_2 by exact Hd.
  f_equal. apply world_eq; try reflexivity.
  cbn. apply delete_id. exact Hh.
Qed.

Lemma elem_of_upto (p q : JsPath.Path) : q ∈ JsPath.upto p <-> q `prefix_of` p.
Proof.
  revert q. induction p as [|segment p IH]; intros q; cbn.
  - rewrite list_elem_of_singleton. split.
    + intros ->. reflexivity.
    + intros Hq. apply prefix_nil_inv in Hq. exact Hq.
  - rewrite elem_of_cons, list_elem_of_fmap. split.
    + intros [->|(q' & -> & Hq')]; [apply prefix_nil|].
      apply prefix_cons, IH, Hq'.
    + intros Hq. destruct q as [|segment' q]; [left; reflexivity|right].
      pose proof (prefix_cons_inv_1 _ _ _ _ Hq) as ->.
      apply prefix_cons_inv_2 in Hq. exists q. split; [reflexivity|apply IH, Hq].
Qed.

Lemma elem_of_mkdirSync (p q : JsPath.Path) w :
  q ∈ dirs (mkdirSync p w) <-> q ∈ dirs w \/ q `prefix_of` p.
Proof.
  unfold mkdirSync. cbn. rewrite elem_of_union, elem_of_list_to_set, elem_of_upto.
  reflexivity.
Qed.

Lemma split_slash_no_slash (s : string) :
  forallb (fun c => negb (Ascii.eqb c "/"%char)) (list_ascii_of_string s) = true ->
  JsPath.split_slash s = [s].
Proof.
  induction s as [|c s IH]; cbn; [reflexivity|].
  intros H. apply andb_true_iff in H as [Hc Hs].
  apply negb_true_iff in Hc. rewrite Hc, (IH Hs). reflexivity.
Qed.

(** The directory of a plain id lies directly below [authDir]. *)
Lemma sessionPath_plain sessionId :
  plain_id sessionId = true ->
  sessionPath env sessionId = (authDir env ++ [sessionId])%list.
Proof.
  unfold plain_id. intros H.
  apply andb_true_iff in H as [H Hdd]. apply andb_true_iff in H as [H Hd].
  apply andb_true_iff in H as [Hslash He].
  unfold sessionPath, JsPath.join. rewrite (split_slash_no_slash _ Hslash). cbn.
  unfold JsPath.enter.
  apply negb_true_iff in He, Hd, Hdd. rewrite He, Hd, Hdd. reflexivity.
Qed.

(** The directories of two different plain ids do not contain each other. *)
Lemma plain_ids_apart sessionId other :
  plain_id sessionId = true -> plain_id other = true -> other <> sessionId ->
  ¬ sessionPath env sessionId `prefix_of` sessionPath env other.
Proof.
  intros H1 H2 Hne. rewrite !sessionPath_plain by assumption.
  intros Hp. apply prefix_app_inv in Hp.
  pose proof (prefix_cons_inv_1 _ _ _ _ Hp). congruence.
Qed.

(** The parts of other sessions under [removeSession], and the
    directories it deletes. *)
Lemma removeSession_frame sessionId other w :
  other <> sessionId ->
  let w' := (removeSession env sessionId w).2 in
  sessions w' !! other = sessions w !! other
  /\ qrCodes w' !! other = qrCodes w !! other
  /\ health w' !! other = health w !! other
  /\ (forall sock, sessions w !! sessionId <> Some sock ->
        sockets w' !! sock = sockets w !! sock).
Proof.
  intros Hne. cbn zeta.
  destruct (closes env sessionId w) eqn:Hc.
  - destruct (removeSession_closes env sessionId w Hc) as (Hs & Hq & Hh & Hk & Hd).
    rewrite Hs, Hq, Hh, Hk, !lookup_delete_ne by congruence.
    repeat split; try reflexivity.
    intros sock Hsock. destruct (sessions w !! sessionId) as [reg|]; [|reflexivity].
    apply lookup_alter_ne. congruence.
  - unfold closes in Hc.
    destruct (sessions w !! sessionId) as [sock|] eqn:Hs; [|discriminate].
    apply negb_false_iff in Hc.
    rewrite (removeSession_end_throws env sessionId w sock Hs Hc).
    repeat split; auto.
Qed.

(** [removeSession] creates no directory and deletes none that is not at
    or below the directory of the session. *)
Lemma removeSession_dirs sessionId w (p : JsPath.Path) :
  let w' := (removeSession env sessionId w).2 in
  (p ∈ dirs w' -> p ∈ dirs w)
  /\ (¬ sessionPath env sessionId `prefix_of` p -> p ∈ dirs w -> p ∈ dirs w').
Proof.
  cbn zeta.
  destruct (closes env sessionId w) eqn:Hc.
  - destruct (removeSession_closes env sessionId w Hc) as (_ & _ & _ & _ & Hd).
    rewrite Hd. destruct (_ || _); [tauto|].
    rewrite elem_of_filter. tauto.
  - unfold closes in Hc.
    destruct (sessions w !! sessionId) as [sock|] eqn:Hs; [|discriminate].
    apply negb_false_iff in Hc.
    rewrite (removeSession_end_throws env sessionId w sock Hs Hc). cbn. tauto.
Qed.

(** After a removal without failure the directory of the session is gone. *)
Lemma removeSession_directory_gone sessionId w :
  closes env sessionId w = true ->
  rmSync_throws env sessionId = false ->
  sessionPath env sessionId ∉ dirs (removeSession env sessionId w).2.
Proof.
  intros Hc Hrm.
  destruct (removeSession_closes env sessionId w Hc) as (_ & _ & _ & _ & Hd).
  rewrite Hd, Hrm. cbn [orb]. unfold existsSync.
  destruct (bool_decide_reflect (sessionPath env sessionId ∈ dirs w)) as [Hin|Hout];
    cbn [negb]; [|exact Hout].
  intros Hf. apply elem_of_filter in Hf as [Hf _]. apply Hf. reflexivity.
Qed.

End Removal.

(** X13.  When ending the socket and deleting the directory do not raise,
    [removeSession] leaves nothing of the session: [getSession] and
    [getQRCode] return nothing and the credential directory is gone; and
    removing it once more does nothing at all: it returns normally with
    the state and the trace unchanged. *)
Theorem removeSession_idempotent (env : Env) (sessionId : string) (w : World) :
  closes env sessionId w = true ->
  rmSync_throws env sessionId = false ->
  let w' := (removeSession env sessionId w).2 in
  getSession sessionId w' = None
  /\ getQRCode sessionId w' = None
  /\ (sessionPath env sessionId ∉ dirs w')
  /\ removeSession env sessionId w' = (Ok tt, w').
Proof.
  intros Hc Hrm. cbn zeta.
  destruct (removeSession_closes env sessionId w Hc) as (Hs & Hq & Hh & _ & _).
  assert (H1 : sessions (removeSession env sessionId w).2 !! sessionId = None)
    by (rewrite Hs; apply lookup_delete_eq).
  assert (H2 : qrCodes (removeSession env sessionId w).2 !! sessionId = None)
    by (rewrite Hq; apply lookup_delete_eq).
  assert (H3 : health (removeSession env sessionId w).2 !! sessionId = None)
    by (rewrite Hh; apply lookup_delete_eq).
  assert (H4 : sessionPath env sessionId ∉ dirs (removeSession env sessionId w).2)
    by (apply removeSession_directory_gone; assumption).
  repeat split; auto using removeSession_nothing_left.
Qed.

Lemma removeSession_idempotent_witness :
  let w' := (removeSession Examples.calm "s1" Examples.qr_pending).2 in
  getSession "s1" w' = None
  /\ getQRCode "s1" w' = None
  /\ (sessionPath Examples.calm "s1" ∉ dirs w')
  /\ removeSession Examples.calm "s1" w' = (Ok tt, w').
Proof.
  exact (removeSession_idempotent Examples.calm "s1" Examples.qr_pending eq_refl eq_refl).
Defined.



(** With the empty string for an id, the directory to delete is [authDir]
    itself: the credential directory of every session goes with it. *)
Example removeSession_of_empty_id :
  let w' := (removeSession Examples.calm "" Examples.connected).2 in
  sessionPath Examples.calm "" = authDir Examples.calm
  /\ sessionPath Examples.calm "s1" ∈ dirs Examples.connected
  /\ getSession "s1" w' = Some 0%nat
  /\ sessionPath Examples.calm "s1" ∉ dirs w'.
Proof.
  cbn zeta. split; [reflexivity|].
  split; [apply (bool_decide_unpack _); vm_compute; exact I|].
  split; [reflexivity|]. apply (bool_decide_unpack _). vm_compute. exact I.
Qed.

(** What [disconnectSession] does, case by case. *)
Lemma disconnectSession_effects
    (env : Env) (sessionId : string) (w : World) :
  let r := disconnectSession env sessionId w in
  dirs r.2 = dirs w
  /\ qrCodes r.2 = qrCodes w
  /\ health r.2 = health w
  /\ match sessions w !! sessionId with
     | None => r = (Ok tt, w)
     | Some sock =>
         if end_throws env sock
         then (exists e, r.1 = Throw e)
              /\ sessions r.2 = sessions w /\ sockets r.2 = sockets w
         else r.1 = Ok tt
              /\ sessions r.2 = delete sessionId (sessions w)
              /\ sockets r.2 = alter ended sock (sockets w)
     end.
Proof.
  unfold disconnectSession, sock_end. unfold_M. cbn.
  destruct (sessions w !! sessionId) as [sock|]; [|repeat split].
  destruct (end_throws env sock); cbn; repeat split; eauto.
Qed.

(** X15.  [disconnectSession] keeps the credential directory, the QR
    cache and the health records.  For an unknown session it does
    nothing.  Otherwise it ends the socket and drops the registry entry;
    when ending the socket raises, the exception reaches the caller and
    the registry entry stays. *)
Theorem disconnectSession_keeps_credentials
    (env : Env) (sessionId : string) (w : World) :
  let r := disconnectSession env sessionId w in
  dirs r.2 = dirs w
  /\ qrCodes r.2 = qrCodes w
  /\ health r.2 = health w
  /\ match sessions w !! sessionId with
     | None => r = (Ok tt, w)
     | Some sock =>
         if end_throws env sock
         then (exists e, r.1 = Throw e)
              /\ sessions r.2 = sessions w /\ sockets r.2 = sockets w
         else r.1 = Ok tt
              /\ sessions r.2 = delete sessionId (sessions w)
              /\ sockets r.2 = alter ended sock (sockets w)
     end.
Proof. apply disconnectSession_effects. Qed.

(** ** createSession: outcome and footprint *)

Section CreateSessionEffects.

Context (env : Env).

(** Past the fast path: the QR cache, the directories and the health
    records after [createSession], and when it raises. *)
Lemma createSession_slow_effects sessionId callbacks w :
  isConnected sessionId w = false ->
  let w1 := after_cleanup env sessionId callbacks w in
  let r := createSession env sessionId callbacks w in
  qrCodes r.2 = qrCodes w1
  /\ sessionPath env sessionId ∈ dirs r.2
  /\ (forall p, p ∈ dirs r.2 ->
        p ∈ dirs w1 \/ p `prefix_of` sessionPath env sessionId)
  /\ (forall p, ¬ sessionPath env sessionId `prefix_of` p ->
        p ∈ dirs w1 -> p ∈ dirs r.2)
  /\ (forall other, other <> sessionId -> health r.2 !! other = health w1 !! other)
  /\ if creation_fails env sessionId
     then (exists e, r.1 = Throw e)
          /\ (exists t, trace r.2
                        = (t ++ [EvConsoleError ("Error creating session " ++ sessionId)])%list)
     else (exists sock, r.1 = Ok sock) /\ is_Some (health r.2 !! sessionId).
Proof.
  intros Hc. unfold after_cleanup, creation_fails.
  unfold createSession, load_auth_state, makeWASocket, rmSync, existsSync, mkdirSync.
  unfold_M. cbn.
  rewrite Hc. cbn.
  assert (Hnone : match sessions w !! sessionId with
                  | Some _ => None | None => None end = @None handle)
    by (destruct (sessions w !! sessionId); reflexivity).
  rewrite Hnone. clear Hnone. rewrite andb_true_r.
  pose proof (removeSession_never_throws env sessionId w) as Hok.
  destruct (isNew callbacks); cbn;
    repeat (case_match; simplify_eq/=);
    repeat match goal with
           | H : removeSession _ _ _ = _ |- _ => rewrite H in *; clear H
           end;
    cbn in *; try discriminate.
  all: try match goal with
      | H : negb (isConnected _ _) = false |- _ => rewrite Hc in H; discriminate
      end.
  all: repeat match goal with
      | H : negb _ = true |- _ => apply negb_true_iff in H
      | H : negb _ = false |- _ => apply negb_false_iff in H
      | H : bool_decide _ = true |- _ => apply bool_decide_eq_true in H
      | H : bool_decide _ = false |- _ => apply bool_decide_eq_false in H
      end.
  all: try match goal with
      | H : ¬ _ ∈ _ |- _ =>
          solve [exfalso; apply H;
                 rewrite ?elem_of_union, ?elem_of_list_to_set, ?elem_of_upto; auto]
      end.
  all: repeat split; eauto.
  all: try (intros other Hother; rewrite lookup_insert_ne by congruence; reflexivity).
  all: try (rewrite lookup_insert_eq; eauto).
  all: try (intros p;
            rewrite ?elem_of_union, ?elem_of_filter, ?elem_of_union,
              ?elem_of_list_to_set, ?elem_of_upto; tauto).
  all: rewrite ?elem_of_union, ?elem_of_filter, ?elem_of_union,
         ?elem_of_list_to_set, ?elem_of_upto; auto.
Qed.

(** The optional clean-up before the creation: other sessions and other
    sockets. *)
Lemma after_cleanup_frame sessionId other callbacks w :
  other <> sessionId ->
  let w1 := after_cleanup env sessionId callbacks w in
  sessions w1 !! other = sessions w !! other
  /\ qrCodes w1 !! other = qrCodes w !! other
  /\ health w1 !! other = health w !! other
  /\ (forall sock, sessions w !! sessionId <> Some sock ->
        sockets w1 !! sock = sockets w !! sock).
Proof.
  intros Hne. unfold after_cleanup.
  destruct (isNew callbacks && negb (isConnected sessionId w)).
  - apply removeSession_frame. exact Hne.
  - repeat split; auto.
Qed.

(** The optional clean-up creates no directory and deletes none that is
    not at or below the directory of the session. *)
Lemma after_cleanup_dirs sessionId callbacks w (p : JsPath.Path) :
  let w1 := after_cleanup env sessionId callbacks w in
  (p ∈ dirs w1 -> p ∈ dirs w)
  /\ (¬ sessionPath env sessionId `prefix_of` p -> p ∈ dirs w -> p ∈ dirs w1).
Proof.
  unfold after_cleanup.
  destruct (isNew callbacks && negb (isConnected sessionId w)).
  - apply removeSession_dirs.
  - cbn. tauto.
Qed.

(** The clean-up ends a socket at most: no socket object comes or goes. *)
Lemma after_cleanup_sockets sessionId callbacks w sock :
  sockets (after_cleanup env sessionId callbacks w) !! sock = None <->
  sockets w !! sock = None.
Proof.
  unfold after_cleanup.
  destruct (isNew callbacks && negb (isConnected sessionId w)); [|reflexivity].
  destruct (closes env sessionId w) eqn:Hc.
  - destruct (removeSession_closes env sessionId w Hc) as (_ & _ & _ & Hk & _).
    rewrite Hk. destruct (sessions w !! sessionId) as [reg|]; [|reflexivity].
    destruct (decide (sock = reg)) as [->|Hne].
    + rewrite lookup_alter_eq. destruct (sockets w !! reg); cbn; split; congruence.
    + rewrite lookup_alter_ne by congruence. reflexivity.
  - unfold closes in Hc.
    destruct (sessions w !! sessionId) as [reg|] eqn:Hs; [|discriminate].
    apply negb_false_iff in Hc.
    rewrite (removeSession_end_throws env sessionId w reg Hs Hc). reflexivity.
Qed.

End CreateSessionEffects.



(** X17.  [createSession], whatever its outcome, leaves every other
    session alone in the registry, the QR cache and the health records,
    and every socket object that existed but the one registered for the
    session itself.  The only directories it creates are
    [path.join(authDir, sessionId)] and those above it, and it deletes
    none but those at or below that path: the directory of another
    session is as before whenever both ids are plain directory names. *)
Theorem createSession_other_sessions
    (env : Env) (sessionId other : string) (callbacks : Callbacks) (w : World) :
  other <> sessionId ->
  let r := createSession env sessionId callbacks w in
  getSession other r.2 = getSession other w
  /\ getQRCode other r.2 = getQRCode other w
  /\ health r.2 !! other = health w !! other
  /\ (forall sock s,
        sockets w !! sock = Some s ->
        getSession sessionId w <> Some sock ->
        sockets r.2 !! sock = Some s)
  /\ (forall p, p ∈ dirs r.2 ->
        p ∈ dirs w \/ p `prefix_of` sessionPath env sessionId)
  /\ (forall p, ¬ sessionPath env sessionId `prefix_of` p ->
        p ∈ dirs w -> p ∈ dirs r.2)
  /\ (plain_id sessionId = true -> plain_id other = true ->
      (sessionPath env other ∈ dirs r.2 <-> sessionPath env other ∈ dirs w)).
Proof.
  intros Hne. cbn zeta.
  assert (Hdirs :
    (forall p, p ∈ dirs (createSession env sessionId callbacks w).2 ->
       p ∈ dirs w \/ p `prefix_of` sessionPath env sessionId)
    /\ (forall p, ¬ sessionPath env sessionId `prefix_of` p ->
          p ∈ dirs w -> p ∈ dirs (createSession env sessionId callbacks w).2)).
  { destruct (isConnected sessionId w) eqn:Hc.
    - pose proof Hc as Hc'. unfold isConnected in Hc'.
      destruct (sessions w !! sessionId) as [session|] eqn:Hs; [|discriminate].
      rewrite (createSession_fast_path env sessionId callbacks w session Hs Hc).
      cbn. auto.
    - destruct (createSession_slow_effects env sessionId callbacks w Hc)
        as (_ & _ & Hin & Hout & _).
      split.
      + intros p Hp. destruct (Hin p Hp) as [H1|H1]; [left|right; exact H1].
        apply (after_cleanup_dirs env sessionId callbacks w p). exact H1.
      + intros p Hnp Hp. apply Hout; [exact Hnp|].
        apply (after_cleanup_dirs env sessionId callbacks w p); assumption. }
  destruct Hdirs as [Hin Hout].
  assert (Hplain : plain_id sessionId = true -> plain_id other = true ->
            (sessionPath env other ∈ dirs (createSession env sessionId callbacks w).2
             <-> sessionPath env other ∈ dirs w)).
  { intros P1 P2. split.
    - intros Hp. destruct (Hin _ Hp) as [H1|H1]; [exact H1|].
      exfalso. apply (plain_ids_apart env other sessionId P2 P1); [congruence|exact H1].
    - apply Hout. apply plain_ids_apart; assumption. }
  destruct (isConnected sessionId w) eqn:Hc.
  - pose proof Hc as Hc'. unfold isConnected in Hc'.
    destruct (sessions w !! sessionId) as [session|] eqn:Hs; [|discriminate].
    rewrite (createSession_fast_path env sessionId callbacks w session Hs Hc) in *.
    repeat split; auto.
  - destruct (createSession_slow_effects env sessionId callbacks w Hc)
      as (Hq & _ & _ & _ & Hothers & _).
    pose proof (Hothers other Hne) as Hh.
    pose proof (createSession_slow_path env sessionId callbacks w Hc) as Hslow.
    cbn zeta in Hslow.
    destruct (after_cleanup_frame env sessionId other callbacks w Hne)
      as (Fs & Fq & Fh & Fk).
    unfold getSession, getQRCode. rewrite Hq, Hh, Fq, Fh.
    destruct (createSession env sessionId callbacks w) as [[sock|e] w'];
      cbn [fst snd] in *.
    + destruct Hslow as (Hfresh & Hk & Hs).
      rewrite Hs, lookup_insert_ne by congruence. rewrite Fs.
      repeat split; auto; try apply Hplain; auto.
      intros h s Hh' Hreg. rewrite Hk.
      assert (h <> sock) as Hneq.
      { intros ->. assert (sockets w !! sock = None) as Hnone.
        { apply (after_cleanup_sockets env sessionId callbacks w sock).
          apply not_elem_of_dom. rewrite Hfresh. apply is_fresh. }
        congruence. }
      rewrite lookup_insert_ne by congruence. rewrite Fk by exact Hreg. exact Hh'.
    + destruct Hslow as (Hk & Hs). rewrite Hs, Fs.
      repeat split; auto; try apply Hplain; auto.
      intros h s Hh' Hreg. rewrite Hk, Fk by exact Hreg. exact Hh'.
Qed.

Lemma createSession_other_sessions_witness :
  let r := createSession Examples.calm "s2" no_callbacks Examples.connected in
  getSession "s1" r.2 = getSession "s1" Examples.connected
  /\ getQRCode "s1" r.2 = getQRCode "s1" Examples.connected
  /\ health r.2 !! "s1" = health Examples.connected !! "s1"
  /\ (sessionPath Examples.calm "s1" ∈ dirs r.2
      <-> sessionPath Examples.calm "s1" ∈ dirs Examples.connected).
Proof.
  destruct (createSession_other_sessions Examples.calm "s2" "s1" no_callbacks
              Examples.connected) as (H1 & H2 & H3 & _ & _ & _ & H7); [discriminate|].
  repeat split; auto; apply H7; reflexivity.
Defined.

(** ** Connection events *)

Section ConnectionEvents.

Context (env : Env).

(** What [removeSession] adds to the trace: no timer and no callback. *)
Lemma removeSession_trace sessionId w :
  exists t, trace (removeSession env sessionId w).2 = (trace w ++ t)%list
            /\ List.filter is_timer t = []
            /\ List.filter is_disconnect_callback t = [].
Proof.
  unfold removeSession, sock_end, rmSync. unfold_M. cbn.
  repeat (case_match; simplify_eq/=);
    (eexists; split; [rewrite <- ?app_assoc; try reflexivity;
                      symmetry; apply app_nil_r
                     |split; reflexivity]).
Qed.

(** The corruption recovery, in terms of the removal it runs. *)
Lemma handleSessionCorruption_effects sessionId onDisconnected w :
  let r := handleSessionCorruption env sessionId onDisconnected w in
  r.1 = Ok tt
  /\ (exists t, trace r.2 = (trace w ++ t)%list
        /\ List.filter is_timer t = []
        /\ List.filter is_disconnect_callback t
           = if onDisconnected
             then [EvOnDisconnected sessionId
                     (ReasonError (new_Error "Session corrupted (Bad MAC). Please scan QR again."))]
             else [])
  /\ (if closes env sessionId w
      then sessions r.2 = delete sessionId (sessions w)
           /\ qrCodes r.2 = delete sessionId (qrCodes w)
           /\ sockets r.2 = match sessions w !! sessionId with
                            | Some sock => alter ended sock (sockets w)
                            | None => sockets w
                            end
           /\ dirs r.2 = (if rmSync_throws env sessionId
                             || negb (existsSync (sessionPath env sessionId) w)
                          then dirs w
                          else filter (fun q => ¬ sessionPath env sessionId `prefix_of` q)
                                 (dirs w))
      else sessions r.2 = sessions w /\ qrCodes r.2 = qrCodes w
           /\ sockets r.2 = sockets w /\ dirs r.2 = dirs w).
Proof.
  unfold handleSessionCorruption. unfold_M.
  set (w0 := HealthMonitor.recordEvent sessionId fatal_error
               (console_error ("Fatal cryptographic error (Bad MAC) for session "
                               ++ sessionId) w)).
  assert (Hcl : closes env sessionId w0 = closes env sessionId w) by reflexivity.
  pose proof (removeSession_never_throws env sessionId w0) as Hok.
  destruct (removeSession_trace sessionId w0) as (t & Ht & Htimer & Hcb).
  assert (Hfields :
    if closes env sessionId w
    then sessions (removeSession env sessionId w0).2 = delete sessionId (sessions w)
         /\ qrCodes (removeSession env sessionId w0).2 = delete sessionId (qrCodes w)
         /\ sockets (removeSession env sessionId w0).2
            = match sessions w !! sessionId with
              | Some sock => alter ended sock (sockets w)
              | None => sockets w
              end
         /\ dirs (removeSession env sessionId w0).2
            = (if rmSync_throws env sessionId
                  || negb (existsSync (sessionPath env sessionId) w)
               then dirs w
               else filter (fun q => ¬ sessionPath env sessionId `prefix_of` q) (dirs w))
    else sessions (removeSession env sessionId w0).2 = sessions w
         /\ qrCodes (removeSession env sessionId w0).2 = qrCodes w
         /\ sockets (removeSession env sessionId w0).2 = sockets w
         /\ dirs (removeSession env sessionId w0).2 = dirs w).
  { destruct (closes env sessionId w) eqn:Hc.
    - destruct (removeSession_closes env sessionId w0 Hcl) as (Hs & Hq & _ & Hk & Hd).
      repeat split; assumption.
    - unfold closes in Hcl.
      destruct (sessions w0 !! sessionId) as [sock|] eqn:Hs; [|discriminate].
      apply negb_false_iff in Hcl.
      rewrite (removeSession_end_throws env sessionId w0 sock Hs Hcl).
      repeat split. }
  destruct (removeSession env sessionId w0) as [r1 w1]. cbn [fst snd] in *. subst r1.
  split; [destruct onDisconnected; reflexivity|]. split.
  - destruct onDisconnected; cbn [when fst snd emit trace].
    + eexists. split; [rewrite Ht; subst w0; cbn [HealthMonitor.recordEvent set_health
        console_error emit trace]; rewrite <- !app_assoc; reflexivity|].
      rewrite !List.filter_app, Htimer, Hcb. split; reflexivity.
    + eexists. split; [rewrite Ht; subst w0; cbn [HealthMonitor.recordEvent set_health
        console_error emit trace]; rewrite <- !app_assoc; reflexivity|].
      rewrite !List.filter_app, Htimer, Hcb. split; reflexivity.
  - destruct onDisconnected; exact Hfields.
Qed.

Lemma no_timer_ok sessionId (t : list Event) :
  List.filter is_timer t = [] -> forallb (timer_ok sessionId) t = true.
Proof.
  induction t as [|e t IH]; [reflexivity|].
  cbn [List.filter forallb]. destruct e; cbn; try exact IH. discriminate.
Qed.

(** What the close handler leaves behind, whatever the event carries. *)
Lemma on_close_effects sessionId callbacks ld w :
  let r := on_close env sessionId callbacks (Some ld) w in
  r.1 = Ok tt
  /\ exists t,
       trace r.2 = (trace w ++ t)%list
       /\ forallb (timer_ok sessionId) t = true
       /\ (length (List.filter is_timer t) <= 1)%nat
       /\ length (List.filter is_disconnect_callback t)
          = (if onDisconnected callbacks then 1 else 0)%nat.
Proof.
  unfold on_close. unfold_M.
  set (w0 := HealthMonitor.recordEvent sessionId failure w).
  assert (Ht0 : trace w0 = trace w) by reflexivity.
  destruct (isBadMac ld).
  - destruct (handleSessionCorruption_effects sessionId (onDisconnected callbacks) w0)
      as (Hok & (t & Ht & Htimer & Hcb) & _).
    destruct (handleSessionCorruption env sessionId (onDisconnected callbacks) w0)
      as [r1 w1]. cbn [fst snd] in *.
    split; [exact Hok|]. exists t. rewrite Ht, Ht0, Htimer, Hcb.
    split; [reflexivity|]. split; [apply no_timer_ok, Htimer|].
    split; [cbn; lia|]. destruct (onDisconnected callbacks); reflexivity.
  - destruct (shouldReconnect (Some ld) && HealthMonitor.shouldAttemptConnection env sessionId w0).
    + destruct (Nat.leb_spec (default 0 (retryCount callbacks) + 1) 2) as [Hn|Hn].
      * split; [destruct (onDisconnected callbacks); reflexivity|].
        destruct (onDisconnected callbacks);
          cbn [when fst snd emit trace HealthMonitor.recordEvent set_health];
          (eexists; split; [rewrite <- ?app_assoc; reflexivity|]);
          cbn [app forallb timer_ok with_retryCount retryCount List.filter is_timer
                 is_disconnect_callback length andb];
          rewrite String.eqb_refl, Z.eqb_refl;
          (destruct (Nat.leb_spec 1 (default 0 (retryCount callbacks) + 1)); [|lia]);
          (destruct (Nat.leb_spec (default 0 (retryCount callbacks) + 1) 2); [|lia]);
          repeat split; lia.
      * split; [destruct (onDisconnected callbacks); reflexivity|].
        destruct (onDisconnected callbacks);
          cbn [when fst snd emit trace];
          (eexists; split; [rewrite <- ?app_assoc; try reflexivity;
                            symmetry; apply app_nil_r|]);
          cbn; repeat split; lia.
    + split; [destruct (onDisconnected callbacks); reflexivity|].
      destruct (onDisconnected callbacks);
        cbn [when fst snd emit trace];
        (eexists; split; [rewrite <- ?app_assoc; reflexivity|]);
        cbn [app forallb timer_ok List.filter is_timer is_disconnect_callback length andb];
        rewrite String.eqb_refl; cbn; repeat split; lia.
Qed.
End ConnectionEvents.

(** X18.  A QR event with a non-empty code, on an update that neither
    opens nor closes the connection: when the code can be rendered, the
    handler caches the rendered image for the session, replacing whatever
    image was cached, and calls [onQR] when it was supplied; the images of
    other sessions, the registry and the rest of the state are untouched.
    When rendering the code fails, the handler raises that error and
    nothing is cached, called or changed. *)
Theorem qr_event_caches_image
    (env : Env) (sessionId : string) (callbacks : Callbacks) (sock : handle)
    (update : ConnectionUpdate) (code : string) (w : World) :
  qr update = Some code ->
  code <> "" ->
  connection update <> Some ConnClose ->
  connection update <> Some ConnOpen ->
  let r := onConnectionUpdate env sessionId callbacks sock update w in
  match qr_toDataURL env code with
  | Ok image =>
      r.1 = Ok tt
      /\ getQRCode sessionId r.2 = Some image
      /\ (forall other, other <> sessionId -> getQRCode other r.2 = getQRCode other w)
      /\ trace r.2 = (trace w ++ if onQR callbacks
                                  then [EvOnQR sessionId image code]
                                  else [])%list
      /\ sessions r.2 = sessions w /\ sockets r.2 = sockets w
      /\ dirs r.2 = dirs w /\ health r.2 = health w
  | Throw e => r = (Throw e, w)
  end.
Proof.
  intros Hqr Hcode Hclose Hopen. cbn zeta.
  unfold onConnectionUpdate. unfold_M. rewrite Hqr.
  apply String.eqb_neq in Hcode. rewrite Hcode. cbn [negb].
  destruct (qr_toDataURL env code) as [image|e]; [|reflexivity].
  assert (Hlookup : forall q : gmap string string,
            (forall other, other <> sessionId ->
               <[sessionId := image]> q !! other = q !! other)).
  { intros q other Hne. apply lookup_insert_ne. congruence. }
  destruct (connection update) as [[| |]|]; try congruence;
    destruct (onQR callbacks); cbn; unfold getQRCode; cbn;
    rewrite lookup_insert_eq, ?app_nil_r; repeat split; auto.
Qed.

Lemma qr_event_caches_image_witness :
  let update := {| connection := Some ConnConnecting; lastDisconnect := None;
                   qr := Some "2@xyz" |} in
  let r := onConnectionUpdate Examples.calm "s1" no_callbacks 0 update
             Examples.qr_pending in
  getQRCode "s1" Examples.qr_pending = Some "data:image/png;base64,2@abc"
  /\ getQRCode "s1" r.2 = Some "data:image/png;base64,2@xyz".
Proof.
  split; [reflexivity|].
  pose proof (qr_event_caches_image Examples.calm "s1" no_callbacks 0
                {| connection := Some ConnConnecting; lastDisconnect := None;
                   qr := Some "2@xyz" |} "2@xyz" Examples.qr_pending
                eq_refl ltac:(discriminate) ltac:(discriminate) ltac:(discriminate))
    as H.
  cbn zeta in H. change (qr_toDataURL Examples.calm "2@xyz")
    with (@Ok string "data:image/png;base64,2@xyz") in H.
  cbv iota in H. destruct H as (_ & H & _). exact H.
Defined.

(** X19.  After an open event no QR image is cached for the session, also
    when the same event carried a QR code that was rendered; the handler
    then does not raise and leaves the registry, the socket objects, the
    directories and the health records as they are.  Only when the event
    carries a code whose rendering fails does the handler raise, before it
    reaches the open branch: the cache then stays as it was. *)
Theorem open_event_clears_qr
    (env : Env) (sessionId : string) (callbacks : Callbacks) (sock : handle)
    (update : ConnectionUpdate) (w : World) :
  connection update = Some ConnOpen ->
  let r := onConnectionUpdate env sessionId callbacks sock update w in
  match rendering_failure env update with
  | Some e => r = (Throw e, w)
  | None =>
      r.1 = Ok tt
      /\ getQRCode sessionId r.2 = None
      /\ sessions r.2 = sessions w /\ sockets r.2 = sockets w
      /\ dirs r.2 = dirs w /\ health r.2 = health w
  end.
Proof.
  intros Hopen. cbn zeta. unfold onConnectionUpdate, rendering_failure.
  unfold_M. rewrite Hopen.
  destruct (qr update) as [code|]; [destruct (String.eqb code "")|];
    cbn [negb when]; unfold_M;
    try destruct (qr_toDataURL env code) as [image|e]; try reflexivity;
    try destruct (onQR callbacks); destruct (onConnected callbacks);
    cbn; unfold getQRCode; cbn; rewrite lookup_delete_eq; repeat split.
Qed.

Lemma open_event_clears_qr_witness :
  let update := {| connection := Some ConnOpen; lastDisconnect := None;
                   qr := Some "2@late" |} in
  getQRCode "s1" Examples.qr_pending = Some "data:image/png;base64,2@abc"
  /\ getQRCode "s1"
       (onConnectionUpdate Examples.calm "s1" no_callbacks 0 update
          Examples.qr_pending).2 = None.
Proof.
  split; [reflexivity|].
  pose proof (open_event_clears_qr Examples.calm "s1" no_callbacks 0
                {| connection := Some ConnOpen; lastDisconnect := None;
                   qr := Some "2@late" |} Examples.qr_pending eq_refl) as H.
  cbn zeta in H.
  change (rendering_failure Examples.calm
            {| connection := Some ConnOpen; lastDisconnect := None;
               qr := Some "2@late" |}) with (@None JsError) in H.
  cbv iota in H. destruct H as (_ & H & _). exact H.
Defined.

(** X20.  Whatever a close event carries, the close handler leaves at
    most one timer behind, and only of these kinds: the removal of the
    session after 3000 ms, or a [createSession] for the session that
    carries a [retryCount] of 1 or 2 after the backoff delay of that
    attempt; and it calls [onDisconnected], when supplied, exactly once.
    Only when the event has no [lastDisconnect] does the handler raise
    instead, with nothing scheduled and no callback made. *)
Theorem close_handler_timers
    (env : Env) (sessionId : string) (callbacks : Callbacks)
    (lastDisconnect : option LastDisconnect) (w : World) :
  let r := on_close env sessionId callbacks lastDisconnect w in
  match lastDisconnect with
  | None => (exists e, r.1 = Throw e) /\ trace r.2 = trace w
  | Some ld =>
      r.1 = Ok tt
      /\ exists t,
           trace r.2 = (trace w ++ t)%list
           /\ forallb (timer_ok sessionId) t = true
           /\ (length (List.filter is_timer t) <= 1)%nat
           /\ length (List.filter is_disconnect_callback t)
              = (if onDisconnected callbacks then 1 else 0)%nat
  end.
Proof.
  destruct lastDisconnect as [ld|]; [apply on_close_effects|].
  cbn. split; [eauto|reflexivity].
Qed.



(** X22.  On a close event that is not a corruption, when the session was
    logged out or the health monitor denies another attempt, the handler
    schedules the removal of the session after 3000 ms and nothing else,
    whatever [retryCount] is; and when that removal runs without failure,
    the session is gone from the registry and its directory is deleted. *)
Theorem closed_for_good_is_removed
    (env : Env) (sessionId : string) (callbacks : Callbacks)
    (ld : LastDisconnect) (w : World) :
  isBadMac ld = false ->
  shouldReconnect (Some ld)
  && HealthMonitor.shouldAttemptConnection env sessionId
       (HealthMonitor.recordEvent sessionId failure w) = false ->
  closes env sessionId w = true ->
  rmSync_throws env sessionId = false ->
  let r := on_close env sessionId callbacks (Some ld) w in
  r.1 = Ok tt
  /\ trace r.2 = (trace w ++ [EvTimer 3000 (TimerRemoveSession sessionId)]
                  ++ if onDisconnected callbacks
                     then [EvOnDisconnected sessionId (ReasonLastDisconnect ld)]
                     else [])%list
  /\ getSession sessionId (removeSession env sessionId r.2).2 = None
  /\ sessionPath env sessionId ∉ dirs (removeSession env sessionId r.2).2.
Proof.
  intros Hmac Hdeny Hcl Hrm. cbn zeta.
  assert (Hr : on_close env sessionId callbacks (Some ld) w
               = (Ok tt,
                  (if onDisconnected callbacks
                   then emit (EvOnDisconnected sessionId (ReasonLastDisconnect ld))
                   else fun w => w)
                    (emit (EvTimer 3000 (TimerRemoveSession sessionId))
                       (HealthMonitor.recordEvent sessionId failure w)))).
  { unfold on_close. unfold_M. rewrite Hmac, Hdeny.
    destruct (onDisconnected callbacks); reflexivity. }
  rewrite Hr. cbn [fst snd].
  set (w1 := (if onDisconnected callbacks
              then emit (EvOnDisconnected sessionId (ReasonLastDisconnect ld))
              else fun w => w)
               (emit (EvTimer 3000 (TimerRemoveSession sessionId))
                  (HealthMonitor.recordEvent sessionId failure w))).
  assert (Hcl1 : closes env sessionId w1 = true)
    by (subst w1; destruct (onDisconnected callbacks); exact Hcl).
  destruct (removeSession_closes env sessionId w1 Hcl1) as (Hs & _ & _ & _ & _).
  split; [reflexivity|]. split.
  { subst w1. destruct (onDisconnected callbacks); cbn; rewrite <- ?app_assoc; reflexivity. }
  split.
  - unfold getSession. rewrite Hs. apply lookup_delete_eq.
  - apply removeSession_directory_gone; assumption.
Qed.

Lemma closed_for_good_is_removed_witness :
  let ld := {| ld_error := Some {| de_error := new_Error "Logged Out";
                                   de_boom_status := Some 401%Z |} |} in
  let r := on_close Examples.calm "s1" no_callbacks (Some ld) Examples.connected in
  trace r.2 = [EvTimer 3000 (TimerRemoveSession "s1")]
  /\ getSession "s1" (removeSession Examples.calm "s1" r.2).2 = None.
Proof.
  destruct (closed_for_good_is_removed Examples.calm "s1" no_callbacks
              {| ld_error := Some {| de_error := new_Error "Logged Out";
                                     de_boom_status := Some 401%Z |} |}
              Examples.connected eq_refl eq_refl eq_refl eq_refl)
    as (_ & H2 & H3 & _).
  split; [exact H2|exact H3].
Defined.

(** X23.  A close event whose error text contains 'Bad MAC' runs the
    corruption recovery and stops: no timer is scheduled, [onDisconnected]
    is called exactly once, with the corrupted-session error and not with
    the event; and when ending the socket does not raise, the session is
    gone from the registry and from the QR cache. *)
Theorem corruption_on_close_removes_session
    (env : Env) (sessionId : string) (callbacks : Callbacks)
    (ld : LastDisconnect) (w : World) :
  isBadMac ld = true ->
  closes env sessionId w = true ->
  let r := on_close env sessionId callbacks (Some ld) w in
  r.1 = Ok tt
  /\ getSession sessionId r.2 = None
  /\ getQRCode sessionId r.2 = None
  /\ exists t,
       trace r.2 = (trace w ++ t)%list
       /\ List.filter is_timer t = []
       /\ List.filter is_disconnect_callback t
          = if onDisconnected callbacks
            then [EvOnDisconnected sessionId
                    (ReasonError
                       (new_Error "Session corrupted (Bad MAC). Please scan QR again."))]
            else [].
Proof.
  intros Hmac Hcl. cbn zeta. unfold on_close. unfold_M. rewrite Hmac.
  set (w0 := HealthMonitor.recordEvent sessionId failure w).
  assert (Hcl0 : closes env sessionId w0 = true) by exact Hcl.
  destruct (handleSessionCorruption_effects env sessionId (onDisconnected callbacks) w0)
    as (Hok & Htrace & Hfields).
  rewrite Hcl0 in Hfields. destruct Hfields as (Hs & Hq & _).
  split; [exact Hok|]. unfold getSession, getQRCode.
  rewrite Hs, Hq, !lookup_delete_eq. repeat split. exact Htrace.
Qed.

Lemma corruption_on_close_removes_session_witness :
  let ld := {| ld_error := Some {| de_error := new_Error "Bad MAC Error: Bad MAC";
                                   de_boom_status := None |} |} in
  let r := on_close Examples.calm "s1" no_callbacks (Some ld) Examples.connected in
  r.1 = Ok tt /\ getSession "s1" r.2 = None /\ getQRCode "s1" r.2 = None.
Proof.
  destruct (corruption_on_close_removes_session Examples.calm "s1" no_callbacks
              {| ld_error := Some {| de_error := new_Error "Bad MAC Error: Bad MAC";
                                     de_boom_status := None |} |}
              Examples.connected eq_refl eq_refl)
    as (H1 & H2 & H3 & _).
  repeat split; assumption.
Defined.

(** X24.  A line of the socket's log that contains 'Bad MAC' or
    'Session error' runs the same recovery without any close event: when
    ending the socket does not raise, the session is gone from the
    registry and from the QR cache, no timer is scheduled, and
    [onDisconnected] is called once with the corrupted-session error.  A
    line with neither text changes nothing. *)
Theorem corruption_in_logs_removes_session
    (env : Env) (sessionId : string) (callbacks : Callbacks)
    (msgStr : string) (w : World) :
  closes env sessionId w = true ->
  let r := logger_write env sessionId callbacks msgStr w in
  if JsString.includes msgStr "Bad MAC" || JsString.includes msgStr "Session error"
  then r.1 = Ok tt
       /\ getSession sessionId r.2 = None
       /\ getQRCode sessionId r.2 = None
       /\ exists t,
            trace r.2 = (trace w ++ t)%list
            /\ List.filter is_timer t = []
            /\ List.filter is_disconnect_callback t
               = if onDisconnected callbacks
                 then [EvOnDisconnected sessionId
                         (ReasonError
                            (new_Error "Session corrupted (Bad MAC). Please scan QR again."))]
                 else []
  else r = (Ok tt, w).
Proof.
  intros Hcl. cbn zeta. unfold logger_write. unfold Bad_MAC.
  destruct (JsString.includes msgStr "Bad MAC" || JsString.includes msgStr "Session error");
    [|reflexivity].
  cbn [when]. unfold_M.
  set (w0 := console_error ("DETECTED BAD MAC IN LOGS for " ++ sessionId) w).
  assert (Hcl0 : closes env sessionId w0 = true) by exact Hcl.
  destruct (handleSessionCorruption_effects env sessionId (onDisconnected callbacks) w0)
    as (Hok & (t & Ht & Htimer & Hcb) & Hfields).
  rewrite Hcl0 in Hfields. destruct Hfields as (Hs & Hq & _).
  split; [exact Hok|]. unfold getSession, getQRCode.
  rewrite Hs, Hq, !lookup_delete_eq. repeat split.
  exists ([EvConsoleError ("DETECTED BAD MAC IN LOGS for " ++ sessionId)] ++ t)%list.
  rewrite Ht. subst w0. cbn [console_error emit trace]. rewrite <- app_assoc.
  split; [reflexivity|]. rewrite !List.filter_app, Htimer, Hcb. split; reflexivity.
Qed.

Lemma corruption_in_logs_removes_session_witness :
  let r := logger_write Examples.calm "s1" no_callbacks "Session error: Bad MAC"
             Examples.connected in
  r.1 = Ok tt /\ getSession "s1" r.2 = None /\ getQRCode "s1" r.2 = None.
Proof.
  pose proof (corruption_in_logs_removes_session Examples.calm "s1" no_callbacks
                "Session error: Bad MAC" Examples.connected eq_refl) as H.
  cbn zeta in H.
  change (JsString.includes "Session error: Bad MAC" "Bad MAC"
          || JsString.includes "Session error: Bad MAC" "Session error") with true in H.
  destruct H as (H1 & H2 & H3 & _). repeat split; assumption.
Defined.

(** ** The queries *)

Section Queries.




End Queries.



(** ** The transport queries *)

(** X28.  [checkNumberExists] never raises and never touches the manager:
    it answers [true] exactly when the session is registered and the
    transport's first answer for the normalised address says the number
    exists, and [false] in every other case (unknown session, transport
    error, empty answer); one error line is logged exactly when the
    session is unknown or the transport raised.  Unlike [sendMessage] it
    does not look at whether the session is authenticated. *)
Theorem checkNumberExists_total
    (onWhatsApp : handle -> string -> Result (list bool))
    (sessionId phoneNumber : string) (w : World) :
  let r := checkNumberExists onWhatsApp sessionId phoneNumber w in
  let found :=
    match getSession sessionId w with
    | Some sock =>
        match onWhatsApp sock (formatPhoneNumber phoneNumber) with
        | Ok answers => Some (default false (head answers))
        | Throw _ => None
        end
    | None => None
    end in
  r.1 = Ok (default false found)
  /\ same_manager_state w r.2
  /\ trace r.2 = (trace w ++ match found with
                             | Some _ => []
                             | None => [EvConsoleError "Error checking number"]
                             end)%list.
Proof.
  cbn zeta. unfold checkNumberExists, same_manager_state. unfold_M.
  unfold getSession.
  destruct (sessions w !! sessionId) as [sock|]; cbn.
  - destruct (onWhatsApp sock (formatPhoneNumber phoneNumber)) as [answers|e]; cbn;
      rewrite ?app_nil_r; repeat split; reflexivity.
  - repeat split; reflexivity.
Qed.

(** X29.  [getGroups] raises, after logging one error line, when the
    session is unknown, when it is not authenticated, or when the
    transport raises; otherwise it returns one summary per group the
    transport reported, in the same order, with the group's id and its
    number of participants, and logs nothing.  It never touches the
    manager. *)
Theorem getGroups_outcome
    (groupFetchAllParticipating : handle -> Result (list GroupMetadata))
    (sessionId : string) (w : World) :
  let r := getGroups groupFetchAllParticipating sessionId w in
  same_manager_state w r.2
  /\ match r.1 with
     | Ok summaries =>
         exists sock groups,
           getSession sessionId w = Some sock
           /\ is_Some (user_of w sock)
           /\ groupFetchAllParticipating sock = Ok groups
           /\ gs_id <$> summaries = group_id <$> groups
           /\ gs_participants <$> summaries
              = (fun g => length (group_participants g)) <$> groups
           /\ trace r.2 = trace w
     | Throw e =>
         trace r.2 = (trace w ++ [EvConsoleError "Error fetching groups"])%list
         /\ match getSession sessionId w with
            | None => e = new_Error ("Session " ++ sessionId ++ " not found")
            | Some sock =>
                match user_of w sock with
                | None => e = new_Error ("Session " ++ sessionId ++ " is not connected")
                | Some _ => groupFetchAllParticipating sock = Throw e
                end
            end
     end.
Proof.
  cbn zeta. unfold getGroups, same_manager_state. unfold_M. unfold getSession.
  destruct (sessions w !! sessionId) as [sock|] eqn:Hs; cbn.
  - destruct (user_of w sock) as [u|] eqn:Hu; cbn.
    + destruct (groupFetchAllParticipating sock) as [groups|e] eqn:Hg; cbn.
      * split; [repeat split; reflexivity|].
        exists sock, groups. rewrite Hu.
        split; [reflexivity|]. split; [eauto|]. split; [exact Hg|].
        rewrite <- !list_fmap_compose. repeat split; reflexivity.
      * rewrite ?Hu. repeat split; first [reflexivity | exact Hg].
    + rewrite ?Hu. repeat split; reflexivity.
  - repeat split; reflexivity.
Qed.
